(** * QA pipeline: generate, execute, report

    A shallow embedding of the queue-driven QA pipeline
    (backend/api/generateTests, backend/api/runTests, backend/api/jobStatus,
    backend/api/orchestrateQA and backend/shared/{storage,queue}) together
    with the properties of its stage hand-offs: status derivation, the
    write-before-enqueue and evidence-then-summary orderings, the generation
    fallback and the read side of the status endpoint.

    The external collaborators (blob storage, queues, the model client, the
    sandboxed runner, the file system) are an explicit environment [Env] of
    outcomes; the stages are written in a small state-and-exception monad
    over a [World] that holds the blob store, the queues and the trace of
    acknowledged effects. *)

From Stdlib Require Import ZArith Ascii String List Bool Lia.
From stdpp Require Import base option list strings pretty gmap fin_maps.

Set Warnings "-register-all".

Local Open Scope string_scope.
Local Open Scope Z_scope.
Local Open Scope list_scope.

(* ===================================================================== *)
(** * JavaScript values and strings *)
(* ===================================================================== *)

Module Js.

(** A parsed JSON document.  Property order is kept as written. *)
Inductive json : Type :=
| JNull
| JBool (b : bool)
| JNum (n : Z)
| JStr (s : string)
| JArr (items : list json)
| JObj (fields : list (string * json)).

(** ToBoolean on JSON values. *)
Definition truthy (v : json) : bool :=
  match v with
  | JNull => false
  | JBool b => b
  | JNum n => negb (n =? 0)
  | JStr s => negb (bool_decide (s = ""))
  | JArr _ => true
  | JObj _ => true
  end.

Fixpoint assoc (k : string) (fields : list (string * json)) : option json :=
  match fields with
  | [] => None
  | (k', v) :: rest => if bool_decide (k' = k) then Some v else assoc k rest
  end.

(** [o.k]; [None] is [undefined].  Primitives and arrays have none of the
    properties read by the pipeline. *)
Definition get (o : json) (k : string) : option json :=
  match o with
  | JObj fields => assoc k fields
  | _ => None
  end.

(** [v || d] where [v] may be [undefined]. *)
Definition or_else (v : option json) (d : json) : json :=
  match v with
  | Some j => if truthy j then j else d
  | None => d
  end.

(** Truthiness of a string-or-undefined value. *)
Definition truthy_str (v : option string) : bool :=
  match v with
  | Some s => negb (bool_decide (s = ""))
  | None => false
  end.

(** [a || b] on string-or-undefined values with a string default. *)
Definition str_or (v : option string) (d : string) : string :=
  match v with
  | Some s => if bool_decide (s = "") then d else s
  | None => d
  end.

(** [n || 0] on a number-or-undefined value. *)
Definition num_or0 (v : option Z) : Z :=
  match v with
  | Some n => n
  | None => 0
  end.

(** [n > 0] on a number-or-undefined value ([undefined > 0] is false). *)
Definition gt0 (v : option Z) : bool :=
  match v with
  | Some n => 0 <? n
  | None => false
  end.

Fixpoint starts_with (p s : string) : bool :=
  match p, s with
  | EmptyString, _ => true
  | String a p', String b s' => bool_decide (a = b) && starts_with p' s'
  | String _ _, EmptyString => false
  end.

(** [s.includes(needle)]. *)
Fixpoint includes (needle s : string) : bool :=
  starts_with needle s ||
  match s with
  | EmptyString => false
  | String _ s' => includes needle s'
  end.

Fixpoint drop_chars (n : nat) (s : string) : string :=
  match n, s with
  | O, _ => s
  | S n', String _ s' => drop_chars n' s'
  | S _, EmptyString => EmptyString
  end.

(** [s.replace(pat, '')] for a string pattern: the first occurrence goes. *)
Fixpoint remove_first (pat s : string) : string :=
  if starts_with pat s then drop_chars (String.length pat) s
  else match s with
       | EmptyString => EmptyString
       | String c s' => String c (remove_first pat s')
       end.

Definition lower_char (c : ascii) : ascii :=
  let n := nat_of_ascii c in
  if (Nat.leb 65 n && Nat.leb n 90)%bool then ascii_of_nat (n + 32) else c.

(** [s.toLowerCase()] on the ASCII range. *)
Fixpoint toLowerCase (s : string) : string :=
  match s with
  | EmptyString => EmptyString
  | String c s' => String (lower_char c) (toLowerCase s')
  end.

(** [s.endsWith(suffix)]. *)
Fixpoint ends_with (suffix s : string) : bool :=
  bool_decide (s = suffix) ||
  match s with
  | EmptyString => false
  | String _ s' => ends_with suffix s'
  end.

(** [path.extname] on an entry name (a name without [/]): the text from
    the last dot on, empty when there is no dot, when the only dot leads
    the name, and for the name [..]. *)
Fixpoint last_dot_suffix (s : string) : option string :=
  match s with
  | EmptyString => None
  | String c s' =>
      match last_dot_suffix s' with
      | Some e => Some e
      | None => if bool_decide (c = "."%char) then Some s else None
      end
  end.

Definition extname (name : string) : string :=
  if bool_decide (name = "..") then ""
  else match name with
       | EmptyString => ""
       | String _ rest =>
           match last_dot_suffix rest with
           | Some e => e
           | None => ""
           end
       end.

(** The segments of a path between its [/] separators; [cur] is the
    segment being read. *)
Fixpoint segments_from (cur s : string) : list string :=
  match s with
  | EmptyString => [cur]
  | String c rest =>
      if bool_decide (c = "/"%char) then cur :: segments_from "" rest
      else segments_from (cur +:+ String c "") rest
  end.

(** [normalizeString] of Node's [path]: empty and [.] segments are
    dropped, [..] removes the segment before it, or is kept when there is
    none to remove and the path is relative.  [kept] holds the segments
    kept so far, last first. *)
Fixpoint resolve_segments (allowAboveRoot : bool) (kept segs : list string)
    : list string :=
  match segs with
  | [] => rev kept
  | seg :: rest =>
      if bool_decide (seg = "") || bool_decide (seg = ".")
      then resolve_segments allowAboveRoot kept rest
      else if bool_decide (seg = "..") then
        match kept with
        | top :: below =>
            if bool_decide (top = "..")
            then resolve_segments allowAboveRoot (".." :: kept) rest
            else resolve_segments allowAboveRoot below rest
        | [] =>
            if allowAboveRoot
            then resolve_segments allowAboveRoot [".."] rest
            else resolve_segments allowAboveRoot [] rest
        end
      else resolve_segments allowAboveRoot (seg :: kept) rest
  end.

Fixpoint join_segments (segs : list string) : string :=
  match segs with
  | [] => ""
  | [seg] => seg
  | seg :: rest => seg +:+ "/" +:+ join_segments rest
  end.

(** [path.posix.normalize]. *)
Definition path_normalize (p : string) : string :=
  if bool_decide (p = "") then "."
  else
    let isAbsolute := starts_with "/" p in
    let trailing := ends_with "/" p in
    let body := join_segments
                  (resolve_segments (negb isAbsolute) [] (segments_from "" p)) in
    if bool_decide (body = "") then
      if isAbsolute then "/" else if trailing then "./" else "."
    else
      let body := if trailing then body +:+ "/" else body in
      if isAbsolute then "/" +:+ body else body.

(** [path.join(dir, name)] on a POSIX host: the non-empty arguments are
    joined by [/] and the result is normalised. *)
Definition path_join (dir name : string) : string :=
  if bool_decide (dir = "") then path_normalize name
  else if bool_decide (name = "") then path_normalize dir
  else path_normalize (dir +:+ "/" +:+ name).

(** The double-quote character, used in the storage helper's messages. *)
Definition dq : string := String (ascii_of_nat 34) EmptyString.

End Js.

Import Js.

(* ===================================================================== *)
(** * Results harvested from the runner's output directory *)
(* ===================================================================== *)

(** The [stats] object of a JSON report.  Counters are integers when
    present, as the JSON reporters write them and as the RunSummary schema
    types them; [None] is an absent property. *)
Record Stats := mkStats {
  st_total : option Z;
  st_passed : option Z;
  st_failed : option Z;
  st_skipped : option Z;
  st_duration : option Z
}.

(** A parsed report value: the document, and its [stats] property as the
    executor reads it, [None] when absent or falsy. *)
Record Report := mkReport {
  rep_doc : json;
  rep_stats : option Stats
}.

(** The outcome of [JSON.parse] on a file's text: a SyntaxError, the value
    [null] (whose property access throws a TypeError), or another value. *)
Inductive Parsed : Type :=
| SyntaxError
| ParsedNull
| ParsedValue (r : Report).

Record Summary := mkSummary {
  total : Z;
  passed : Z;
  failed : Z;
  skipped : Z;
  duration : Z
}.

(** A file on disk: [Unreadable] makes [fs.readFile] throw; [Readable]
    carries the text and what [JSON.parse] makes of it. *)
Inductive FileBody : Type :=
| Unreadable (err : string)
| Readable (text : string) (parsed : Parsed).

(** A directory entry; a directory whose listing is [None] makes
    [fs.readdir] throw. *)
Inductive FsEntry : Type :=
| File (name : string) (body : FileBody)
| Dir (name : string) (listing : option (list FsEntry)).

Definition entry_name (e : FsEntry) : string :=
  match e with
  | File n _ => n
  | Dir n _ => n
  end.

Record Screenshot := mkScreenshot {
  sh_name : string;
  sh_path : string;
  sh_size : nat;
  sh_content : string
}.

Record LogFile := mkLogFile {
  lg_name : string;
  lg_path : string;
  lg_content : string
}.

(** The content kept for a report: the parsed value of a JSON report or
    the text of an HTML one. *)
Inductive ReportContent : Type :=
| RJson (doc : json)
| RHtml (text : string).

Record ReportFile := mkReportFile {
  rp_name : string;
  rp_path : string;
  rp_type : string;
  rp_content : ReportContent
}.

Record TestResults := mkTestResults {
  tr_screenshots : list Screenshot;
  tr_logs : list LogFile;
  tr_reports : list ReportFile;
  tr_status : string;
  tr_summary : option Summary
}.

Module Collect.

Definition initial : TestResults :=
  {| tr_screenshots := []; tr_logs := []; tr_reports := [];
     tr_status := "unknown"; tr_summary := None |}.

(** runTests/index.js 113-114. *)
Definition statusOfStats (s : Stats) : string :=
  if gt0 (st_failed s) then "failed"
  else if gt0 (st_passed s) then "passed"
  else "unknown".

(** runTests/index.js 115-121. *)
Definition summaryOfStats (s : Stats) : Summary :=
  {| total := num_or0 (st_total s);
     passed := num_or0 (st_passed s);
     failed := num_or0 (st_failed s);
     skipped := num_or0 (st_skipped s);
     duration := num_or0 (st_duration s) |}.

Definition push_screenshot (x : Screenshot) (r : TestResults) : TestResults :=
  {| tr_screenshots := tr_screenshots r ++ [x]; tr_logs := tr_logs r;
     tr_reports := tr_reports r; tr_status := tr_status r;
     tr_summary := tr_summary r |}.

Definition push_log (x : LogFile) (r : TestResults) : TestResults :=
  {| tr_screenshots := tr_screenshots r; tr_logs := tr_logs r ++ [x];
     tr_reports := tr_reports r; tr_status := tr_status r;
     tr_summary := tr_summary r |}.

Definition push_report (x : ReportFile) (r : TestResults) : TestResults :=
  {| tr_screenshots := tr_screenshots r; tr_logs := tr_logs r;
     tr_reports := tr_reports r ++ [x]; tr_status := tr_status r;
     tr_summary := tr_summary r |}.

Definition set_outcome (s : Stats) (r : TestResults) : TestResults :=
  {| tr_screenshots := tr_screenshots r; tr_logs := tr_logs r;
     tr_reports := tr_reports r; tr_status := statusOfStats s;
     tr_summary := Some (summaryOfStats s) |}.

(** Lines 72-74: only the three collections of a subdirectory are kept. *)
Definition merge_sub (r sub : TestResults) : TestResults :=
  {| tr_screenshots := tr_screenshots r ++ tr_screenshots sub;
     tr_logs := tr_logs r ++ tr_logs sub;
     tr_reports := tr_reports r ++ tr_reports sub;
     tr_status := tr_status r;
     tr_summary := tr_summary r |}.

Definition is_screenshot (ext fileName : string) : bool :=
  bool_decide (ext = ".png") || bool_decide (ext = ".jpg")
  || bool_decide (ext = ".jpeg") || includes "screenshot" fileName.

Definition is_log (ext fileName : string) : bool :=
  bool_decide (ext = ".log") || bool_decide (ext = ".txt")
  || includes "log" fileName.

(** One iteration of the loop either goes on with the updated results or
    throws, which ends the loop with the results as they stand. *)
Inductive Step : Type :=
| Next (results : TestResults)
| Thrown (results : TestResults).

(** The [else] branch of lines 75-124 for one plain file. *)
Definition collectFile (filePath name : string) (body : FileBody)
    (results : TestResults) : Step :=
  let ext := toLowerCase (extname name) in
  let fileName := toLowerCase name in
  if is_screenshot ext fileName then
    match body with
    | Unreadable _ => Thrown results
    | Readable text _ =>
        Next (push_screenshot
                {| sh_name := name; sh_path := filePath;
                   sh_size := String.length text; sh_content := text |}
                results)
    end
  else if is_log ext fileName then
    match body with
    | Unreadable _ => Thrown results
    | Readable text _ =>
        Next (push_log {| lg_name := name; lg_path := filePath;
                          lg_content := text |} results)
    end
  else if bool_decide (ext = ".json") then
    match body with
    | Unreadable _ => Thrown results
    | Readable _ SyntaxError => Thrown results
    | Readable _ ParsedNull =>
        (* pushed at 104-109, then [content.stats] throws at 112 *)
        Thrown (push_report {| rp_name := name; rp_path := filePath;
                               rp_type := "json"; rp_content := RJson JNull |}
                            results)
    | Readable _ (ParsedValue rep) =>
        let results' :=
          push_report {| rp_name := name; rp_path := filePath;
                         rp_type := "json";
                         rp_content := RJson (rep_doc rep) |}
                      results in
        match rep_stats rep with
        | Some s => Next (set_outcome s results')
        | None => Next results'
        end
    end
  else if bool_decide (ext = ".html") then
    match body with
    | Unreadable _ => Thrown results
    | Readable text _ =>
        Next (push_report {| rp_name := name; rp_path := filePath;
                             rp_type := "html"; rp_content := RHtml text |}
                          results)
    end
  else Next results.

(** The [for] loop of lines 66-125 under its [try]: an exception ends
    it and the results gathered so far are returned. *)
Definition loop (recur : string -> FsEntry -> TestResults)
    (resultsPath : string) : list FsEntry -> TestResults -> TestResults :=
  fix go (files : list FsEntry) (results : TestResults) : TestResults :=
    match files with
    | [] => results
    | file :: rest =>
        let filePath := path_join resultsPath (entry_name file) in
        match file with
        | Dir _ _ => go rest (merge_sub results (recur filePath file))
        | File name body =>
            match collectFile filePath name body results with
            | Next results' => go rest results'
            | Thrown results' => results'
            end
        end
    end.

(** [collectTestResults(resultsPath)], with the directory found at
    [resultsPath] as second argument. *)
Fixpoint collectTestResults (resultsPath : string) (node : FsEntry)
    : TestResults :=
  match node with
  | Dir _ (Some files) => loop collectTestResults resultsPath files initial
  | Dir _ None => initial
  | File _ _ => initial
  end.

(** runTests/index.js 338-341; the exit code is a JavaScript value
    ([error.code || 1] may be a number or a string). *)
Definition finalStatus (status : string) (exitCode : json) : string :=
  if bool_decide (status = "unknown") then
    match exitCode with
    | JNum 0 => "passed"
    | _ => "failed"
    end
  else status.

End Collect.

(* ===================================================================== *)
(** * Status derivation *)
(* ===================================================================== *)

Module StatusDerivation.
Import Collect.

(** The exit-code tier: [0] is a pass, anything else a failure. *)
Definition exitStatus (exitCode : json) : string :=
  match exitCode with
  | JNum 0 => "passed"
  | _ => "failed"
  end.

(** The status the counters of a summary stand for. *)
Definition statusOfSummary (s : Summary) : string :=
  if 0 <? failed s then "failed"
  else if 0 <? passed s then "passed"
  else "unknown".

(** The two-tier rule as the specification words it: the counters decide
    whenever a summary exists, the exit code only when none does. *)
Definition specStatus (summary : option Summary) (exitCode : json) : string :=
  match summary with
  | Some s => statusOfSummary s
  | None => exitStatus exitCode
  end.

(** The rule the executor follows: positive counters decide, and every
    other case, with or without a summary, goes to the exit code. *)
Definition codeStatus (summary : option Summary) (exitCode : json) : string :=
  match summary with
  | Some s =>
      if 0 <? failed s then "failed"
      else if 0 <? passed s then "passed"
      else exitStatus exitCode
  | None => exitStatus exitCode
  end.

(** Status and summary of harvested results always come from the same
    [stats] object. *)
Definition coherent (r : TestResults) : Prop :=
  tr_status r = match tr_summary r with
                | Some s => statusOfSummary s
                | None => "unknown"
                end.

End StatusDerivation.

(* ===================================================================== *)
(** * The world the stages run in *)
(* ===================================================================== *)

Module Runtime.

(** The result of a call that may throw; [Throw] carries [error.message]. *)
Inductive Outcome (A : Type) : Type :=
| Ok (a : A)
| Throw (message : string).
Arguments Ok {A} a.
Arguments Throw {A} message.

(** The payload of a blob: plain text (scripts, logs, images, HTML) or the
    text [JSON.stringify] writes for a document. *)
Inductive BlobData : Type :=
| RawText (text : string)
| JsonText (doc : json).

Record StoredBlob := mkStoredBlob {
  sb_data : BlobData;
  sb_contentType : option string;
  sb_metadata : list (string * string);
  sb_lastModified : string
}.

(** A work item as the generators see it; [None] is an absent property. *)
Record WorkItem := mkWorkItem {
  workItemId : option string;
  title : option string;
  description : option string;
  url : option string;
  acceptanceCriteria : option string;
  workItemType : option string;
  priority : option Z
}.

(** The prompts sent to the model, with the data their templates quote:
    the three of generateTests/promptTemplates.js and the two built in
    shared/qa-workflow/testGenerator.js. *)
Inductive Prompt : Type :=
| CombinedPrompt (wi : WorkItem)
| TestScriptPrompt (wi : WorkItem)
| ExploratoryScenariosPrompt (wi : WorkItem)
| WorkflowScenariosPrompt (wi : WorkItem)
| WorkflowScriptPrompt (wi : WorkItem) (criticalScenario : json).

(** The text of a completion with what the parsers used on it return:
    [JSON.parse] of the whole text, the JSON object inside a fenced block
    (the first capture of the fence pattern, parsed) and the bracketed
    array pattern (its match, parsed).  An inner [None] is a SyntaxError,
    an outer [None] a pattern that does not match. *)
Record Reply := mkReply {
  content : string;
  parsedJson : option json;
  fencedJson : option (option json);
  bracketedJson : option (option json)
}.

(** An error of [child_process.exec] or [fs]: [code] is a number (exit
    code), a string (errno name) or [null] (killed by a signal, as the
    timeout does). *)
Record ExecError := mkExecError {
  ee_code : json;
  ee_killed : bool;
  ee_stdout : option string;
  ee_stderr : option string;
  ee_message : string
}.

(** What one sandbox invocation meets: the outcome of each file-system
    and process step of [runTestsWithMount] and the directory tree found
    at the results path afterwards. *)
Record SandboxRun := mkSandboxRun {
  sr_mkdtemp : Outcome string;
  sr_writeFile : option ExecError;
  sr_mkdir : option ExecError;
  sr_exec : ExecError + (string * string);
  sr_results : FsEntry
}.

(** The process environment, the pure runtime functions the stages use
    on text ([JSON.stringify], [trim], the code-fence pattern of the script
    clean-up, the message of the SyntaxError [JSON.parse] throws on a text
    it rejects, which may quote the text), the readings of the wall clock
    ([new Date().toISOString()] and [Date.now() - startTime]) and the
    collaborators.  Every call to a collaborator is indexed by the clock
    of the world, so that the same call may succeed at one time and fail
    at another. *)
Record Env := mkEnv {
  getenv : string -> option string;
  now : string;
  uuidv4 : nat -> string;
  blobUrl : string -> string -> string;
  stringify : json -> string;
  trim : string -> string;
  codeBlock : string -> option string;
  syntaxError : string -> string;
  elapsedMs : Z;
  blobExists : nat -> string -> string -> Outcome unit;
  blobWrite : nat -> string -> string -> Outcome unit;
  blobRead : nat -> string -> string -> Outcome unit;
  blobList : nat -> string -> string -> Outcome unit;
  queueSend : nat -> string -> Outcome unit;
  chat : nat -> Prompt -> Outcome Reply;
  webhook : nat -> string -> Outcome unit;
  sandbox : nat -> string -> string -> list (string * string) -> SandboxRun
}.

(** Acknowledged effects, oldest first. *)
Inductive Event : Type :=
| Uploaded (container blobName : string)
| Enqueued (queue : string) (message : json)
| ModelCalled (p : Prompt)
| Notified (url : string)
| SandboxRan.

Record World := mkWorld {
  blobs : gmap (string * string) StoredBlob;
  queue : list (string * json);
  trace : list Event;
  clock : nat
}.

Definition emptyWorld : World :=
  {| blobs := ∅; queue := []; trace := []; clock := O |}.

(** State and exceptions: an [async] function body. *)
Definition M (A : Type) : Type := World -> Outcome A * World.

Definition ret {A} (a : A) : M A := fun w => (Ok a, w).

Definition throw {A} (message : string) : M A := fun w => (Throw message, w).

Definition bind {A B} (m : M A) (k : A -> M B) : M B :=
  fun w =>
    match m w with
    | (Ok a, w') => k a w'
    | (Throw e, w') => (Throw e, w')
    end.

(** [try { body } catch (error) { handler }]. *)
Definition try_catch {A} (body : M A) (handler : string -> M A) : M A :=
  fun w =>
    match body w with
    | (Ok a, w') => (Ok a, w')
    | (Throw e, w') => handler e w'
    end.

Definition lift {A} (o : Outcome A) : M A := fun w => (o, w).

(** One round trip to a collaborator: the clock advances. *)
Definition tick : M nat :=
  fun w => (Ok (clock w),
            {| blobs := blobs w; queue := queue w; trace := trace w;
               clock := S (clock w) |}).

Definition emit (e : Event) : M unit :=
  fun w => (Ok tt,
            {| blobs := blobs w; queue := queue w; trace := trace w ++ [e];
               clock := clock w |}).

Definition getWorld : M World := fun w => (Ok w, w).

Definition putBlob (container blobName : string) (b : StoredBlob) : M unit :=
  fun w => (Ok tt,
            {| blobs := <[(container, blobName) := b]> (blobs w);
               queue := queue w; trace := trace w; clock := clock w |}).

Definition pushMessage (queueName : string) (message : json) : M unit :=
  fun w => (Ok tt,
            {| blobs := blobs w; queue := queue w ++ [(queueName, message)];
               trace := trace w; clock := clock w |}).

End Runtime.

Import Runtime.

Declare Scope js_scope.
Delimit Scope js_scope with js.
Notation "x <- m ;; k" := (bind m (fun x => k))
  (at level 100, m at next level, right associativity) : js_scope.
Notation "m ;;; k" := (bind m (fun _ => k))
  (at level 100, right associativity) : js_scope.
Local Open Scope js_scope.

(* ===================================================================== *)
(** * backend/shared/storage.js *)
(* ===================================================================== *)

Module Storage.

(** [getContainerClient]: lines 40-47 with [getBlobServiceClient]. *)
Definition getContainerClient (env : Env) (containerName : string) : M unit :=
  if bool_decide (containerName = "") then throw "Container name is required"
  else if truthy_str (getenv env "AZURE_STORAGE_CONNECTION_STRING") then ret tt
  else throw ("Azure Storage connection string is required. Set " +:+
              "AZURE_STORAGE_CONNECTION_STRING environment variable or " +:+
              "pass it as parameter.").

(** Re-throwing under a new message, as every helper's [catch] does. *)
Definition rethrow {A} (pre : string) (body : M A) : M A :=
  try_catch body (fun message => throw (pre +:+ message)).

(** [uploadBlob]: the blob is in the store when, and only when, the
    service acknowledged the write. *)
Definition uploadBlob (env : Env) (containerName blobName : string)
    (data : BlobData) (contentType : string)
    (metadata : list (string * string)) : M string :=
  rethrow ("Failed to upload blob " +:+ dq +:+ blobName +:+ dq +:+
           " to container " +:+ dq +:+ containerName +:+ dq +:+ ": ")
    (getContainerClient env containerName ;;;
     t <- tick ;;
     lift (blobWrite env t containerName blobName) ;;;
     putBlob containerName blobName
       {| sb_data := data; sb_contentType := Some contentType;
          sb_metadata := metadata; sb_lastModified := now env |} ;;;
     emit (Uploaded containerName blobName) ;;;
     ret (blobUrl env containerName blobName)).

(** [downloadBlob] with [asBuffer]: the existence check, then the read. *)
Definition downloadBlob (env : Env) (containerName blobName : string)
    : M BlobData :=
  rethrow ("Failed to download blob " +:+ dq +:+ blobName +:+ dq +:+
           " from container " +:+ dq +:+ containerName +:+ dq +:+ ": ")
    (getContainerClient env containerName ;;;
     t <- tick ;;
     lift (blobExists env t containerName blobName) ;;;
     w <- getWorld ;;
     match blobs w !! (containerName, blobName) with
     | None =>
         throw ("Blob " +:+ dq +:+ blobName +:+ dq +:+
                " does not exist in container " +:+ dq +:+ containerName
                +:+ dq)
     | Some b =>
         t' <- tick ;;
         lift (blobRead env t' containerName blobName) ;;;
         ret (sb_data b)
     end).

Definition textOf (env : Env) (d : BlobData) : string :=
  match d with
  | RawText text => text
  | JsonText doc => stringify env doc
  end.

Definition downloadBlobAsString (env : Env) (containerName blobName : string)
    : M string :=
  d <- downloadBlob env containerName blobName ;;
  ret (textOf env d).

(** [downloadBlobAsJson]: [RawText] stands for text [JSON.parse] rejects;
    the error carries the parser's own message (line 168). *)
Definition downloadBlobAsJson (env : Env) (containerName blobName : string)
    : M json :=
  d <- downloadBlob env containerName blobName ;;
  match d with
  | JsonText doc => ret doc
  | RawText text =>
      throw ("Failed to parse JSON from blob " +:+ dq +:+ blobName +:+ dq
             +:+ ": " +:+ syntaxError env text)
  end.

Record BlobItem := mkBlobItem {
  bi_name : string;
  bi_contentLength : Z;
  bi_contentType : option string;
  bi_lastModified : string
}.

Definition itemOf (env : Env) (kv : (string * string) * StoredBlob) : BlobItem :=
  {| bi_name := snd (fst kv);
     bi_contentLength := Z.of_nat (String.length (textOf env (sb_data (snd kv))));
     bi_contentType := sb_contentType (snd kv);
     bi_lastModified := sb_lastModified (snd kv) |}.

(** The blobs of a container whose name starts with [prefix]; the order
    of a listing is left to the store. *)
Definition blobsUnder (env : Env) (w : World) (containerName prefix : string)
    : list BlobItem :=
  itemOf env <$>
    filter (fun kv => fst (fst kv) = containerName
                      /\ starts_with prefix (snd (fst kv)) = true)
           (map_to_list (blobs w)).

(** [listBlobs] with a [prefix] option. *)
Definition listBlobs (env : Env) (containerName prefix : string)
    : M (list BlobItem) :=
  rethrow ("Failed to list blobs in container " +:+ dq +:+ containerName
           +:+ dq +:+ ": ")
    (getContainerClient env containerName ;;;
     t <- tick ;;
     lift (blobList env t containerName prefix) ;;;
     w <- getWorld ;;
     ret (blobsUnder env w containerName prefix)).

End Storage.

(* ===================================================================== *)
(** * backend/shared/queue.js *)
(* ===================================================================== *)

Module Queue.

Definition getQueueClient (env : Env) (queueName : string) : M unit :=
  if bool_decide (queueName = "") then throw "Queue name is required"
  else if truthy_str (getenv env "AZURE_STORAGE_CONNECTION_STRING") then ret tt
  else throw ("Azure Storage connection string is required. Set " +:+
              "AZURE_STORAGE_CONNECTION_STRING environment variable or " +:+
              "pass it as parameter.").

(** [enqueueMessage]: the message is on the queue when, and only when,
    [sendMessage] returned. *)
Definition enqueueMessage (env : Env) (queueName : string) (message : json)
    : M unit :=
  Storage.rethrow ("Failed to enqueue message to queue " +:+ dq +:+ queueName
                   +:+ dq +:+ ": ")
    (getQueueClient env queueName ;;;
     t <- tick ;;
     lift (queueSend env t queueName) ;;;
     pushMessage queueName message ;;;
     emit (Enqueued queueName message)).

End Queue.

(* ===================================================================== *)
(** * backend/api/generateTests: the queue-triggered generator

    Line numbers are those of the listing that opens with
    promptTemplates.js and continues with the function's index.js. *)
(* ===================================================================== *)

Module GenerateTests.

(** [getOpenAIClient]: only the missing key makes it throw. *)
Definition getOpenAIClient (env : Env) (message : string) : M unit :=
  if truthy_str (getenv env "AZURE_OPENAI_API_KEY")
     || truthy_str (getenv env "OPENAI_API_KEY")
  then ret tt
  else throw message.

Definition keyRequired : string :=
  "OpenAI API key is required. Set OPENAI_API_KEY or AZURE_OPENAI_API_KEY "
  +:+ "environment variable.".

(** [client.chat.completions.create] followed by
    [completion.choices[0].message.content]. *)
Definition complete (env : Env) (p : Prompt) : M Reply :=
  t <- tick ;;
  emit (ModelCalled p) ;;;
  lift (chat env t p).

(** [o.k] as JavaScript evaluates it: reading a property of [null] throws. *)
Definition prop (o : json) (k : string) : M (option json) :=
  match o with
  | JNull => throw ("Cannot read properties of null (reading '" +:+ k +:+ "')")
  | _ => ret (get o k)
  end.

Definition isArray (v : option json) : bool :=
  match v with
  | Some (JArr _) => true
  | _ => false
  end.

Definition arrayOr (v : option json) (d : list json) : list json :=
  match v with
  | Some (JArr items) => items
  | _ => d
  end.

Definition truthy_opt (v : option json) : bool :=
  match v with
  | Some j => truthy j
  | None => false
  end.

Record Generated := mkGenerated {
  testScript : json;
  scenarios : json
}.

(** [generateTestsWithAI], lines 200-256 of the generateTests unit. *)
Definition generateTestsWithAI (env : Env) (workItem : WorkItem) : M Generated :=
  getOpenAIClient env keyRequired ;;;
  Storage.rethrow "Failed to generate tests with AI: "
    (reply <- complete env (CombinedPrompt workItem) ;;
     result <- match parsedJson reply with
               | Some j => ret j
               | None =>
                   match fencedJson reply with
                   | Some (Some j) => ret j
                   | Some None => throw "Unexpected token"
                   | None =>
                       throw "Failed to parse AI response as JSON: Unexpected token"
                   end
               end ;;
     script <- prop result "testScript" ;;
     let result' :=
       if negb (truthy_opt script)
          && negb (truthy_opt (get result "scenarios")) then
         JObj [("testScript",
                or_else (get result "testScript")
                        (or_else (get result "script") (JStr "")));
               ("scenarios",
                or_else (get result "scenarios")
                        (or_else (get result "exploratoryScenarios") (JArr [])))]
       else result in
     ret {| testScript := or_else (get result' "testScript") (JStr "");
            scenarios := JArr (arrayOr (get result' "scenarios") []) |}).

(** [generateTestsSeparately], lines 263-323: the script call, then the
    scenarios call. *)
Definition generateTestsSeparately (env : Env) (workItem : WorkItem)
    : M Generated :=
  getOpenAIClient env keyRequired ;;;
  scriptReply <- complete env (TestScriptPrompt workItem) ;;
  let script := trim env (content scriptReply) in
  scenariosReply <- complete env (ExploratoryScenariosPrompt workItem) ;;
  scens <-
    try_catch
      (match parsedJson scenariosReply with
       | None => throw "Unexpected token"
       | Some (JArr items) => ret (JArr items)
       | Some parsed =>
           s <- prop parsed "scenarios" ;;
           ret (or_else s (JArr []))
       end)
      (fun _ =>
         match bracketedJson scenariosReply with
         | Some (Some j) => ret j
         | Some None => throw "Unexpected token"
         | None => ret (JArr [])
         end) ;;
  ret {| testScript := JStr script; scenarios := scens |}.

(** The queue message of the generation stage. *)
Record QueueItem := mkQueueItem {
  qi_workItemId : option string;
  qi_id : option string;
  qi_title : option string;
  qi_description : option string;
  qi_url : option string;
  qi_targetUrl : option string
}.

Inductive Response : Type :=
| Generated_ (testId workItemId : string) (scenarios : list json)
             (scriptBlobUrl scriptBlobName containerName generatedAt : string)
| Failed_ (message testId generatedAt : string).

Definition draw_uuid (env : Env) : M string :=
  t <- tick ;;
  ret (uuidv4 env t).

(** [a || b || uuidv4()]: the identifier is drawn only when needed. *)
Definition firstOrUuid (env : Env) (a b : option string) : M string :=
  if truthy_str a then ret (str_or a "")
  else if truthy_str b then ret (str_or b "")
  else draw_uuid env.

(** Lines 353-364: the combined strategy, then the separate one. *)
Definition generate (env : Env) (workItem : WorkItem) : M Generated :=
  try_catch (generateTestsWithAI env workItem)
            (fun _ => generateTestsSeparately env workItem).

(** Lines 366-371: [testScript.match] exists on strings only. *)
Definition cleanScript (env : Env) (script : json) : M string :=
  match script with
  | JStr s =>
      match codeBlock env s with
      | Some inner => ret (trim env inner)
      | None => ret s
      end
  | _ => throw "testScript.match is not a function"
  end.

(** Lines 340-351: the identifiers of the run and the work item handed
    to the generators. *)
Definition prepare (env : Env) (q : QueueItem) : M (string * string * WorkItem) :=
  workItemId <- firstOrUuid env (qi_workItemId q) (qi_id q) ;;
  testId <- draw_uuid env ;;
  ret (workItemId, testId,
       {| workItemId := Some workItemId;
          title := Some (str_or (qi_title q) "Untitled Work Item");
          description := Some (str_or (qi_description q) "");
          url := Some (str_or (qi_url q) (str_or (qi_targetUrl q) ""));
          acceptanceCriteria := None; workItemType := None;
          priority := None |}).

(** Lines 366-411: the script is cleaned, stored, and the response built. *)
Definition finish (env : Env) (workItemId testId : string)
    (testResults : Generated) : M Response :=
  script <- cleanScript env (testScript testResults) ;;
  let scens := arrayOr (Some (scenarios testResults)) [] in
  let containerName :=
    str_or (getenv env "STORAGE_CONTAINER_NAME") "test-scripts" in
  let blobName := testId +:+ "/test.spec.js" in
  scriptUrl <- Storage.uploadBlob env containerName blobName
                 (RawText script) "application/javascript"
                 [("testId", testId); ("workItemId", workItemId);
                  ("generatedAt", now env)] ;;
  ret (Generated_ testId workItemId scens scriptUrl blobName
                  containerName (now env)).

(** The [catch] of lines 413-424; [bindingTestId] is
    [context.bindingData.testId]. *)
Definition failed (env : Env) (bindingTestId : option string)
    (message : string) : M Response :=
  testId <- (if truthy_str bindingTestId
             then ret (str_or bindingTestId "")
             else draw_uuid env) ;;
  ret (Failed_ message testId (now env)).

(** The entry point, lines 330-425. *)
Definition main (env : Env) (bindingTestId : option string)
    (queueItem : option QueueItem) : M Response :=
  try_catch
    (match queueItem with
     | None => throw "Queue item is required"
     | Some q =>
         prepared <- prepare env q ;;
         let '(workItemId, testId, workItem) := prepared in
         testResults <- generate env workItem ;;
         finish env workItemId testId testResults
     end)
    (failed env bindingTestId).

End GenerateTests.

(* ===================================================================== *)
(** * backend/shared/qa-workflow/testGenerator.js *)
(* ===================================================================== *)

Module TestGenerator.
Import GenerateTests.

(** [generateExploratoryScenarios]. *)
Definition generateExploratoryScenarios (env : Env) (workItem : WorkItem)
    : M (list json) :=
  getOpenAIClient env "OpenAI API key is required" ;;;
  Storage.rethrow "Failed to generate exploratory scenarios: "
    (reply <- complete env (WorkflowScenariosPrompt workItem) ;;
     result <- match parsedJson reply with
               | Some j => ret j
               | None =>
                   match bracketedJson reply with
                   | Some (Some j) => ret (JObj [("scenarios", j)])
                   | Some None => throw "Unexpected token"
                   | None => throw "Failed to parse scenarios: Unexpected token"
                   end
               end ;;
     scens <- prop result "scenarios" ;;
     ret (if isArray scens then arrayOr scens []
          else arrayOr (Some result) [])).

(** [generatePlaywrightTestScript]. *)
Definition generatePlaywrightTestScript (env : Env) (workItem : WorkItem)
    (scens : list json) : M string :=
  getOpenAIClient env "OpenAI API key is required" ;;;
  let criticalScenario :=
    match scens with
    | first :: _ => first
    | [] => JStr "Test the main functionality"
    end in
  Storage.rethrow "Failed to generate Playwright test script: "
    (reply <- complete env (WorkflowScriptPrompt workItem criticalScenario) ;;
     let script := trim env (content reply) in
     let script := match codeBlock env script with
                   | Some inner => trim env inner
                   | None => script
                   end in
     ret (if negb (includes "require" script) && negb (includes "import" script)
          then "const { test, expect } = require('@playwright/test');"
               +:+ String (ascii_of_nat 10) (String (ascii_of_nat 10) script)
          else script)).

End TestGenerator.

(* ===================================================================== *)
(** * backend/api/orchestrateQA/index.js *)
(* ===================================================================== *)

Module Orchestrate.

Record WorkItemResult := mkWorkItemResult {
  r_workItemId : option string;
  r_title : option string;
  r_exploratoryScenarios : list json;
  r_automatedTestScripts : list string;
  r_status : string;
  r_error : option string;
  r_evidenceURLs : list string;
  r_teamsNotifications : list string;
  r_bugCreated : bool
}.

(** Lines 31-44. *)
Definition initialResult (workItem : WorkItem) : WorkItemResult :=
  {| r_workItemId := workItemId workItem; r_title := title workItem;
     r_exploratoryScenarios := []; r_automatedTestScripts := [];
     r_status := "unknown"; r_error := None; r_evidenceURLs := [];
     r_teamsNotifications := []; r_bugCreated := false |}.

Definition withScenarios (scens : list json) (r : WorkItemResult)
    : WorkItemResult :=
  {| r_workItemId := r_workItemId r; r_title := r_title r;
     r_exploratoryScenarios := scens;
     r_automatedTestScripts := r_automatedTestScripts r;
     r_status := r_status r; r_error := r_error r;
     r_evidenceURLs := r_evidenceURLs r;
     r_teamsNotifications := r_teamsNotifications r;
     r_bugCreated := r_bugCreated r |}.

Definition withScript (scriptUrl : string) (r : WorkItemResult)
    : WorkItemResult :=
  {| r_workItemId := r_workItemId r; r_title := r_title r;
     r_exploratoryScenarios := r_exploratoryScenarios r;
     r_automatedTestScripts := r_automatedTestScripts r ++ [scriptUrl];
     r_status := r_status r; r_error := r_error r;
     r_evidenceURLs := r_evidenceURLs r;
     r_teamsNotifications := r_teamsNotifications r;
     r_bugCreated := r_bugCreated r |}.

Definition withNotification (hook : string) (r : WorkItemResult)
    : WorkItemResult :=
  {| r_workItemId := r_workItemId r; r_title := r_title r;
     r_exploratoryScenarios := r_exploratoryScenarios r;
     r_automatedTestScripts := r_automatedTestScripts r;
     r_status := r_status r; r_error := r_error r;
     r_evidenceURLs := r_evidenceURLs r;
     r_teamsNotifications := r_teamsNotifications r ++ [hook];
     r_bugCreated := r_bugCreated r |}.

(** The [catch] of lines 119-124 applied to the result as it stands. *)
Definition withError (message : string) (r : WorkItemResult) : WorkItemResult :=
  {| r_workItemId := r_workItemId r; r_title := r_title r;
     r_exploratoryScenarios := r_exploratoryScenarios r;
     r_automatedTestScripts := r_automatedTestScripts r;
     r_status := "error"; r_error := Some message;
     r_evidenceURLs := r_evidenceURLs r;
     r_teamsNotifications := r_teamsNotifications r;
     r_bugCreated := r_bugCreated r |}.

(** An awaited call inside the [try] of [processWorkItem]: when it throws,
    the [catch] marks the result object, as mutated so far, and returns it. *)
Definition awaiting {A} (result : WorkItemResult) (call : M A)
    (next : A -> M WorkItemResult) : M WorkItemResult :=
  fun w =>
    match call w with
    | (Ok a, w') => next a w'
    | (Throw message, w') => (Ok (withError message result), w')
    end.

Definition optField (k : string) (v : option string) : list (string * json) :=
  match v with
  | Some s => [(k, JStr s)]
  | None => []
  end.

(** The executor envelope of lines 83-90 ([JSON.stringify] leaves out
    undefined properties). *)
Definition envelope (testId scriptBlobName containerName : string)
    (workItem : WorkItem) : json :=
  JObj ([("testId", JStr testId)]
        ++ optField "workItemId" (workItemId workItem)
        ++ [("scriptBlobName", JStr scriptBlobName);
            ("containerName", JStr containerName)]
        ++ optField "title" (title workItem)
        ++ optField "url" (url workItem)).

Definition executionQueueName (env : Env) : string :=
  str_or (getenv env "TEST_EXECUTION_QUEUE_NAME") "test-execution-queue".

Definition scriptContainerName (env : Env) : string :=
  str_or (getenv env "STORAGE_CONTAINER_NAME") "test-scripts".

(** [teamsNotifier.notifyTeams]: one post to the webhook. *)
Definition notifyTeams (env : Env) (webhookUrl : string) : M unit :=
  if bool_decide (webhookUrl = "") then throw "Teams webhook URL is required"
  else
    t <- tick ;;
    lift (webhook env t webhookUrl) ;;;
    emit (Notified webhookUrl).

(** Lines 96-112: best effort, never fatal. *)
Definition notifyStep (env : Env) (result : WorkItemResult) : M WorkItemResult :=
  match getenv env "TEAMS_WEBHOOK_URL" with
  | Some hook =>
      if bool_decide (hook = "") then ret result
      else try_catch (notifyTeams env hook ;;; ret (withNotification hook result))
                     (fun _ => ret result)
  | None => ret result
  end.

(** [processWorkItem], lines 29-125. *)
Definition processWorkItem (env : Env) (workItem : WorkItem)
    : M WorkItemResult :=
  testId <- GenerateTests.draw_uuid env ;;
  let result := initialResult workItem in
  awaiting result (TestGenerator.generateExploratoryScenarios env workItem)
    (fun scens =>
  let result := withScenarios scens result in
  awaiting result (TestGenerator.generatePlaywrightTestScript env workItem scens)
    (fun script =>
  let scriptBlobName := testId +:+ "/test.spec.js" in
  let containerName := scriptContainerName env in
  awaiting result
    (Storage.uploadBlob env containerName scriptBlobName (RawText script)
       "application/javascript"
       ([("testId", testId)]
        ++ match workItemId workItem with
           | Some i => [("workItemId", i)]
           | None => []
           end
        ++ [("generatedAt", now env)]))
    (fun scriptUrl =>
  let result := withScript scriptUrl result in
  awaiting result
    (Queue.enqueueMessage env (executionQueueName env)
       (envelope testId scriptBlobName containerName workItem))
    (fun _ => notifyStep env result)))).

Record TestResultsView := mkTestResultsView {
  v_status : json;
  v_summary : json;
  v_evidenceUrls : list json;
  v_executedAt : json
}.

(** [if (v) v.forEach(x => urls.push(x.url))]: a falsy property adds
    nothing, a truthy one must be an array of non-null elements. *)
Definition urlsOf (v : option json) : M (list json) :=
  match v with
  | Some (JArr items) =>
      if forallb (fun item => match item with JNull => false | _ => true end)
                 items
      then ret ((fun item => match get item "url" with
                             | Some u => u
                             | None => JNull
                             end) <$> items)
      else throw "Cannot read properties of null (reading 'url')"
  | Some j => if truthy j then throw "forEach is not a function" else ret []
  | None => ret []
  end.

(** [getTestResults], lines 132-169: whatever goes wrong while reading the
    summary, the answer is [not_found]. *)
Definition getTestResults (env : Env) (testId : string) : M TestResultsView :=
  let resultsContainerName :=
    str_or (getenv env "RESULTS_CONTAINER_NAME") "test-results" in
  try_catch
    (summary <- Storage.downloadBlobAsJson env resultsContainerName
                  (testId +:+ "/summary.json") ;;
     shots <- GenerateTests.prop summary "screenshots" ;;
     shotUrls <- urlsOf shots ;;
     logUrls <- urlsOf (get summary "logs") ;;
     reportUrls <- urlsOf (get summary "reports") ;;
     let evidenceUrls :=
       (shotUrls ++ logUrls ++ reportUrls
        ++ match get summary "summaryBlobUrl" with
           | Some u => if truthy u then [u] else []
           | None => []
           end)%list in
     ret {| v_status := or_else (get summary "status") (JStr "unknown");
            v_summary := or_else (get summary "summary") JNull;
            v_evidenceUrls := evidenceUrls;
            v_executedAt := or_else (get summary "executedAt") JNull |})
    (fun _ =>
       ret {| v_status := JStr "not_found"; v_summary := JNull;
              v_evidenceUrls := []; v_executedAt := JNull |}).

End Orchestrate.

(* ===================================================================== *)
(** * backend/api/runTests/dockerHelper.js

    Line numbers as in the listing that opens with promptTemplates.js. *)
(* ===================================================================== *)

Module DockerHelper.

Record ExecutionResult := mkExecutionResult {
  exitCode : json;
  stdout : string;
  stderr : string;
  resultsPath : string;
  resultFiles : list string;
  resultsDir : FsEntry
}.

Definition defaultImage : string :=
  "mcr.microsoft.com/playwright/python:v1.40.0".

(** The [catch] of lines 649-657: any failure of the write, the mkdir or
    the subprocess (a non-zero exit, a launch failure, the timeout kill)
    becomes a result whose exit code is [error.code || 1]. *)
Definition failedRun (e : ExecError) (path : string) (dir : FsEntry)
    : ExecutionResult :=
  {| exitCode := or_else (Some (ee_code e)) (JNum 1);
     stdout := str_or (ee_stdout e) "";
     stderr := str_or (ee_stderr e) (ee_message e);
     resultsPath := path; resultFiles := []; resultsDir := dir |}.

Definition listNames (dir : FsEntry) : list string :=
  match dir with
  | Dir _ (Some entries) => entry_name <$> entries
  | _ => []
  end.

(** [runTestsWithMount], lines 591-662. *)
Definition runTestsWithMount (env : Env) (testScriptContent containerImage : string)
    (envVars : list (string * string)) : M ExecutionResult :=
  if bool_decide (testScriptContent = "") then
    throw "Test script content is required"
  else
    t <- tick ;;
    let run := sandbox env t testScriptContent containerImage envVars in
    tempDir <- lift (sr_mkdtemp run) ;;
    let path := path_join tempDir "results" in
    match sr_writeFile run with
    | Some e => ret (failedRun e path (sr_results run))
    | None =>
        match sr_mkdir run with
        | Some e => ret (failedRun e path (sr_results run))
        | None =>
            emit SandboxRan ;;;
            match sr_exec run with
            | inl e => ret (failedRun e path (sr_results run))
            | inr (out, err) =>
                ret {| exitCode := JNum 0; stdout := out; stderr := err;
                       resultsPath := path;
                       resultFiles := listNames (sr_results run);
                       resultsDir := sr_results run |}
            end
        end
    end.

End DockerHelper.

(* ===================================================================== *)
(** * backend/api/runTests/index.js *)
(* ===================================================================== *)

Module RunTests.
Import Collect DockerHelper.

(** [updateJobStatus], lines 36-47: best effort. *)
Definition updateJobStatus (env : Env) (queueName : string) (statusData : json)
    : M unit :=
  if bool_decide (queueName = "") then ret tt
  else try_catch (Queue.enqueueMessage env queueName statusData)
                 (fun _ => ret tt).

Record UploadedItem := mkUploadedItem {
  up_name : string;
  up_url : string;
  up_blobName : string;
  up_type : option string
}.

Record UploadResults := mkUploadResults {
  ur_screenshots : list UploadedItem;
  ur_logs : list UploadedItem;
  ur_reports : list UploadedItem;
  ur_summaryBlobUrl : string
}.

Definition metadataOf (env : Env) (testId : string) : list (string * string) :=
  [("testId", testId); ("uploadedAt", now env)].

(** One pass of an upload loop: every item in turn, the first failure
    ends it. *)
Fixpoint uploadEach {A} (upload : A -> M UploadedItem) (items : list A)
    : M (list UploadedItem) :=
  match items with
  | [] => ret []
  | x :: rest =>
      u <- upload x ;;
      us <- uploadEach upload rest ;;
      ret (u :: us)
  end.

Definition uploadScreenshot (env : Env) (testId containerName : string)
    (s : Screenshot) : M UploadedItem :=
  let blobName := testId +:+ "/screenshots/" +:+ sh_name s in
  u <- Storage.uploadBlob env containerName blobName (RawText (sh_content s))
         "image/png" (metadataOf env testId) ;;
  ret {| up_name := sh_name s; up_url := u; up_blobName := blobName;
         up_type := None |}.

Definition uploadLog (env : Env) (testId containerName : string)
    (l : LogFile) : M UploadedItem :=
  let blobName := testId +:+ "/logs/" +:+ lg_name l in
  u <- Storage.uploadBlob env containerName blobName (RawText (lg_content l))
         "text/plain" (metadataOf env testId) ;;
  ret {| up_name := lg_name l; up_url := u; up_blobName := blobName;
         up_type := None |}.

Definition uploadReport (env : Env) (testId containerName : string)
    (r : ReportFile) : M UploadedItem :=
  let blobName := testId +:+ "/reports/" +:+ rp_name r in
  let contentType :=
    if bool_decide (rp_type r = "json") then "application/json"
    else "text/html" in
  let data := match rp_content r with
              | RJson doc => JsonText doc
              | RHtml text => RawText text
              end in
  u <- Storage.uploadBlob env containerName blobName data contentType
         (metadataOf env testId) ;;
  ret {| up_name := rp_name r; up_url := u; up_blobName := blobName;
         up_type := Some (rp_type r) |}.

Definition summaryJson (s : option Summary) : json :=
  match s with
  | Some s =>
      JObj [("total", JNum (total s)); ("passed", JNum (passed s));
            ("failed", JNum (failed s)); ("skipped", JNum (skipped s));
            ("duration", JNum (duration s))]
  | None => JNull
  end.

(** An entry of the summary document: [{ name, url }], with [type] for
    reports. *)
Definition refJson (u : UploadedItem) : json :=
  JObj ([("name", JStr (up_name u)); ("url", JStr (up_url u))]
        ++ match up_type u with
           | Some t => [("type", JStr t)]
           | None => []
           end).

(** The RunSummary document of lines 222-230. *)
Definition summaryDoc (env : Env) (testId : string) (testResults : TestResults)
    (shots logs reports : list UploadedItem) : json :=
  JObj [("testId", JStr testId);
        ("status", JStr (tr_status testResults));
        ("summary", summaryJson (tr_summary testResults));
        ("screenshots", JArr (refJson <$> shots));
        ("logs", JArr (refJson <$> logs));
        ("reports", JArr (refJson <$> reports));
        ("executedAt", JStr (now env))].

(** [uploadTestResults], lines 140-252. *)
Definition uploadTestResults (env : Env) (testId : string)
    (testResults : TestResults) (containerName : string) : M UploadResults :=
  Storage.rethrow "Failed to upload test results: "
    (shots <- uploadEach (uploadScreenshot env testId containerName)
                (tr_screenshots testResults) ;;
     logs <- uploadEach (uploadLog env testId containerName)
               (tr_logs testResults) ;;
     reports <- uploadEach (uploadReport env testId containerName)
                  (tr_reports testResults) ;;
     summaryUrl <- Storage.uploadBlob env containerName
                     (testId +:+ "/summary.json")
                     (JsonText (summaryDoc env testId testResults
                                           shots logs reports))
                     "application/json" (metadataOf env testId) ;;
     ret {| ur_screenshots := shots; ur_logs := logs; ur_reports := reports;
            ur_summaryBlobUrl := summaryUrl |}).

(** The queue message of the execution stage. *)
Record QueueItem := mkQueueItem {
  qi_testId : option string;
  qi_id : option string;
  qi_workItemId : option string;
  qi_scriptBlobUrl : option string;
  qi_scriptBlobName : option string;
  qi_containerName : option string;
  qi_envVars : list (string * string)
}.

Record Response := mkResponse {
  rs_testId : string;
  rs_workItemId : option string;
  rs_status : string;
  rs_summary : option Summary;
  rs_exitCode : json;
  rs_screenshots : list UploadedItem;
  rs_logs : list UploadedItem;
  rs_reports : list UploadedItem;
  rs_summaryBlobUrl : string;
  rs_executedAt : string;
  rs_executionTimeMs : Z
}.

Definition nullable (v : option string) : json :=
  match v with
  | Some s => JStr s
  | None => JNull
  end.

(** [v || null] on a string-or-undefined value. *)
Definition orNull (v : option string) : option string :=
  if truthy_str v then v else None.

(** Reading an identifier that no enclosing scope declares. *)
Definition unbound {A} (name : string) : M A :=
  throw (name +:+ " is not defined").

(** The entry point, lines 259-410.  [statusQueueName] is a [const] of the
    [try] block; the [catch] block reads it at line 391 before anything
    else, outside its scope, so the handler ends there with a
    ReferenceError and lines 392-408 are never reached. *)
Definition main (env : Env) (queueItem : option QueueItem) : M Response :=
  try_catch
    (match queueItem with
     | None => throw "Queue item is required"
     | Some q =>
         testId <- GenerateTests.firstOrUuid env (qi_testId q) (qi_id q) ;;
         let workItemId := orNull (qi_workItemId q) in
         let scriptContainerName := str_or (qi_containerName q) "test-scripts" in
         let resultsContainerName :=
           str_or (getenv env "RESULTS_CONTAINER_NAME") "test-results" in
         let statusQueueName := str_or (getenv env "JOB_STATUS_QUEUE_NAME") "" in
         updateJobStatus env statusQueueName
           (JObj [("testId", JStr testId); ("workItemId", nullable workItemId);
                  ("status", JStr "started"); ("timestamp", JStr (now env))]) ;;;
         (if negb (truthy_str (qi_scriptBlobName q))
             && negb (truthy_str (qi_scriptBlobUrl q))
          then throw "Either scriptBlobName or scriptBlobUrl is required"
          else ret tt) ;;;
         testScriptContent <-
           (if truthy_str (qi_scriptBlobName q)
            then Storage.downloadBlobAsString env scriptContainerName
                   (str_or (qi_scriptBlobName q) "")
            else throw "scriptBlobName is required when scriptBlobUrl is provided") ;;
         let dockerImage :=
           str_or (getenv env "PLAYWRIGHT_DOCKER_IMAGE") defaultImage in
         executionResult <-
           runTestsWithMount env testScriptContent dockerImage
             (qi_envVars q ++ [("TEST_ID", testId);
                               ("WORK_ITEM_ID", str_or workItemId "")]) ;;
         let testResults :=
           collectTestResults (resultsPath executionResult)
                              (resultsDir executionResult) in
         let status :=
           finalStatus (tr_status testResults) (exitCode executionResult) in
         uploadResults <-
           uploadTestResults env testId testResults resultsContainerName ;;
         updateJobStatus env statusQueueName
           (JObj [("testId", JStr testId); ("workItemId", nullable workItemId);
                  ("status", JStr status);
                  ("summary", summaryJson (tr_summary testResults));
                  ("summaryBlobUrl", JStr (ur_summaryBlobUrl uploadResults));
                  ("timestamp", JStr (now env));
                  ("executionTimeMs", JNum (elapsedMs env))]) ;;;
         ret {| rs_testId := testId; rs_workItemId := workItemId;
                rs_status := status; rs_summary := tr_summary testResults;
                rs_exitCode := exitCode executionResult;
                rs_screenshots := ur_screenshots uploadResults;
                rs_logs := ur_logs uploadResults;
                rs_reports := ur_reports uploadResults;
                rs_summaryBlobUrl := ur_summaryBlobUrl uploadResults;
                rs_executedAt := now env;
                rs_executionTimeMs := elapsedMs env |}
     end)
    (fun _ => unbound "statusQueueName").

End RunTests.

(* ===================================================================== *)
(** * backend/api/jobStatus/index.js *)
(* ===================================================================== *)

Module JobStatus.

(** [getTestSummary], lines 48-59: [null] when the storage helper reports
    a missing blob, any other failure is thrown on. *)
Definition getTestSummary (env : Env) (testId containerName : string) : M json :=
  try_catch
    (Storage.downloadBlobAsJson env containerName (testId +:+ "/summary.json"))
    (fun message =>
       if includes "does not exist" message then ret JNull
       else throw message).

Record Listed := mkListed {
  ls_name : string;
  ls_url : string;
  ls_size : Z;
  ls_lastModified : string
}.

Definition listedOf (env : Env) (containerName prefix : string)
    (b : Storage.BlobItem) : Listed :=
  {| ls_name := remove_first prefix (Storage.bi_name b);
     ls_url := blobUrl env containerName (Storage.bi_name b);
     ls_size := Storage.bi_contentLength b;
     ls_lastModified := Storage.bi_lastModified b |}.

(** [listBlobsByPrefix], lines 67-89: a listing that fails is an empty
    listing. *)
Definition listBlobsByPrefix (env : Env) (containerName prefix : string)
    : M (list Listed) :=
  try_catch
    (items <- Storage.listBlobs env containerName prefix ;;
     Storage.getContainerClient env containerName ;;;
     ret (listedOf env containerName prefix <$> items))
    (fun _ => ret []).

Record Evidence := mkEvidence {
  ev_screenshots : json;
  ev_logs : json;
  ev_reports : json
}.

Definition plainItem (b : Listed) : json :=
  JObj [("name", JStr (ls_name b)); ("url", JStr (ls_url b));
        ("size", JNum (ls_size b)); ("lastModified", JStr (ls_lastModified b))].

Definition reportItem (b : Listed) : json :=
  JObj [("name", JStr (ls_name b)); ("url", JStr (ls_url b));
        ("type", JStr (if ends_with ".json" (toLowerCase (ls_name b))
                       then "json" else "html"));
        ("size", JNum (ls_size b)); ("lastModified", JStr (ls_lastModified b))].

(** What the evidence object holds when a step of [getTestEvidence] throws
    after [shots] and [logs] were assigned. *)
Definition evidenceOf (shots logs reports : list json) : Evidence :=
  {| ev_screenshots := JArr shots; ev_logs := JArr logs;
     ev_reports := JArr reports |}.

(** [getTestEvidence], lines 97-141: the three prefixes in turn; its
    [catch] returns what was gathered. *)
Definition getTestEvidence (env : Env) (testId containerName : string)
    : M Evidence :=
  try_catch
    (shots <- listBlobsByPrefix env containerName (testId +:+ "/screenshots/") ;;
     try_catch
       (logs <- listBlobsByPrefix env containerName (testId +:+ "/logs/") ;;
        try_catch
          (reports <- listBlobsByPrefix env containerName
                        (testId +:+ "/reports/") ;;
           ret (evidenceOf (plainItem <$> shots) (plainItem <$> logs)
                           (reportItem <$> reports)))
          (fun _ => ret (evidenceOf (plainItem <$> shots)
                                    (plainItem <$> logs) [])))
       (fun _ => ret (evidenceOf (plainItem <$> shots) [] [])))
    (fun _ => ret (evidenceOf [] [] [])).

Record StatusView := mkStatusView {
  sv_testId : json;
  sv_workItemId : json;
  sv_status : json;
  sv_summary : json;
  sv_evidence : Evidence;
  sv_executedAt : json;
  sv_retrievedAt : string;
  sv_summaryBlobUrl : json
}.

(** [buildResponse], lines 150-184; [summary] is [null] when no summary
    was found. *)
Definition buildResponse (env : Env) (summary : json) (evidence : Evidence)
    (testId : string) : StatusView :=
  if truthy summary then
    {| sv_testId := or_else (get summary "testId") (JStr testId);
       sv_workItemId := or_else (get summary "workItemId") JNull;
       sv_status := or_else (get summary "status") (JStr "unknown");
       sv_summary := or_else (get summary "summary") JNull;
       sv_evidence :=
         {| ev_screenshots :=
              or_else (get summary "screenshots") (ev_screenshots evidence);
            ev_logs := or_else (get summary "logs") (ev_logs evidence);
            ev_reports :=
              or_else (get summary "reports") (ev_reports evidence) |};
       sv_executedAt := or_else (get summary "executedAt") JNull;
       sv_retrievedAt := now env;
       sv_summaryBlobUrl := or_else (get summary "summaryBlobUrl") JNull |}
  else
    {| sv_testId := JStr testId;
       sv_workItemId := JNull;
       sv_status := JStr "not_found";
       sv_summary := JNull;
       sv_evidence := evidence;
       sv_executedAt := JNull;
       sv_retrievedAt := now env;
       sv_summaryBlobUrl := JNull |}.

Record Request := mkRequest {
  query_testId : option string;
  params_testId : option string
}.

Inductive Body : Type :=
| ErrorBody (message : string) (detail : string)
| ViewBody (view : StatusView).

Record HttpResponse := mkHttpResponse {
  http_status : Z;
  http_body : Body
}.

(** The entry point, lines 191-260; the result is [context.res]. *)
Definition main (env : Env) (req : Request) : M HttpResponse :=
  try_catch
    (if negb (truthy_str (query_testId req))
        && negb (truthy_str (params_testId req))
     then ret {| http_status := 400;
                 http_body := ErrorBody "testId query parameter is required"
                                        "/api/jobStatus?testId=your-test-id" |}
     else
       let testId := if truthy_str (query_testId req)
                     then str_or (query_testId req) ""
                     else str_or (params_testId req) "" in
       let containerName :=
         str_or (getenv env "RESULTS_CONTAINER_NAME") "test-results" in
       summary <- getTestSummary env testId containerName ;;
       evidence <- getTestEvidence env testId containerName ;;
       let response := buildResponse env summary evidence testId in
       let httpStatus :=
         match sv_status response with
         | JStr s => if bool_decide (s = "not_found") then 404
                     else if bool_decide (s = "error") then 500
                     else 200
         | _ => 200
         end in
       ret {| http_status := httpStatus; http_body := ViewBody response |})
    (fun message =>
       ret {| http_status := 500;
              http_body :=
                ErrorBody "Internal server error while retrieving test status"
                          message |}).

End JobStatus.

(* ===================================================================== *)
(** * backend/api/orchestrateQA/index.js: the scheduled batch *)
(* ===================================================================== *)

Module Batch.
Import Orchestrate.

(** The work-item tracker as the batch meets it: what
    [fetchWorkItemsReadyForTesting] resolves to, and what
    [teamsHelper.createBug] resolves to (the identifier of the new bug)
    for a work item at a given time. *)
Record Tracker := mkTracker {
  fetched : Outcome (list WorkItem);
  bugFiled : nat -> WorkItem -> Outcome string
}.

(** A processed work item as it sits in [dailySummary.results]: the
    result object, on which lines 284-285 set [bugCreated] and [bugId]. *)
Record Processed := mkProcessed {
  p_result : WorkItemResult;
  p_bugId : option string
}.

Record Failure := mkFailure {
  f_workItemId : option string;
  f_title : option string;
  f_status : string
}.

Record DailySummary := mkDailySummary {
  ds_timestamp : string;
  ds_workItemsProcessed : nat;
  ds_testsPassed : nat;
  ds_testsFailed : nat;
  ds_exploratoryScenariosGenerated : nat;
  ds_highPriorityFailures : list Failure;
  ds_results : list Processed;
  ds_error : option string
}.

(** Lines 219-227. *)
Definition initialSummary (env : Env) : DailySummary :=
  {| ds_timestamp := now env; ds_workItemsProcessed := O; ds_testsPassed := O;
     ds_testsFailed := O; ds_exploratoryScenariosGenerated := O;
     ds_highPriorityFailures := []; ds_results := []; ds_error := None |}.

(** Lines 262-264. *)
Definition counted (p : Processed) (s : DailySummary) : DailySummary :=
  {| ds_timestamp := ds_timestamp s;
     ds_workItemsProcessed := S (ds_workItemsProcessed s);
     ds_testsPassed := ds_testsPassed s;
     ds_testsFailed := ds_testsFailed s;
     ds_exploratoryScenariosGenerated :=
       (ds_exploratoryScenariosGenerated s
        + length (r_exploratoryScenarios (p_result p)))%nat;
     ds_highPriorityFailures := ds_highPriorityFailures s;
     ds_results := ds_results s ++ [p];
     ds_error := ds_error s |}.

Definition passedOne (s : DailySummary) : DailySummary :=
  {| ds_timestamp := ds_timestamp s;
     ds_workItemsProcessed := ds_workItemsProcessed s;
     ds_testsPassed := S (ds_testsPassed s);
     ds_testsFailed := ds_testsFailed s;
     ds_exploratoryScenariosGenerated := ds_exploratoryScenariosGenerated s;
     ds_highPriorityFailures := ds_highPriorityFailures s;
     ds_results := ds_results s;
     ds_error := ds_error s |}.

(** Lines 271-278: [undefined <= 2] is false. *)
Definition failedOne (workItem : WorkItem) (status : string)
    (s : DailySummary) : DailySummary :=
  {| ds_timestamp := ds_timestamp s;
     ds_workItemsProcessed := ds_workItemsProcessed s;
     ds_testsPassed := ds_testsPassed s;
     ds_testsFailed := S (ds_testsFailed s);
     ds_exploratoryScenariosGenerated := ds_exploratoryScenariosGenerated s;
     ds_highPriorityFailures :=
       match priority workItem with
       | Some p =>
           if p <=? 2
           then ds_highPriorityFailures s
                ++ [{| f_workItemId := workItemId workItem;
                       f_title := title workItem; f_status := status |}]
           else ds_highPriorityFailures s
       | None => ds_highPriorityFailures s
       end;
     ds_results := ds_results s;
     ds_error := ds_error s |}.

Definition withErrorMessage (message : string) (s : DailySummary)
    : DailySummary :=
  {| ds_timestamp := ds_timestamp s;
     ds_workItemsProcessed := ds_workItemsProcessed s;
     ds_testsPassed := ds_testsPassed s;
     ds_testsFailed := ds_testsFailed s;
     ds_exploratoryScenariosGenerated := ds_exploratoryScenariosGenerated s;
     ds_highPriorityFailures := ds_highPriorityFailures s;
     ds_results := ds_results s;
     ds_error := Some message |}.

Definition withBug (r : WorkItemResult) : WorkItemResult :=
  {| r_workItemId := r_workItemId r; r_title := r_title r;
     r_exploratoryScenarios := r_exploratoryScenarios r;
     r_automatedTestScripts := r_automatedTestScripts r;
     r_status := r_status r; r_error := r_error r;
     r_evidenceURLs := r_evidenceURLs r;
     r_teamsNotifications := r_teamsNotifications r;
     r_bugCreated := true |}.

(** [createBugForFailure], lines 178-208: one call to the tracker. *)
Definition createBugForFailure (tracker : Tracker) (workItem : WorkItem)
    : M string :=
  Storage.rethrow "Failed to create bug: "
    (t <- tick ;;
     lift (bugFiled tracker t workItem)).

(** Lines 280-290: a bug is filed when configured and evidence exists;
    a failure to file is logged only. *)
Definition fileBug (tracker : Tracker) (createBugs : bool)
    (workItem : WorkItem) (result : WorkItemResult) : M Processed :=
  if createBugs && negb (bool_decide (r_evidenceURLs result = [])) then
    try_catch
      (bug <- createBugForFailure tracker workItem ;;
       ret {| p_result := withBug result; p_bugId := Some bug |})
      (fun _ => ret {| p_result := result; p_bugId := None |})
  else ret {| p_result := result; p_bugId := None |}.

(** The body of the loop, lines 260-295, for one work item: the object
    pushed at 262 is the one mutated at 284-285. *)
Definition processOne (env : Env) (tracker : Tracker) (createBugs : bool)
    (workItem : WorkItem) (summary : DailySummary) : M DailySummary :=
  try_catch
    (result <- processWorkItem env workItem ;;
     if bool_decide (r_status result = "unknown") then
       ret (counted {| p_result := result; p_bugId := None |} summary)
     else if bool_decide (r_status result = "pass") then
       ret (passedOne (counted {| p_result := result; p_bugId := None |}
                               summary))
     else if bool_decide (r_status result = "fail") then
       p <- fileBug tracker createBugs workItem result ;;
       ret (failedOne workItem (r_status result) (counted p summary))
     else ret (counted {| p_result := result; p_bugId := None |} summary))
    (fun _ => ret summary).

(** The loop of lines 259-296. *)
Fixpoint processAll (env : Env) (tracker : Tracker) (createBugs : bool)
    (workItems : list WorkItem) (summary : DailySummary) : M DailySummary :=
  match workItems with
  | [] => ret summary
  | workItem :: rest =>
      summary' <- processOne env tracker createBugs workItem summary ;;
      processAll env tracker createBugs rest summary'
  end.

(** Lines 298-333: the daily card.  Line 328 calls
    [teamsNotifier.sendTeamsNotification], which teamsNotifier.js does not
    export (its exports are [notifyTeams] and [formatTeamsMessage]): the
    call is a TypeError, the [catch] of line 330 logs it, and nothing is
    posted. *)
Definition sendDailySummary (env : Env) (summary : DailySummary) : M unit :=
  match getenv env "TEAMS_WEBHOOK_URL" with
  | Some hook =>
      if negb (bool_decide (hook = ""))
         && negb (bool_decide (ds_workItemsProcessed summary = O))
      then try_catch
             (throw "teamsNotifier.sendTeamsNotification is not a function")
             (fun _ => ret tt)
      else ret tt
  | None => ret tt
  end.

Definition configured (env : Env) : bool :=
  truthy_str (getenv env "AZURE_DEVOPS_ORG_URL")
  && truthy_str (getenv env "AZURE_DEVOPS_PROJECT")
  && truthy_str (getenv env "AZURE_DEVOPS_PAT").

(** The entry point, lines 215-346. *)
Definition main (env : Env) (tracker : Tracker) : M DailySummary :=
  let dailySummary := initialSummary env in
  try_catch
    (let createBugsForFailures :=
       match getenv env "CREATE_BUGS_FOR_FAILURES" with
       | Some v => bool_decide (v = "true")
       | None => false
       end in
     if negb (configured env) then
       throw "Azure DevOps configuration is required"
     else
       workItems <- (tick ;;; lift (fetched tracker)) ;;
       match workItems with
       | [] => ret dailySummary
       | _ =>
           summary <- processAll env tracker createBugsForFailures workItems
                        dailySummary ;;
           sendDailySummary env summary ;;;
           ret summary
       end)
    (fun message => ret (withErrorMessage message dailySummary)).

End Batch.

(* ===================================================================== *)
(** * backend/api/fetchWorkItems/index.js *)
(* ===================================================================== *)

Module FetchWorkItems.

(** A work item as [getWorkItemDetails] returns it. *)
Record Item := mkItem {
  it_workItemId : string;
  it_title : string;
  it_description : string;
  it_url : string;
  it_state : string;
  it_workItemType : string;
  it_assignedTo : option string;
  it_tags : list string;
  it_rev : Z
}.

(** Azure Boards as the function meets it: the identifiers the WIQL query
    returns and the details returned for a list of identifiers. *)
Record Boards := mkBoards {
  queried : Outcome (list string);
  details : list string -> Outcome (list Item)
}.

(** The queue message of lines 185-199. *)
Definition queueMessage (env : Env) (workItem : Item) : json :=
  JObj [("workItemId", JStr (it_workItemId workItem));
        ("id", JStr (it_workItemId workItem));
        ("title", JStr (it_title workItem));
        ("description", JStr (it_description workItem));
        ("url", JStr (it_url workItem));
        ("state", JStr (it_state workItem));
        ("workItemType", JStr (it_workItemType workItem));
        ("assignedTo", match it_assignedTo workItem with
                       | Some a => JStr a
                       | None => JNull
                       end);
        ("tags", JArr (JStr <$> it_tags workItem));
        ("metadata", JObj [("fetchedAt", JStr (now env));
                           ("rev", JNum (it_rev workItem))])].

(** An entry of the enqueue report; the receipt's message identifier is
    the queue service's and is not kept. *)
Record EnqueueResult := mkEnqueueResult {
  er_workItemId : string;
  er_success : bool;
  er_error : option string
}.

(** [enqueueWorkItems], lines 179-217: every item is tried, a failure is
    recorded and the loop goes on. *)
Fixpoint enqueueWorkItems (env : Env) (queueName : string)
    (workItems : list Item) : M (list EnqueueResult) :=
  match workItems with
  | [] => ret []
  | workItem :: rest =>
      r <- try_catch
             (Queue.enqueueMessage env queueName (queueMessage env workItem) ;;;
              ret {| er_workItemId := it_workItemId workItem;
                     er_success := true; er_error := None |})
             (fun message =>
                ret {| er_workItemId := it_workItemId workItem;
                       er_success := false; er_error := Some message |}) ;;
      rs <- enqueueWorkItems env queueName rest ;;
      ret (r :: rs)
  end.

(** [queryWorkItemsByStatus], lines 105-129. *)
Definition queryWorkItemsByStatus (boards : Boards) : M (list string) :=
  Storage.rethrow "Failed to query work items: "
    (tick ;;; lift (queried boards)).

(** [getWorkItemDetails], lines 139-171: no identifiers, no request. *)
Definition getWorkItemDetails (boards : Boards) (workItemIds : list string)
    : M (list Item) :=
  match workItemIds with
  | [] => ret []
  | _ => Storage.rethrow "Failed to get work item details: "
           (tick ;;; lift (details boards workItemIds))
  end.

(** What the function returns: the three object shapes of lines 250-255,
    286-294 and 300-305.  The first has no [workItemsFailed] and no
    [enqueueResults], the last no counts at all. *)
Inductive Summary : Type :=
| NothingFound
| Fetched (workItemsFound workItemsEnqueued workItemsFailed : nat)
          (enqueueResults : list EnqueueResult)
| FetchFailed (error : string).

Definition configRequired : string :=
  "Azure DevOps configuration is required. Set AZURE_DEVOPS_ORG_URL, "
  +:+ "AZURE_DEVOPS_PROJECT, and AZURE_DEVOPS_PAT environment variables.".

(** The entry point, lines 224-308. *)
Definition main (env : Env) (boards : Boards) : M Summary :=
  try_catch
    (let queueName :=
       str_or (getenv env "QA_JOBS_QUEUE_NAME") "test-generation-queue" in
     if negb (Batch.configured env) then throw configRequired
     else
       workItemIds <- queryWorkItemsByStatus boards ;;
       match workItemIds with
       | [] => ret NothingFound
       | _ =>
           workItems <- getWorkItemDetails boards workItemIds ;;
           enqueueResults <- enqueueWorkItems env queueName workItems ;;
           ret (Fetched
                  (length workItems)
                  (length (filter (fun r => er_success r = true) enqueueResults))
                  (length (filter (fun r => er_success r = false) enqueueResults))
                  enqueueResults)
       end)
    (fun message => ret (FetchFailed message)).

End FetchWorkItems.

(* ===================================================================== *)
(** * Concrete environments and inputs *)
(* ===================================================================== *)

Module Scenario.

Definition configured (k : string) : option string :=
  if bool_decide (k = "AZURE_STORAGE_CONNECTION_STRING")
  then Some "UseDevelopmentStorage=true"
  else if bool_decide (k = "OPENAI_API_KEY") then Some "sk-test"
  else None.

Definition plainReply (text : string) : Reply :=
  {| content := text; parsedJson := None; fencedJson := None;
     bracketedJson := None |}.

Definition jsonReply (doc : json) : Reply :=
  {| content := "(json)"; parsedJson := Some doc; fencedJson := None;
     bracketedJson := None |}.

(** A model that answers every prompt in the expected shape. *)
Definition helpfulModel (p : Prompt) : Outcome Reply :=
  match p with
  | CombinedPrompt _ =>
      Ok (jsonReply (JObj [("testScript", JStr "test('ok', async () => {});");
                           ("scenarios", JArr [JStr "empty password"])]))
  | TestScriptPrompt _ => Ok (plainReply "test('ok', async () => {});")
  | ExploratoryScenariosPrompt _ =>
      Ok (jsonReply (JObj [("scenarios", JArr [JStr "empty password"])]))
  | WorkflowScenariosPrompt _ =>
      Ok (jsonReply (JObj [("scenarios", JArr [JStr "empty password";
                                               JStr "expired link"])]))
  | WorkflowScriptPrompt _ _ =>
      Ok (plainReply "const { test } = require('@playwright/test');")
  end.

(** A report with two passed tests, and one whose counters are all zero. *)
Definition greenStats : Stats :=
  {| st_total := Some 2; st_passed := Some 2; st_failed := Some 0;
     st_skipped := Some 0; st_duration := Some 1500 |}.

Definition zeroStats : Stats :=
  {| st_total := Some 0; st_passed := Some 0; st_failed := Some 0;
     st_skipped := Some 0; st_duration := Some 0 |}.

Definition statsDoc (s : Stats) : json :=
  JObj [("stats",
         JObj [("total", JNum (num_or0 (st_total s)));
               ("passed", JNum (num_or0 (st_passed s)));
               ("failed", JNum (num_or0 (st_failed s)));
               ("skipped", JNum (num_or0 (st_skipped s)));
               ("duration", JNum (num_or0 (st_duration s)))])].

Definition reportFile (name : string) (s : Stats) : FsEntry :=
  File name (Readable "(json report)"
               (ParsedValue {| rep_doc := statsDoc s; rep_stats := Some s |})).

Definition greenDir : FsEntry :=
  Dir "results"
      (Some [reportFile "results.json" greenStats;
             File "login-screenshot.png" (Readable "PNG" SyntaxError);
             Dir "traces" (Some [File "run.log" (Readable "started" SyntaxError)])]).

Definition zeroDir : FsEntry :=
  Dir "results" (Some [reportFile "results.json" zeroStats]).

(** What the timeout guard leaves behind: stdout so far, no report. *)
Definition timedOutDir : FsEntry :=
  Dir "results" (Some [File "stdout.log" (Readable "running 1 test" SyntaxError)]).

Definition timeoutError : ExecError :=
  {| ee_code := JNull; ee_killed := true; ee_stdout := Some "running 1 test";
     ee_stderr := Some ""; ee_message := "Command failed: docker run" |}.

Definition greenRun : SandboxRun :=
  {| sr_mkdtemp := Ok "/tmp/playwright-test-abc"; sr_writeFile := None;
     sr_mkdir := None; sr_exec := inr ("2 passed", "");
     sr_results := greenDir |}.

Definition timedOutRun : SandboxRun :=
  {| sr_mkdtemp := Ok "/tmp/playwright-test-abc"; sr_writeFile := None;
     sr_mkdir := None; sr_exec := inl timeoutError;
     sr_results := timedOutDir |}.

(** Everything configured, every collaborator healthy. *)
Definition healthy : Env :=
  {| getenv := configured;
     now := "2024-01-01T09:00:00.000Z";
     uuidv4 := fun n => "run-" +:+ pretty n;
     blobUrl := fun c b => "https://store.example/" +:+ c +:+ "/" +:+ b;
     stringify := fun _ => "{}";
     trim := fun s => s;
     codeBlock := fun _ => None;
     syntaxError := fun text => "Unexpected token, " +:+ dq +:+ text +:+ dq
                                +:+ " is not valid JSON";
     elapsedMs := 1500;
     blobExists := fun _ _ _ => Ok tt;
     blobWrite := fun _ _ _ => Ok tt;
     blobRead := fun _ _ _ => Ok tt;
     blobList := fun _ _ _ => Ok tt;
     queueSend := fun _ _ => Ok tt;
     chat := fun _ p => helpfulModel p;
     webhook := fun _ _ => Ok tt;
     sandbox := fun _ _ _ _ => greenRun |}.

Definition withSandbox (run : SandboxRun) (env : Env) : Env :=
  {| getenv := getenv env; now := now env; uuidv4 := uuidv4 env;
     blobUrl := blobUrl env; stringify := stringify env; trim := trim env;
     codeBlock := codeBlock env; syntaxError := syntaxError env;
     elapsedMs := elapsedMs env; blobExists := blobExists env;
     blobWrite := blobWrite env; blobRead := blobRead env;
     blobList := blobList env; queueSend := queueSend env;
     chat := chat env; webhook := webhook env;
     sandbox := fun _ _ _ _ => run |}.

Definition withChat (model : Prompt -> Outcome Reply) (env : Env) : Env :=
  {| getenv := getenv env; now := now env; uuidv4 := uuidv4 env;
     blobUrl := blobUrl env; stringify := stringify env; trim := trim env;
     codeBlock := codeBlock env; syntaxError := syntaxError env;
     elapsedMs := elapsedMs env; blobExists := blobExists env;
     blobWrite := blobWrite env; blobRead := blobRead env;
     blobList := blobList env; queueSend := queueSend env;
     chat := fun _ p => model p; webhook := webhook env;
     sandbox := sandbox env |}.

(** Listing is down; reads and writes still work. *)
Definition listingDown (env : Env) : Env :=
  {| getenv := getenv env; now := now env; uuidv4 := uuidv4 env;
     blobUrl := blobUrl env; stringify := stringify env; trim := trim env;
     codeBlock := codeBlock env; syntaxError := syntaxError env;
     elapsedMs := elapsedMs env; blobExists := blobExists env;
     blobWrite := blobWrite env; blobRead := blobRead env;
     blobList := fun _ _ _ => Throw "503 Server Busy";
     queueSend := queueSend env; chat := chat env; webhook := webhook env;
     sandbox := sandbox env |}.

(** The existence check of every read fails. *)
Definition readsDown (env : Env) : Env :=
  {| getenv := getenv env; now := now env; uuidv4 := uuidv4 env;
     blobUrl := blobUrl env; stringify := stringify env; trim := trim env;
     codeBlock := codeBlock env; syntaxError := syntaxError env;
     elapsedMs := elapsedMs env;
     blobExists := fun _ _ _ => Throw "503 Server Busy";
     blobWrite := blobWrite env; blobRead := blobRead env;
     blobList := blobList env;
     queueSend := queueSend env; chat := chat env; webhook := webhook env;
     sandbox := sandbox env |}.

(** A model whose combined answer cannot be parsed. *)
Definition ramblingModel (p : Prompt) : Outcome Reply :=
  match p with
  | CombinedPrompt _ => Ok (plainReply "Sure! Here are your tests.")
  | _ => helpfulModel p
  end.

(** A model that is unreachable. *)
Definition unreachableModel (p : Prompt) : Outcome Reply :=
  Throw "connect ETIMEDOUT".

(** Writes succeed except for summary documents. *)
Definition summaryWriteDown (env : Env) : Env :=
  {| getenv := getenv env; now := now env; uuidv4 := uuidv4 env;
     blobUrl := blobUrl env; stringify := stringify env; trim := trim env;
     codeBlock := codeBlock env; syntaxError := syntaxError env;
     elapsedMs := elapsedMs env; blobExists := blobExists env;
     blobWrite := fun _ _ b => if ends_with "/summary.json" b
                               then Throw "503 Server Busy" else Ok tt;
     blobRead := blobRead env; blobList := blobList env;
     queueSend := queueSend env; chat := chat env; webhook := webhook env;
     sandbox := sandbox env |}.

Definition loginMessage : GenerateTests.QueueItem :=
  {| GenerateTests.qi_workItemId := Some "42"; GenerateTests.qi_id := None;
     GenerateTests.qi_title := Some "Login form";
     GenerateTests.qi_description := None; GenerateTests.qi_url := None;
     GenerateTests.qi_targetUrl := None |}.

Definition loginItem : WorkItem :=
  {| workItemId := Some "42"; title := Some "Login form";
     description := Some "Users sign in with e-mail and password";
     url := None; acceptanceCriteria := None; workItemType := Some "Feature";
     priority := Some 1 |}.

Definition storedScript : StoredBlob :=
  {| sb_data := RawText "test('ok', async () => {});";
     sb_contentType := Some "application/javascript"; sb_metadata := [];
     sb_lastModified := "2024-01-01T08:59:00.000Z" |}.

(** A store that holds the script of run [R] and nothing else. *)
Definition scriptOnly : World :=
  {| blobs := {[ ("test-scripts", "R/test.spec.js") := storedScript ]};
     queue := []; trace := []; clock := O |}.

Definition runR : RunTests.QueueItem :=
  {| RunTests.qi_testId := Some "R"; RunTests.qi_id := None;
     RunTests.qi_workItemId := Some "42";
     RunTests.qi_scriptBlobUrl := None;
     RunTests.qi_scriptBlobName := Some "R/test.spec.js";
     RunTests.qi_containerName := None; RunTests.qi_envVars := [] |}.

Definition imageBlob : StoredBlob :=
  {| sb_data := RawText "PNG"; sb_contentType := Some "image/png";
     sb_metadata := [("testId", "R")];
     sb_lastModified := "2024-01-01T09:00:00.000Z" |}.

Definition logBlobR : StoredBlob :=
  {| sb_data := RawText "running 1 test"; sb_contentType := Some "text/plain";
     sb_metadata := [("testId", "R")];
     sb_lastModified := "2024-01-01T09:00:00.000Z" |}.

(** A run whose evidence was uploaded in part and whose summary was not. *)
Definition partialRun : World :=
  {| blobs := {[ ("test-results", "R/screenshots/home.png") := imageBlob;
                 ("test-results", "R/logs/stdout.log") := logBlobR ]};
     queue := []; trace := []; clock := O |}.

Definition bareDoc : json :=
  JObj [("testId", JStr "R"); ("status", JStr "passed")].

Definition fullDoc : json :=
  JObj [("testId", JStr "R"); ("status", JStr "failed");
        ("summary", JObj [("total", JNum 1); ("passed", JNum 0);
                          ("failed", JNum 1); ("skipped", JNum 0);
                          ("duration", JNum 900)]);
        ("screenshots", JArr []);
        ("logs", JArr [JObj [("name", JStr "stdout.log");
                             ("url", JStr "https://store.example/test-results/R/logs/stdout.log")]]);
        ("reports", JArr []);
        ("executedAt", JStr "2024-01-01T09:00:00.000Z")].

Definition summaryOf (doc : json) : StoredBlob :=
  {| sb_data := JsonText doc; sb_contentType := Some "application/json";
     sb_metadata := [("testId", "R")];
     sb_lastModified := "2024-01-01T09:00:00.000Z" |}.

(** A summary that names no evidence, next to a screenshot in the store. *)
Definition bareSummary : World :=
  {| blobs := {[ ("test-results", "R/summary.json") := summaryOf bareDoc;
                 ("test-results", "R/screenshots/home.png") := imageBlob ]};
     queue := []; trace := []; clock := O |}.

(** A complete summary, next to a screenshot it does not mention. *)
Definition fullSummary : World :=
  {| blobs := {[ ("test-results", "R/summary.json") := summaryOf fullDoc;
                 ("test-results", "R/screenshots/home.png") := imageBlob ]};
     queue := []; trace := []; clock := O |}.

Definition statusOf (testId : string) : JobStatus.Request :=
  {| JobStatus.query_testId := Some testId; JobStatus.params_testId := None |}.

End Scenario.

(* ===================================================================== *)
(** * Vocabulary of the properties *)
(* ===================================================================== *)

Module Spec.

(** Only the clock moved. *)
Definition sameState (w w' : World) : Prop :=
  blobs w' = blobs w /\ queue w' = queue w /\ trace w' = trace w.

(** No blob is ever lost. *)
Definition keeps (w w' : World) : Prop :=
  forall k, is_Some (blobs w !! k) -> is_Some (blobs w' !! k).

Definition isModelCall (e : Event) : Prop :=
  match e with
  | ModelCalled _ => True
  | _ => False
  end.

Definition isNotice (e : Event) : Prop :=
  match e with
  | Notified _ => True
  | _ => False
  end.

(** Store and queue untouched, the trace grown by events of one kind. *)
Definition grewBy (kind : Event -> Prop) (w w' : World) : Prop :=
  blobs w' = blobs w /\ queue w' = queue w
  /\ exists new, trace w' = trace w ++ new /\ Forall kind new.

(** A computation whose every run relates the world before to the world
    after by [R], whether it returns or throws. *)
Definition Within {A} (R : World -> World -> Prop) (m : M A) : Prop :=
  forall w, R w (snd (m w)).

(** A run of [m] from [w] that returns, with a result and a final world
    that satisfy [Q]. *)
Definition returning {A} (m : M A) (w : World) (Q : A -> World -> Prop) : Prop :=
  exists a w', m w = (Ok a, w') /\ Q a w'.

(** A reachable storage account. *)
Definition connected (env : Env) : Prop :=
  truthy_str (getenv env "AZURE_STORAGE_CONNECTION_STRING") = true.

(** A storage account in which every existence check, read and write
    succeeds. *)
Definition storageHealthy (env : Env) : Prop :=
  connected env
  /\ (forall t c b, blobExists env t c b = Ok tt)
  /\ (forall t c b, blobRead env t c b = Ok tt)
  /\ (forall t c b, blobWrite env t c b = Ok tt).

(** A sandbox run whose working directory was set up and whose subprocess
    ended in an error: a launch failure, a non-zero exit or the kill of
    the wall-clock timeout. *)
Definition subprocessFails (run : SandboxRun) : Prop :=
  (exists dir, sr_mkdtemp run = Ok dir)
  /\ sr_writeFile run = None
  /\ sr_mkdir run = None
  /\ exists e, sr_exec run = inl e.

(** The blob [uploadBlob] stores. *)
Definition stored (env : Env) (data : BlobData) (contentType : string)
    (metadata : list (string * string)) : StoredBlob :=
  {| sb_data := data; sb_contentType := Some contentType;
     sb_metadata := metadata; sb_lastModified := now env |}.

(** The world after an acknowledged write. *)
Definition written (w : World) (c b : string) (blob : StoredBlob) : World :=
  {| blobs := <[(c, b) := blob]> (blobs w); queue := queue w;
     trace := trace w ++ [Uploaded c b]; clock := S (clock w) |}.

(** The world after an acknowledged send. *)
Definition sent (w : World) (q : string) (msg : json) : World :=
  {| blobs := blobs w; queue := queue w ++ [(q, msg)];
     trace := trace w ++ [Enqueued q msg]; clock := S (clock w) |}.

(** The world after a model call was sent. *)
Definition asked (w : World) (p : Prompt) : World :=
  {| blobs := blobs w; queue := queue w;
     trace := trace w ++ [ModelCalled p]; clock := S (clock w) |}.

(** The blob names the executor gives the harvested files of a run, in
    upload order: screenshots, logs, reports. *)
Definition screenshotBlob (testId : string) (s : Screenshot) : string :=
  testId +:+ "/screenshots/" +:+ sh_name s.

Definition logBlob (testId : string) (l : LogFile) : string :=
  testId +:+ "/logs/" +:+ lg_name l.

Definition reportBlob (testId : string) (r : ReportFile) : string :=
  testId +:+ "/reports/" +:+ rp_name r.

Definition evidenceBlobs (testId : string) (results : TestResults)
    : list string :=
  (screenshotBlob testId <$> tr_screenshots results)
  ++ (logBlob testId <$> tr_logs results)
  ++ (reportBlob testId <$> tr_reports results).

Definition evidenceUploads (c testId : string) (results : TestResults)
    : list Event :=
  Uploaded c <$> evidenceBlobs testId results.

Definition summaryBlob (testId : string) : string := testId +:+ "/summary.json".

(** An uploaded item whose URL is that of a blob the store holds. *)
Definition resolvable (env : Env) (w : World) (c : string)
    (u : RunTests.UploadedItem) : Prop :=
  RunTests.up_url u = blobUrl env c (RunTests.up_blobName u)
  /\ is_Some (blobs w !! (c, RunTests.up_blobName u)).

(** The entries the executor returns for the harvested files. *)
Definition screenshotItem (env : Env) (testId c : string) (s : Screenshot)
    : RunTests.UploadedItem :=
  {| RunTests.up_name := sh_name s;
     RunTests.up_url := blobUrl env c (screenshotBlob testId s);
     RunTests.up_blobName := screenshotBlob testId s;
     RunTests.up_type := None |}.

Definition logItem (env : Env) (testId c : string) (l : LogFile)
    : RunTests.UploadedItem :=
  {| RunTests.up_name := lg_name l;
     RunTests.up_url := blobUrl env c (logBlob testId l);
     RunTests.up_blobName := logBlob testId l;
     RunTests.up_type := None |}.

Definition reportItem (env : Env) (testId c : string) (r : ReportFile)
    : RunTests.UploadedItem :=
  {| RunTests.up_name := rp_name r;
     RunTests.up_url := blobUrl env c (reportBlob testId r);
     RunTests.up_blobName := reportBlob testId r;
     RunTests.up_type := Some (rp_type r) |}.

(** An upload step for items of type [A]: it stores the blob [blobOf x]
    and returns [itemOf x], or throws and changes nothing. *)
Definition uploader {A} (c : string) (upload : A -> M RunTests.UploadedItem)
    (blobOf : A -> string) (itemOf : A -> RunTests.UploadedItem) : Prop :=
  forall x w,
    (exists blob, upload x w = (Ok (itemOf x), written w c (blobOf x) blob))
    \/ (exists m w', upload x w = (Throw m, w') /\ sameState w w').

(** A model key is configured. *)
Definition hasKey (env : Env) : bool :=
  truthy_str (getenv env "AZURE_OPENAI_API_KEY")
  || truthy_str (getenv env "OPENAI_API_KEY").

(** The events a run added to the trace. *)
Definition added (w w' : World) : list Event :=
  drop (length (trace w)) (trace w').

(** A JSON array with an entry of the given name and URL. *)
Definition lists (arr : json) (name url : string) : Prop :=
  exists entries e,
    arr = JArr entries /\ e ∈ entries
    /\ get e "name" = Some (JStr name) /\ get e "url" = Some (JStr url).

(** A document whose property [field] is an array that gives, entry by
    entry and in order, the given names and URLs. *)
Definition listsExactly (doc : json) (field : string)
    (refs : list (string * string)) : Prop :=
  exists entries,
    get doc field = Some (JArr entries)
    /\ Forall2 (fun ref e => get e "name" = Some (JStr (fst ref))
                             /\ get e "url" = Some (JStr (snd ref)))
               refs entries.

(** The run identifier a status request asks for. *)
Definition requestedId (req : JobStatus.Request) : option string :=
  if truthy_str (JobStatus.query_testId req) then JobStatus.query_testId req
  else if truthy_str (JobStatus.params_testId req)
       then JobStatus.params_testId req
       else None.

Definition resultsContainer (env : Env) : string :=
  str_or (getenv env "RESULTS_CONTAINER_NAME") "test-results".

(** The blobs of the store under a prefix, as the status endpoint
    presents them. *)
Definition found (env : Env) (w : World) (c prefix : string)
    : list JobStatus.Listed :=
  JobStatus.listedOf env c prefix <$> Storage.blobsUnder env w c prefix.

(** A JSON array that shows what the store holds under a prefix: an
    entry with the name (relative to the prefix) and the URL of every
    blob stored there, and no entry for anything else. *)
Definition showsStored (env : Env) (w : World) (c prefix : string)
    (arr : json) : Prop :=
  exists entries,
    arr = JArr entries
    /\ (forall name,
          is_Some (blobs w !! (c, prefix +:+ name)) ->
          lists arr name (blobUrl env c (prefix +:+ name)))
    /\ (forall e, e ∈ entries ->
          exists name,
            get e "name" = Some (JStr name)
            /\ get e "url" = Some (JStr (blobUrl env c (prefix +:+ name)))
            /\ is_Some (blobs w !! (c, prefix +:+ name))).

(** A store whose listings succeed. *)
Definition listingHealthy (env : Env) (c : string) : Prop :=
  forall t prefix, blobList env t c prefix = Ok tt.

(** A store that holds nothing under the namespace of a run. *)
Definition noArtifacts (w : World) (c testId : string) : Prop :=
  forall b, starts_with (testId +:+ "/") b = true -> blobs w !! (c, b) = None.

(** The script an envelope points at: its container and blob name. *)
Definition scriptOf (msg : json) : option (string * string) :=
  match get msg "containerName", get msg "scriptBlobName" with
  | Some (JStr c), Some (JStr b) => Some (c, b)
  | _, _ => None
  end.

(** No envelope on any queue points at a script the store lacks. *)
Definition noOrphans (w : World) : Prop :=
  forall q msg k, (q, msg) ∈ queue w -> scriptOf msg = Some k ->
                  is_Some (blobs w !! k).

(** A step that loses no blob and sends nothing that points at a script. *)
Definition harmless (w w' : World) : Prop :=
  keeps w w'
  /\ exists new, queue w' = queue w ++ new
                 /\ Forall (fun m => scriptOf (snd m) = None) new.

(** The worlds the pipeline can be in: from the empty world, any sequence
    of invocations of its four entry points and of the orchestrator's
    result lookup, in any environment. *)
Inductive reachable : World -> Prop :=
| reach_empty : reachable emptyWorld
| reach_process env wi w :
    reachable w -> reachable (snd (Orchestrate.processWorkItem env wi w))
| reach_generate env binding q w :
    reachable w -> reachable (snd (GenerateTests.main env binding q w))
| reach_run env q w :
    reachable w -> reachable (snd (RunTests.main env q w))
| reach_status env req w :
    reachable w -> reachable (snd (JobStatus.main env req w))
| reach_results env testId w :
    reachable w -> reachable (snd (Orchestrate.getTestResults env testId w)).

End Spec.

(* ===================================================================== *)
(** * Further vocabulary and inputs *)
(* ===================================================================== *)

Module Spec2.
Import Spec.

(** Harvesting with every subdirectory taken as empty. *)
Definition topLevelOnly (resultsPath : string) (files : list FsEntry)
    : TestResults :=
  Collect.loop (fun _ _ => Collect.initial) resultsPath files Collect.initial.

(** A name the harvest gives a kind to, so that the file is read. *)
Definition recognised (name : string) : bool :=
  let ext := toLowerCase (extname name) in
  let fileName := toLowerCase name in
  Collect.is_screenshot ext fileName || Collect.is_log ext fileName
  || bool_decide (ext = ".json") || bool_decide (ext = ".html").

(** A name harvested as a JSON report. *)
Definition jsonReportName (name : string) : bool :=
  let ext := toLowerCase (extname name) in
  let fileName := toLowerCase name in
  negb (Collect.is_screenshot ext fileName)
  && negb (Collect.is_log ext fileName)
  && bool_decide (ext = ".json").

(** An entry on which the loop goes on: a directory, or a file whose
    harvest does not throw. *)
Definition harvestable (e : FsEntry) : bool :=
  match e with
  | Dir _ _ => true
  | File name body =>
      match Collect.collectFile "" name body Collect.initial with
      | Collect.Next _ => true
      | Collect.Thrown _ => false
      end
  end.

(** The store after a sequence of acknowledged writes. *)
Definition applyWrites (writes : list ((string * string) * StoredBlob))
    (m : gmap (string * string) StoredBlob) : gmap (string * string) StoredBlob :=
  foldl (fun acc kv => <[fst kv := snd kv]> acc) m writes.

(** The blobs [uploadTestResults] writes for harvested results, in
    order, the summary document last. *)
Definition screenshotWrite (env : Env) (testId c : string) (s : Screenshot)
    : (string * string) * StoredBlob :=
  ((c, screenshotBlob testId s),
   stored env (RawText (sh_content s)) "image/png"
          (RunTests.metadataOf env testId)).

Definition logWrite (env : Env) (testId c : string) (l : LogFile)
    : (string * string) * StoredBlob :=
  ((c, logBlob testId l),
   stored env (RawText (lg_content l)) "text/plain"
          (RunTests.metadataOf env testId)).

Definition reportWrite (env : Env) (testId c : string) (r : ReportFile)
    : (string * string) * StoredBlob :=
  ((c, reportBlob testId r),
   stored env
          match rp_content r with
          | RJson doc => JsonText doc
          | RHtml text => RawText text
          end
          (if bool_decide (rp_type r = "json") then "application/json"
           else "text/html")
          (RunTests.metadataOf env testId)).

Definition summaryWrite (env : Env) (testId c : string) (results : TestResults)
    : (string * string) * StoredBlob :=
  ((c, summaryBlob testId),
   stored env
          (JsonText (RunTests.summaryDoc env testId results
                       (screenshotItem env testId c <$> tr_screenshots results)
                       (logItem env testId c <$> tr_logs results)
                       (reportItem env testId c <$> tr_reports results)))
          "application/json" (RunTests.metadataOf env testId)).

Definition resultWrites (env : Env) (testId c : string) (results : TestResults)
    : list ((string * string) * StoredBlob) :=
  (screenshotWrite env testId c <$> tr_screenshots results)
  ++ (logWrite env testId c <$> tr_logs results)
  ++ (reportWrite env testId c <$> tr_reports results)
  ++ [summaryWrite env testId c results].

(** A store in which reads and existence checks succeed. *)
Definition readsHealthy (env : Env) : Prop :=
  connected env
  /\ (forall t c b, blobExists env t c b = Ok tt)
  /\ (forall t c b, blobRead env t c b = Ok tt).

(** Nothing changed but blobs of container [c] named under [pre]. *)
Definition confined (c pre : string) (w w' : World) : Prop :=
  queue w' = queue w
  /\ forall c' b, ~ (c' = c /\ starts_with pre b = true) ->
                  blobs w' !! (c', b) = blobs w !! (c', b).

(** The messages an enqueue report accounts for: one per work item
    reported as sent, in the order of the items. *)
Definition delivered (env : Env) (queueName : string)
    (report : list FetchWorkItems.EnqueueResult)
    (items : list FetchWorkItems.Item) : list (string * json) :=
  omap (fun ri : FetchWorkItems.EnqueueResult * FetchWorkItems.Item =>
          if FetchWorkItems.er_success (fst ri)
          then Some (queueName, FetchWorkItems.queueMessage env (snd ri))
          else None)
       (zip report items).

(** What every result object of [processWorkItem] holds, whatever
    happened on the way. *)
Definition settled (wi : WorkItem) (r : Orchestrate.WorkItemResult) : Prop :=
  Orchestrate.r_workItemId r = workItemId wi
  /\ Orchestrate.r_title r = title wi
  /\ Orchestrate.r_evidenceURLs r = []
  /\ Orchestrate.r_bugCreated r = false
  /\ (Orchestrate.r_status r = "unknown" \/ Orchestrate.r_status r = "error").

(** An entry of the daily summary that stands for a work item. *)
Definition entryFor (wi : WorkItem) (p : Batch.Processed) : Prop :=
  Batch.p_bugId p = None /\ settled wi (Batch.p_result p).

(** The daily summary after further entries were counted. *)
Definition grown (s : Batch.DailySummary) (entries : list Batch.Processed)
    : Batch.DailySummary :=
  foldl (fun acc p => Batch.counted p acc) s entries.

(** The entries whose envelope went out. *)
Definition dispatched (entries : list Batch.Processed) : list Batch.Processed :=
  filter (fun p => Orchestrate.r_status (Batch.p_result p) = "unknown") entries.

(** The messages a step left on the queues. *)
Definition enqueuedBy (w w' : World) : list (string * json) :=
  drop (length (queue w)) (queue w').

End Spec2.

Module Scenario2.
Import Scenario.

(** A JSON report with three failures whose name contains [log]. *)
Definition loginReport : FileBody :=
  Readable "(json report)"
    (ParsedValue {| rep_doc := statsDoc {| st_total := Some 3; st_passed := Some 0;
                                           st_failed := Some 3; st_skipped := Some 0;
                                           st_duration := Some 10 |};
                    rep_stats := Some {| st_total := Some 3; st_passed := Some 0;
                                         st_failed := Some 3; st_skipped := Some 0;
                                         st_duration := Some 10 |} |}).

(** A results directory in which a retry left a second screenshot of
    the same name one level down. *)
Definition nestedShots : FsEntry :=
  Dir "results"
      (Some [File "home.png" (Readable "FIRST" SyntaxError);
             Dir "retry" (Some [File "home.png" (Readable "SECOND" SyntaxError)])]).

(** A summary document whose [screenshots] property is not an array. *)
Definition oddDoc : json :=
  JObj [("testId", JStr "R"); ("status", JStr "passed");
        ("screenshots", JStr "none")].

Definition oddSummary : World :=
  {| blobs := {[ ("test-results", "R/summary.json") := summaryOf oddDoc ]};
     queue := []; trace := []; clock := O |}.

Definition redStats : Stats :=
  {| st_total := Some 2; st_passed := Some 1; st_failed := Some 1;
     st_skipped := Some 0; st_duration := Some 700 |}.

Definition noTracker : Batch.Tracker :=
  {| Batch.fetched := Ok []; Batch.bugFiled := fun _ _ => Throw "no tracker" |}.

Definition devops (k : string) : option string :=
  if bool_decide (k = "AZURE_DEVOPS_ORG_URL") then Some "https://dev.azure.com/acme"
  else if bool_decide (k = "AZURE_DEVOPS_PROJECT") then Some "shop"
  else if bool_decide (k = "AZURE_DEVOPS_PAT") then Some "pat"
  else if bool_decide (k = "CREATE_BUGS_FOR_FAILURES") then Some "true"
  else configured k.

(** Storage configured, no model key. *)
Definition noKey (k : string) : option string :=
  if bool_decide (k = "AZURE_STORAGE_CONNECTION_STRING")
  then Some "UseDevelopmentStorage=true"
  else None.

Definition withEnv (vars : string -> option string) (env : Env) : Env :=
  {| getenv := vars; now := now env; uuidv4 := uuidv4 env;
     blobUrl := blobUrl env; stringify := stringify env; trim := trim env;
     codeBlock := codeBlock env; syntaxError := syntaxError env;
     elapsedMs := elapsedMs env; blobExists := blobExists env;
     blobWrite := blobWrite env; blobRead := blobRead env;
     blobList := blobList env; queueSend := queueSend env;
     chat := chat env; webhook := webhook env; sandbox := sandbox env |}.

(** Sends to the queues fail at odd times. *)
Definition flakyQueue (env : Env) : Env :=
  {| getenv := getenv env; now := now env; uuidv4 := uuidv4 env;
     blobUrl := blobUrl env; stringify := stringify env; trim := trim env;
     codeBlock := codeBlock env; syntaxError := syntaxError env;
     elapsedMs := elapsedMs env; blobExists := blobExists env;
     blobWrite := blobWrite env; blobRead := blobRead env;
     blobList := blobList env;
     queueSend := fun t _ => if Nat.odd t then Throw "503 Server Busy" else Ok tt;
     chat := chat env; webhook := webhook env; sandbox := sandbox env |}.

Definition resetItem : WorkItem :=
  {| workItemId := Some "43"; title := Some "Password reset";
     description := None; url := None; acceptanceCriteria := None;
     workItemType := Some "Bug"; priority := Some 1 |}.

Definition twoItems : Batch.Tracker :=
  {| Batch.fetched := Ok [loginItem; resetItem];
     Batch.bugFiled := fun _ _ => Ok "9001" |}.

Definition boardItem (id name : string) : FetchWorkItems.Item :=
  {| FetchWorkItems.it_workItemId := id; FetchWorkItems.it_title := name;
     FetchWorkItems.it_description := ""; FetchWorkItems.it_url := "";
     FetchWorkItems.it_state := "Ready for Testing";
     FetchWorkItems.it_workItemType := "Feature";
     FetchWorkItems.it_assignedTo := None; FetchWorkItems.it_tags := [];
     FetchWorkItems.it_rev := 1 |}.

Definition threeOnBoard : FetchWorkItems.Boards :=
  {| FetchWorkItems.queried := Ok ["42"; "43"; "44"];
     FetchWorkItems.details :=
       fun _ => Ok [boardItem "42" "Login form"; boardItem "43" "Password reset";
                    boardItem "44" "Sign out"] |}.

End Scenario2.
(* ===================================================================== *)
(** * Properties of status derivation *)
(* ===================================================================== *)

Module StatusFacts.
Import Collect StatusDerivation.

Lemma statusOfStats_summary (s : Stats) :
  statusOfStats s = statusOfSummary (summaryOfStats s).
Proof.
  unfold statusOfStats, statusOfSummary, summaryOfStats; simpl.
  destruct (st_failed s), (st_passed s); reflexivity.
Qed.

Lemma coherent_initial : coherent initial.
Proof. reflexivity. Qed.

Lemma coherent_collectFile filePath name body r :
  coherent r ->
  match collectFile filePath name body r with
  | Next r' => coherent r'
  | Thrown r' => coherent r'
  end.
Proof.
  intros Hr. unfold collectFile.
  destruct (is_screenshot _ _); [destruct body; exact Hr|].
  destruct (is_log _ _); [destruct body; exact Hr|].
  destruct (bool_decide (_ = ".json")).
  - destruct body as [err|text [| |rep]]; try exact Hr.
    destruct (rep_stats rep) as [s|]; [|exact Hr].
    unfold coherent; simpl. apply statusOfStats_summary.
  - destruct (bool_decide (_ = ".html")); [destruct body|]; exact Hr.
Qed.

Lemma coherent_loop recur resultsPath files :
  forall r, coherent r -> coherent (loop recur resultsPath files r).
Proof.
  induction files as [|file rest IH]; intros r Hr; simpl; [exact Hr|].
  destruct file as [name body|name listing].
  - pose proof (coherent_collectFile
                  (path_join resultsPath name) name body r Hr) as H.
    destruct (collectFile _ name body r); [apply IH|]; exact H.
  - apply IH. exact Hr.
Qed.

Lemma coherent_collect resultsPath node :
  coherent (collectTestResults resultsPath node).
Proof.
  destruct node as [name body|name [files|]]; simpl;
    try apply coherent_initial.
  apply coherent_loop, coherent_initial.
Qed.

(** C1 (as stated, refuted).  A report whose counters are all zero yields
    a summary, yet with exit code 0 the executor returns [passed] where the
    two-tier rule of the specification says [unknown]: the exit-code tier
    is entered whenever the harvested status is [unknown], not only when
    no summary exists. *)
Lemma C1_zero_counters_fall_back_to_exit_code :
  let r := collectTestResults "/tmp/run/results" Scenario.zeroDir in
  tr_summary r = Some {| total := 0; passed := 0; failed := 0;
                         skipped := 0; duration := 0 |}
  /\ finalStatus (tr_status r) (JNum 0) = "passed"
  /\ specStatus (tr_summary r) (JNum 0) = "unknown"
  /\ finalStatus (tr_status r) (JNum 0) <> specStatus (tr_summary r) (JNum 0).
Proof. vm_compute. repeat split; congruence. Qed.

Lemma finalStatus_codeStatus (resultsPath : string) (dir : FsEntry)
    (exitCode : json) :
  let r := collectTestResults resultsPath dir in
  finalStatus (tr_status r) exitCode = codeStatus (tr_summary r) exitCode.
Proof.
  intros r. pose proof (coherent_collect resultsPath dir) as H.
  fold r in H. unfold coherent in H. unfold finalStatus, codeStatus.
  rewrite H. destruct (tr_summary r) as [s|]; [|reflexivity].
  unfold statusOfSummary.
  destruct (0 <? failed s); [reflexivity|].
  destruct (0 <? passed s); reflexivity.
Qed.

(** C1 (amended).  For every results directory and every exit code, the
    status the executor derives is [failed] when the summary's failed
    count is positive, else [passed] when its passed count is positive,
    and in every other case, with or without a summary, the exit-code
    status: [passed] for 0 and [failed] for anything else. *)
Theorem C1_status_derivation (resultsPath : string) (dir : FsEntry)
    (exitCode : json) :
  let r := collectTestResults resultsPath dir in
  finalStatus (tr_status r) exitCode = codeStatus (tr_summary r) exitCode.
Proof. exact (finalStatus_codeStatus resultsPath dir exitCode). Qed.

Lemma codeStatus_cases (summary : option Summary) (exitCode : json) :
  codeStatus summary exitCode = "failed" \/ codeStatus summary exitCode = "passed".
Proof.
  unfold codeStatus, exitStatus.
  destruct summary as [s|].
  - destruct (0 <? failed s); [auto|]. destruct (0 <? passed s); [auto|].
    destruct exitCode as [| |[| |]| | |]; auto.
  - destruct exitCode as [| |[| |]| | |]; auto.
Qed.

End StatusFacts.

(* ===================================================================== *)
(** * How the helpers change the world *)
(* ===================================================================== *)

Module WorldFacts.
Import Spec.

Lemma sameState_refl w : sameState w w.
Proof. repeat split. Qed.

Lemma sameState_trans w1 w2 w3 :
  sameState w1 w2 -> sameState w2 w3 -> sameState w1 w3.
Proof.
  intros (?&?&?) (?&?&?). repeat split; congruence.
Qed.

Lemma keeps_refl w : keeps w w.
Proof. intros k H. exact H. Qed.

Lemma keeps_trans w1 w2 w3 : keeps w1 w2 -> keeps w2 w3 -> keeps w1 w3.
Proof. intros H1 H2 k H. apply H2, H1, H. Qed.

Lemma sameState_keeps w w' : sameState w w' -> keeps w w'.
Proof. intros (Hb&_&_) k H. rewrite Hb. exact H. Qed.

Lemma keeps_insert w w' k b :
  blobs w' = <[k := b]> (blobs w) -> keeps w w'.
Proof.
  intros Hb k' H. rewrite Hb.
  destruct (decide (k = k')) as [->|Hne].
  - rewrite lookup_insert_eq. eauto.
  - rewrite lookup_insert_ne by exact Hne. exact H.
Qed.

(** [includes] finds a needle wherever it sits. *)
Lemma starts_with_app (p s : string) : starts_with p (p +:+ s) = true.
Proof.
  induction p as [|a p IH]; simpl; [reflexivity|].
  rewrite bool_decide_eq_true_2 by reflexivity. exact IH.
Qed.

Lemma includes_app (needle pre post : string) :
  includes needle (pre +:+ needle +:+ post) = true.
Proof.
  induction pre as [|a pre IH]; simpl.
  - destruct (needle +:+ post) eqn:E; simpl.
    + destruct needle; [reflexivity|discriminate].
    + rewrite <- E, starts_with_app. reflexivity.
  - rewrite IH. apply orb_true_r.
Qed.

Lemma starts_with_split (p s : string) :
  starts_with p s = true -> exists post, s = p +:+ post.
Proof.
  revert s. induction p as [|a p IH]; intros s H.
  - exists s. reflexivity.
  - destruct s as [|b s]; cbn in H; [discriminate|].
    apply andb_true_iff in H as [Hab Hrest].
    apply bool_decide_eq_true in Hab. subst b.
    destruct (IH s Hrest) as [post ->]. exists post. reflexivity.
Qed.

Lemma remove_first_prefix (p rest : string) :
  remove_first p (p +:+ rest) = rest.
Proof.
  assert (Heq : forall s, remove_first p s
                          = if starts_with p s
                            then drop_chars (String.length p) s
                            else match s with
                                 | EmptyString => EmptyString
                                 | String a s' => String a (remove_first p s')
                                 end) by (intros [|a s]; reflexivity).
  rewrite Heq, starts_with_app. clear Heq.
  induction p as [|a p IH]; [destruct rest; reflexivity|exact IH].
Qed.

Lemma str_or_nonempty (v : option string) (d : string) :
  d <> "" -> str_or v d <> "".
Proof.
  intros Hd. unfold str_or. destruct v as [s|]; [|exact Hd].
  case_bool_decide; [exact Hd|assumption].
Qed.

Section Helpers.
Context (env : Env).

Lemma getContainerClient_cases c w :
  Storage.getContainerClient env c w = (Ok tt, w)
  \/ exists m, Storage.getContainerClient env c w = (Throw m, w).
Proof.
  unfold Storage.getContainerClient.
  case_bool_decide; [right; eexists; reflexivity|].
  destruct (truthy_str _); [left|right; eexists]; reflexivity.
Qed.

Lemma getContainerClient_ok c w :
  connected env -> c <> "" -> Storage.getContainerClient env c w = (Ok tt, w).
Proof.
  intros Hc Hne. unfold Storage.getContainerClient.
  rewrite bool_decide_eq_false_2 by exact Hne.
  unfold connected in Hc. rewrite Hc. reflexivity.
Qed.

(** [uploadBlob] either stores the blob, logs the acknowledgement and
    returns its URL, or throws and leaves store, queue and trace alone. *)
Lemma uploadBlob_cases c b data ct md w :
  Storage.uploadBlob env c b data ct md w
  = (Ok (blobUrl env c b), written w c b (stored env data ct md))
  \/ exists m w', Storage.uploadBlob env c b data ct md w = (Throw m, w')
                  /\ sameState w w'.
Proof.
  unfold Storage.uploadBlob, Storage.rethrow, try_catch, bind.
  destruct (getContainerClient_cases c w) as [->|[m ->]].
  - simpl. unfold lift.
    destruct (blobWrite env (clock w) c b) as [[]|m]; simpl.
    + left. reflexivity.
    + right. do 2 eexists. split; [reflexivity|]. repeat split.
  - right. do 2 eexists. split; [reflexivity|]. apply sameState_refl.
Qed.

Lemma uploadBlob_ok c b data ct md w :
  connected env -> c <> "" -> blobWrite env (clock w) c b = Ok tt ->
  Storage.uploadBlob env c b data ct md w
  = (Ok (blobUrl env c b), written w c b (stored env data ct md)).
Proof.
  intros Hc Hne Hw.
  unfold Storage.uploadBlob, Storage.rethrow, try_catch, bind.
  rewrite getContainerClient_ok by assumption. simpl. unfold lift.
  rewrite Hw. reflexivity.
Qed.

Lemma enqueueMessage_cases q msg w :
  Queue.enqueueMessage env q msg w = (Ok tt, sent w q msg)
  \/ exists m w', Queue.enqueueMessage env q msg w = (Throw m, w')
                  /\ sameState w w'.
Proof.
  unfold Queue.enqueueMessage, Storage.rethrow, try_catch, bind,
    Queue.getQueueClient.
  case_bool_decide.
  { right. do 2 eexists. split; [reflexivity|]. apply sameState_refl. }
  destruct (truthy_str _).
  - simpl. unfold lift. destruct (queueSend env (clock w) q) as [[]|m]; simpl.
    + left. reflexivity.
    + right. do 2 eexists. split; [reflexivity|]. repeat split.
  - right. do 2 eexists. split; [reflexivity|]. apply sameState_refl.
Qed.

Lemma complete_eq p w :
  GenerateTests.complete env p w = (chat env (clock w) p, asked w p).
Proof. reflexivity. Qed.

Lemma getOpenAIClient_cases msg w :
  GenerateTests.getOpenAIClient env msg w = (Ok tt, w)
  \/ GenerateTests.getOpenAIClient env msg w = (Throw msg, w).
Proof.
  unfold GenerateTests.getOpenAIClient.
  destruct (_ || _); [left|right]; reflexivity.
Qed.

Lemma prop_cases o k w :
  GenerateTests.prop o k w = (Ok (get o k), w)
  \/ exists m, GenerateTests.prop o k w = (Throw m, w).
Proof.
  destruct o; simpl; try (left; reflexivity).
  right. eexists. reflexivity.
Qed.

End Helpers.

End WorldFacts.

(* ===================================================================== *)
(** * Frame rules for the stage monad *)
(* ===================================================================== *)

Module Frames.
Import Spec WorldFacts.

#[export] Instance sameState_preorder : PreOrder sameState.
Proof.
  split; [intros w; apply sameState_refl|intros ? ? ?; apply sameState_trans].
Qed.

#[export] Instance keeps_preorder : PreOrder keeps.
Proof.
  split; [intros w; apply keeps_refl|intros ? ? ?; apply keeps_trans].
Qed.

#[export] Instance grewBy_preorder kind : PreOrder (grewBy kind).
Proof.
  split.
  - intros w. repeat split. exists []. rewrite app_nil_r. auto.
  - intros w1 w2 w3 (Hb1&Hq1&n1&Ht1&Hk1) (Hb2&Hq2&n2&Ht2&Hk2).
    repeat split; [congruence|congruence|].
    exists (n1 ++ n2). rewrite Ht2, Ht1, app_assoc. split; [reflexivity|].
    apply Forall_app; auto.
Qed.

Lemma sameState_grewBy kind w w' : sameState w w' -> grewBy kind w w'.
Proof.
  intros (Hb&Hq&Ht). repeat split; [assumption|assumption|].
  exists []. rewrite app_nil_r. auto.
Qed.

Lemma grewBy_keeps kind w w' : grewBy kind w w' -> keeps w w'.
Proof. intros (Hb&_&_) k H. rewrite Hb. exact H. Qed.

Section Rules.
Context (R : World -> World -> Prop) `{!PreOrder R}.

Lemma within_ret {A} (a : A) : Within R (ret a).
Proof. intros w. reflexivity. Qed.

Lemma within_throw {A} (m : string) : Within R (@throw A m).
Proof. intros w. reflexivity. Qed.

Lemma within_lift {A} (o : Outcome A) : Within R (lift o).
Proof. intros w. reflexivity. Qed.

Lemma within_getWorld : Within R getWorld.
Proof. intros w. reflexivity. Qed.

Lemma within_bind {A B} (m : M A) (k : A -> M B) :
  Within R m -> (forall a, Within R (k a)) -> Within R (bind m k).
Proof.
  intros Hm Hk w. unfold bind. specialize (Hm w).
  destruct (m w) as [[a|e] w1]; simpl in *; [|exact Hm].
  transitivity w1; [exact Hm|apply Hk].
Qed.

Lemma within_try {A} (m : M A) (h : string -> M A) :
  Within R m -> (forall e, Within R (h e)) -> Within R (try_catch m h).
Proof.
  intros Hm Hh w. unfold try_catch. specialize (Hm w).
  destruct (m w) as [[a|e] w1]; simpl in *; [exact Hm|].
  transitivity w1; [exact Hm|apply Hh].
Qed.

Lemma within_rethrow {A} (pre : string) (m : M A) :
  Within R m -> Within R (Storage.rethrow pre m).
Proof. intros Hm. apply within_try; [exact Hm|intros e; apply within_throw]. Qed.

Lemma within_awaiting {A} result (call : M A) next :
  Within R call -> (forall a, Within R (next a)) ->
  Within R (Orchestrate.awaiting result call next).
Proof.
  intros Hm Hk w. unfold Orchestrate.awaiting. specialize (Hm w).
  destruct (call w) as [[a|e] w1]; simpl in *; [|exact Hm].
  transitivity w1; [exact Hm|apply Hk].
Qed.

End Rules.

Lemma within_weaken {A} (R R' : World -> World -> Prop) (m : M A) :
  (forall w w', R w w' -> R' w w') -> Within R m -> Within R' m.
Proof. intros HR Hm w. apply HR, Hm. Qed.

Lemma bind_ok {A B} (m : M A) (k : A -> M B) w a w' :
  m w = (Ok a, w') -> bind m k w = k a w'.
Proof. intros H. unfold bind. rewrite H. reflexivity. Qed.

Lemma bind_throw {A B} (m : M A) (k : A -> M B) w e w' :
  m w = (Throw e, w') -> bind m k w = (Throw e, w').
Proof. intros H. unfold bind. rewrite H. reflexivity. Qed.

Lemma try_ok {A} (m : M A) h w a w' :
  m w = (Ok a, w') -> try_catch m h w = (Ok a, w').
Proof. intros H. unfold try_catch. rewrite H. reflexivity. Qed.

Lemma try_throw {A} (m : M A) h w e w' :
  m w = (Throw e, w') -> try_catch m h w = h e w'.
Proof. intros H. unfold try_catch. rewrite H. reflexivity. Qed.

Lemma returning_ret {A} (a : A) w (Q : A -> World -> Prop) :
  Q a w -> returning (ret a) w Q.
Proof. intros H. exists a, w. split; [reflexivity|exact H]. Qed.

Lemma returning_bind {A B} (m : M A) (k : A -> M B) w (Q : B -> World -> Prop) :
  returning m w (fun a w1 => returning (k a) w1 Q) -> returning (bind m k) w Q.
Proof.
  intros (a&w1&Hm&b&w2&Hk&HQ). exists b, w2. split; [|exact HQ].
  rewrite (bind_ok _ _ _ _ _ Hm). exact Hk.
Qed.

Lemma returning_try {A} (m : M A) h w (Q : A -> World -> Prop) :
  returning m w Q -> returning (try_catch m h) w Q.
Proof.
  intros (a&w1&Hm&HQ). exists a, w1. split; [|exact HQ].
  apply try_ok, Hm.
Qed.

Lemma returning_weaken {A} (m : M A) w (P Q : A -> World -> Prop) :
  returning m w P -> (forall a w', P a w' -> Q a w') -> returning m w Q.
Proof. intros (a&w1&Hm&HP) HPQ. exists a, w1. split; [exact Hm|auto]. Qed.

(** Unfolds the monad down to matches on the collaborators' outcomes. *)
Ltac run :=
  cbv beta iota zeta delta
    [bind try_catch tick emit lift ret throw getWorld putBlob pushMessage
     Storage.rethrow];
  cbn [blobs queue trace clock fst snd].

(** Case analysis on an innermost scrutinee of the goal. *)
Ltac inner_case :=
  match goal with
  | |- context [match ?x with _ => _ end] =>
      lazymatch x with
      | context [match _ with _ => _ end] => fail
      | _ => destruct x
      end
  end.

Ltac crunch := repeat (cbn [blobs queue trace clock fst snd]; inner_case).

(** Destructs the scrutinee of a [match] or [if] heading the computation. *)
Ltac split_head :=
  match goal with
  | |- Within _ (match ?x with _ => _ end) => destruct x
  | |- Within _ (if ?x then _ else _) => destruct x
  | |- Within _ (let _ := _ in _) => cbv zeta
  end.

Ltac frame_step lemmas :=
  first
    [ lemmas
    | apply within_ret; typeclasses eauto
    | apply within_throw; typeclasses eauto
    | apply within_lift; typeclasses eauto
    | apply within_getWorld; typeclasses eauto
    | apply within_bind; [typeclasses eauto| |intros ?]
    | apply within_try; [typeclasses eauto| |intros ?]
    | apply within_rethrow; [typeclasses eauto|]
    | apply within_awaiting; [typeclasses eauto| |intros ?]
    | split_head ].

End Frames.

(* ===================================================================== *)
(** * The generators only talk to the model *)
(* ===================================================================== *)

Module GeneratorFacts.
Import Spec WorldFacts Frames.

Section Calls.
Context (env : Env).

Lemma complete_calls p : Within (grewBy isModelCall) (GenerateTests.complete env p).
Proof.
  intros w. rewrite complete_eq. simpl. repeat split.
  exists [ModelCalled p]. split; [reflexivity|].
  constructor; [exact I|constructor].
Qed.

Lemma getOpenAIClient_calls msg :
  Within (grewBy isModelCall) (GenerateTests.getOpenAIClient env msg).
Proof.
  intros w. destruct (getOpenAIClient_cases env msg w) as [-> | ->]; reflexivity.
Qed.

Lemma prop_calls o k : Within (grewBy isModelCall) (GenerateTests.prop o k).
Proof. intros w. destruct o; reflexivity. Qed.

Ltac calls :=
  repeat frame_step
    ltac:(first [ apply complete_calls | apply getOpenAIClient_calls
                | apply prop_calls ]).

Lemma generateTestsWithAI_calls wi :
  Within (grewBy isModelCall) (GenerateTests.generateTestsWithAI env wi).
Proof. unfold GenerateTests.generateTestsWithAI. calls. Qed.

Lemma generateTestsSeparately_calls wi :
  Within (grewBy isModelCall) (GenerateTests.generateTestsSeparately env wi).
Proof. unfold GenerateTests.generateTestsSeparately. calls. Qed.

Lemma generate_calls wi :
  Within (grewBy isModelCall) (GenerateTests.generate env wi).
Proof.
  unfold GenerateTests.generate. apply within_try; [typeclasses eauto| |intros e].
  - apply generateTestsWithAI_calls.
  - apply generateTestsSeparately_calls.
Qed.

Lemma generateExploratoryScenarios_calls wi :
  Within (grewBy isModelCall) (TestGenerator.generateExploratoryScenarios env wi).
Proof. unfold TestGenerator.generateExploratoryScenarios. calls. Qed.

Lemma generatePlaywrightTestScript_calls wi scens :
  Within (grewBy isModelCall)
         (TestGenerator.generatePlaywrightTestScript env wi scens).
Proof. unfold TestGenerator.generatePlaywrightTestScript. calls. Qed.

End Calls.

End GeneratorFacts.

(* ===================================================================== *)
(** * The generator stage of the orchestrator *)
(* ===================================================================== *)

Module OrchestrateFacts.
Import Spec WorldFacts Frames GeneratorFacts Orchestrate.

Lemma scriptOf_envelope testId b c wi :
  scriptOf (envelope testId b c wi) = Some (c, b).
Proof.
  unfold scriptOf, envelope. destruct (workItemId wi), (title wi), (url wi);
    reflexivity.
Qed.

Section Process.
Context (env : Env).

Lemma notifyStep_cases result w :
  exists result' w' notices,
    notifyStep env result w = (Ok result', w')
    /\ r_status result' = r_status result
    /\ r_automatedTestScripts result' = r_automatedTestScripts result
    /\ blobs w' = blobs w /\ queue w' = queue w
    /\ trace w' = trace w ++ notices /\ Forall isNotice notices.
Proof.
  unfold notifyStep.
  assert (Hsame : exists result' w' notices,
             (Ok result, w) = (Ok result', w')
             /\ r_status result' = r_status result
             /\ r_automatedTestScripts result' = r_automatedTestScripts result
             /\ blobs w' = blobs w /\ queue w' = queue w
             /\ trace w' = trace w ++ notices /\ Forall isNotice notices).
  { exists result, w, []. rewrite app_nil_r. repeat split; auto. }
  destruct (getenv env "TEAMS_WEBHOOK_URL") as [hook|]; [|exact Hsame].
  case_bool_decide as Hh; [exact Hsame|].
  unfold notifyTeams.
  rewrite bool_decide_eq_false_2 by exact Hh. run.
  destruct (webhook env (clock w) hook) as [[]|m]; simpl.
  - do 2 eexists. exists [Notified hook]. repeat split; auto.
    constructor; [exact I|constructor].
  - do 2 eexists. exists []. rewrite app_nil_r. repeat split; auto.
Qed.

(** Every run of [processWorkItem] returns, and its effects have one of
    two shapes: model calls followed by nothing or by the script upload
    alone, with an [error] result and no message sent; or model calls, the
    script upload, the envelope and possibly a notice, with the envelope
    on the execution queue. *)
Lemma processWorkItem_shape wi w :
  let testId := uuidv4 env (clock w) in
  let c := scriptContainerName env in
  let b := testId +:+ "/test.spec.js" in
  let q := executionQueueName env in
  let msg := envelope testId b c wi in
  exists r w' calls tail,
    processWorkItem env wi w = (Ok r, w')
    /\ trace w' = trace w ++ calls ++ tail
    /\ Forall isModelCall calls
    /\ keeps w w'
    /\ ((r_status r = "error" /\ queue w' = queue w
         /\ (tail = [] \/ tail = [Uploaded c b]))
        \/ (r_status r = "unknown" /\ queue w' = queue w ++ [(q, msg)]
            /\ is_Some (blobs w' !! (c, b))
            /\ r_automatedTestScripts r = [blobUrl env c b]
            /\ exists notices, tail = Uploaded c b :: Enqueued q msg :: notices
                               /\ Forall isNotice notices)).
Proof.
  intros testId c b q msg.
  unfold processWorkItem, bind, GenerateTests.draw_uuid. simpl.
  set (w0 := {| blobs := blobs w; queue := queue w; trace := trace w;
                clock := S (clock w) |}).
  fold testId.
  unfold awaiting at 1.
  pose proof (generateExploratoryScenarios_calls env wi w0) as H1.
  destruct (TestGenerator.generateExploratoryScenarios env wi w0)
    as [[scens|e1] w1]; simpl in H1;
    destruct H1 as (Hb1&Hq1&n1&Ht1&Hk1).
  2:{ exists (withError e1 (initialResult wi)), w1, n1, [].
      rewrite app_nil_r. repeat split; auto.
      - intros k Hk. rewrite Hb1. exact Hk. }
  unfold awaiting at 1.
  pose proof (generatePlaywrightTestScript_calls env wi scens w1) as H2.
  destruct (TestGenerator.generatePlaywrightTestScript env wi scens w1)
    as [[script|e2] w2]; simpl in H2;
    destruct H2 as (Hb2&Hq2&n2&Ht2&Hk2).
  2:{ exists (withError e2 (withScenarios scens (initialResult wi))), w2,
        (n1 ++ n2), [].
      rewrite app_nil_r, Ht2, Ht1, app_assoc.
      repeat split; auto.
      - apply Forall_app; auto.
      - intros k Hk. rewrite Hb2, Hb1. exact Hk.
      - left. repeat split; auto. rewrite Hq2, Hq1. reflexivity. }
  unfold awaiting at 1. fold c b.
  match goal with
  | |- context [Storage.uploadBlob env c b ?d ?ct ?md w2] =>
      destruct (uploadBlob_cases env c b d ct md w2) as [Hu|(m&w3&Hu&Hs)];
      rewrite Hu; clear Hu
  end.
  2:{ destruct Hs as (Hb3&Hq3&Ht3).
      exists (withError m (withScenarios scens (initialResult wi))), w3,
        (n1 ++ n2), [].
      rewrite app_nil_r, Ht3, Ht2, Ht1, app_assoc.
      repeat split; auto.
      - apply Forall_app; auto.
      - intros k Hk. rewrite Hb3, Hb2, Hb1. exact Hk.
      - left. repeat split; auto. rewrite Hq3, Hq2, Hq1. reflexivity. }
  set (w3 := written w2 c b _).
  assert (Hkeep3 : keeps w w3).
  { intros k Hk. unfold w3. simpl.
    destruct (decide ((c, b) = k)) as [->|Hne].
    - rewrite lookup_insert_eq. eauto.
    - rewrite lookup_insert_ne by exact Hne. rewrite Hb2, Hb1. exact Hk. }
  assert (Hin3 : is_Some (blobs w3 !! (c, b))).
  { unfold w3. simpl. rewrite lookup_insert_eq. eauto. }
  unfold awaiting at 1. fold q msg.
  destruct (enqueueMessage_cases env q msg w3) as [He|(m&w4&He&Hs)];
    rewrite He; clear He.
  2:{ destruct Hs as (Hb4&Hq4&Ht4).
      eexists _, w4, (n1 ++ n2), [Uploaded c b].
      split; [reflexivity|].
      rewrite Ht4. unfold w3. simpl. rewrite Ht2, Ht1, <- !app_assoc.
      repeat split; auto.
      - apply Forall_app; auto.
      - intros k Hk. rewrite Hb4. apply Hkeep3, Hk.
      - left. repeat split; auto. rewrite Hq4. simpl.
        rewrite Hq2, Hq1. reflexivity. }
  set (r3 := withScript _ _).
  destruct (notifyStep_cases r3 (sent w3 q msg))
    as (r4&w5&notices&Hn&Hst&Hsc&Hb5&Hq5&Ht5&Hk5).
  rewrite Hn.
  exists r4, w5, (n1 ++ n2), (Uploaded c b :: Enqueued q msg :: notices).
  split; [reflexivity|].
  rewrite Ht5. simpl. rewrite Ht2, Ht1, <- !app_assoc. simpl.
  repeat split; auto.
  - apply Forall_app; auto.
  - intros k Hk. rewrite Hb5. apply Hkeep3, Hk.
  - right. rewrite Hst, Hsc, Hq5, Hb5. simpl. rewrite Hq2, Hq1.
    repeat split; auto. exists notices. auto.
Qed.

End Process.

End OrchestrateFacts.

(* ===================================================================== *)
(** * Stages that cannot orphan an envelope *)
(* ===================================================================== *)

Module SafetyFacts.
Import Spec WorldFacts Frames GeneratorFacts.

#[export] Instance harmless_preorder : PreOrder harmless.
Proof.
  split.
  - intros w. split; [apply keeps_refl|]. exists []. rewrite app_nil_r. auto.
  - intros w1 w2 w3 (Hk1&n1&Hq1&Hf1) (Hk2&n2&Hq2&Hf2).
    split; [eapply keeps_trans; eassumption|].
    exists (n1 ++ n2). rewrite Hq2, Hq1, app_assoc. split; [reflexivity|].
    apply Forall_app; auto.
Qed.

Lemma sameState_harmless w w' : sameState w w' -> harmless w w'.
Proof.
  intros Hs. split; [apply sameState_keeps, Hs|].
  destruct Hs as (_&Hq&_). exists []. rewrite app_nil_r. auto.
Qed.

Lemma grewBy_harmless kind w w' : grewBy kind w w' -> harmless w w'.
Proof.
  intros Hg. split; [eapply grewBy_keeps, Hg|].
  destruct Hg as (_&Hq&_). exists []. rewrite app_nil_r. auto.
Qed.

Lemma noOrphans_harmless w w' : noOrphans w -> harmless w w' -> noOrphans w'.
Proof.
  intros Hno (Hk&new&Hq&Hf) q msg k Hin Hs.
  rewrite Hq in Hin. apply elem_of_app in Hin as [Hin|Hin].
  - apply Hk. eapply Hno; eassumption.
  - rewrite Forall_forall in Hf. apply Hf in Hin. simpl in Hin. congruence.
Qed.

Section Steps.
Context (env : Env).

Lemma tick_harmless : Within harmless tick.
Proof. intros w. apply sameState_harmless. repeat split. Qed.

Lemma emit_harmless e : Within harmless (emit e).
Proof.
  intros w. split; [intros k H; exact H|]. exists []. rewrite app_nil_r. auto.
Qed.

Lemma getContainerClient_harmless c :
  Within harmless (Storage.getContainerClient env c).
Proof.
  intros w. destruct (getContainerClient_cases env c w) as [->|[m ->]];
    reflexivity.
Qed.

Lemma uploadBlob_harmless c b data ct md :
  Within harmless (Storage.uploadBlob env c b data ct md).
Proof.
  intros w.
  destruct (uploadBlob_cases env c b data ct md w) as [->|(m&w'&->&Hs)]; simpl.
  - split; [eapply keeps_insert; reflexivity|].
    exists []. rewrite app_nil_r. auto.
  - apply sameState_harmless, Hs.
Qed.

Lemma enqueueMessage_harmless q msg :
  scriptOf msg = None -> Within harmless (Queue.enqueueMessage env q msg).
Proof.
  intros Hmsg w.
  destruct (enqueueMessage_cases env q msg w) as [->|(m&w'&->&Hs)]; simpl.
  - split; [intros k H; exact H|]. exists [(q, msg)].
    split; [reflexivity|]. constructor; [exact Hmsg|constructor].
  - apply sameState_harmless, Hs.
Qed.

Lemma downloadBlob_sameState c b : Within sameState (Storage.downloadBlob env c b).
Proof.
  intros w. unfold Storage.downloadBlob. run.
  destruct (getContainerClient_cases env c w) as [Hc|[m Hc]]; rewrite Hc;
    crunch; cbn; repeat split.
Qed.

Lemma downloadBlobAsString_sameState c b :
  Within sameState (Storage.downloadBlobAsString env c b).
Proof.
  unfold Storage.downloadBlobAsString.
  repeat frame_step ltac:(apply downloadBlob_sameState).
Qed.

Lemma downloadBlobAsJson_sameState c b :
  Within sameState (Storage.downloadBlobAsJson env c b).
Proof.
  unfold Storage.downloadBlobAsJson.
  repeat frame_step ltac:(apply downloadBlob_sameState).
Qed.

Lemma listBlobs_sameState c p : Within sameState (Storage.listBlobs env c p).
Proof.
  intros w. unfold Storage.listBlobs. run.
  destruct (getContainerClient_cases env c w) as [Hc|[m Hc]]; rewrite Hc;
    crunch; cbn; repeat split.
Qed.

Lemma complete_harmless p : Within harmless (GenerateTests.complete env p).
Proof. eapply within_weaken; [apply grewBy_harmless|apply complete_calls]. Qed.

Lemma generate_harmless wi : Within harmless (GenerateTests.generate env wi).
Proof. eapply within_weaken; [apply grewBy_harmless|apply generate_calls]. Qed.

Lemma downloadBlobAsString_harmless c b :
  Within harmless (Storage.downloadBlobAsString env c b).
Proof.
  eapply within_weaken; [apply sameState_harmless|].
  apply downloadBlobAsString_sameState.
Qed.

Lemma downloadBlobAsJson_harmless c b :
  Within harmless (Storage.downloadBlobAsJson env c b).
Proof.
  eapply within_weaken; [apply sameState_harmless|].
  apply downloadBlobAsJson_sameState.
Qed.

Lemma listBlobs_harmless c p : Within harmless (Storage.listBlobs env c p).
Proof.
  eapply within_weaken; [apply sameState_harmless|apply listBlobs_sameState].
Qed.

Lemma prop_harmless o k : Within harmless (GenerateTests.prop o k).
Proof. intros w. destruct o; reflexivity. Qed.

Ltac safe_leaf :=
  first [ apply tick_harmless | apply emit_harmless
        | apply uploadBlob_harmless
        | apply enqueueMessage_harmless; reflexivity
        | apply getContainerClient_harmless
        | apply generate_harmless
        | apply downloadBlobAsString_harmless
        | apply downloadBlobAsJson_harmless
        | apply listBlobs_harmless
        | apply prop_harmless ].

Ltac safe := repeat frame_step ltac:(safe_leaf).

Lemma uploadEach_within {A} (R : World -> World -> Prop) `{!PreOrder R}
    (upload : A -> M RunTests.UploadedItem) (items : list A) :
  (forall x, Within R (upload x)) -> Within R (RunTests.uploadEach upload items).
Proof.
  intros Hu. induction items as [|x rest IH]; simpl.
  - apply within_ret; typeclasses eauto.
  - apply within_bind; [typeclasses eauto|apply Hu|intros u].
    apply within_bind; [typeclasses eauto|exact IH|intros us].
    apply within_ret; typeclasses eauto.
Qed.

Lemma uploadTestResults_harmless testId results c :
  Within harmless (RunTests.uploadTestResults env testId results c).
Proof.
  unfold RunTests.uploadTestResults.
  repeat frame_step
    ltac:(first [ apply uploadBlob_harmless
                | apply uploadEach_within;
                  [typeclasses eauto|intros x;
                   unfold RunTests.uploadScreenshot, RunTests.uploadLog,
                     RunTests.uploadReport; safe] ]).
Qed.

Lemma generateTests_harmless binding q :
  Within harmless (GenerateTests.main env binding q).
Proof.
  unfold GenerateTests.main, GenerateTests.prepare, GenerateTests.finish,
    GenerateTests.failed, GenerateTests.firstOrUuid,
    GenerateTests.draw_uuid, GenerateTests.cleanScript.
  safe.
Qed.

Lemma runTests_harmless q : Within harmless (RunTests.main env q).
Proof.
  unfold RunTests.main, GenerateTests.firstOrUuid, GenerateTests.draw_uuid,
    RunTests.updateJobStatus, DockerHelper.runTestsWithMount, RunTests.unbound.
  repeat frame_step
    ltac:(first [ apply uploadTestResults_harmless | safe_leaf ]).
Qed.

Lemma getContainerClient_sameState c :
  Within sameState (Storage.getContainerClient env c).
Proof.
  intros w. destruct (getContainerClient_cases env c w) as [->|[m ->]];
    reflexivity.
Qed.

Lemma prop_sameState o k : Within sameState (GenerateTests.prop o k).
Proof. intros w. destruct o; reflexivity. Qed.

Lemma jobStatus_sameState req : Within sameState (JobStatus.main env req).
Proof.
  unfold JobStatus.main, JobStatus.getTestSummary, JobStatus.getTestEvidence,
    JobStatus.listBlobsByPrefix.
  repeat frame_step
    ltac:(first [ apply downloadBlobAsJson_sameState
                | apply listBlobs_sameState
                | apply getContainerClient_sameState ]).
Qed.

Lemma getTestResults_sameState testId :
  Within sameState (Orchestrate.getTestResults env testId).
Proof.
  unfold Orchestrate.getTestResults, Orchestrate.urlsOf.
  repeat frame_step
    ltac:(first [ apply downloadBlobAsJson_sameState
                | apply prop_sameState ]).
Qed.

End Steps.

(** No reachable world holds an envelope whose script the store lacks. *)
Lemma reachable_noOrphans w : reachable w -> noOrphans w.
Proof.
  induction 1 as [|env wi w Hr IH|env binding q w Hr IH|env q w Hr IH
                  |env req w Hr IH|env testId w Hr IH].
  - intros q msg k Hin. inversion Hin.
  - destruct (OrchestrateFacts.processWorkItem_shape env wi w)
      as (r&w'&calls&tail&Hrun&_&_&Hkeep&Hcases).
    rewrite Hrun. simpl.
    destruct Hcases as [(_&Hq&_)|(_&Hq&Hin&_)].
    + eapply noOrphans_harmless; [exact IH|].
      split; [exact Hkeep|]. exists []. rewrite app_nil_r. auto.
    + intros q msg k Hmem Hs. rewrite Hq in Hmem.
      apply elem_of_app in Hmem as [Hmem|Hmem].
      * apply Hkeep. eapply IH; eassumption.
      * apply list_elem_of_singleton in Hmem. inversion Hmem; subst.
        rewrite OrchestrateFacts.scriptOf_envelope in Hs.
        inversion Hs; subst. exact Hin.
  - eapply noOrphans_harmless; [exact IH|apply generateTests_harmless].
  - eapply noOrphans_harmless; [exact IH|apply runTests_harmless].
  - eapply noOrphans_harmless; [exact IH|].
    apply sameState_harmless, jobStatus_sameState.
  - eapply noOrphans_harmless; [exact IH|].
    apply sameState_harmless, getTestResults_sameState.
Qed.

End SafetyFacts.

(* ===================================================================== *)
(** * The generator stage: ordering and outcomes *)
(* ===================================================================== *)

Module GeneratorStage.
Import Spec WorldFacts Frames GeneratorFacts OrchestrateFacts SafetyFacts
  Orchestrate.

(** C2.  In every run of the generator stage for a work item, whatever the
    collaborators do: a run that does not end in an error result has
    uploaded the script and, with the upload acknowledged, sent the
    envelope that names it as the very next event; the script is in the
    store, its URL is in the result and the envelope is on the execution
    queue.  And in any run, each envelope put on a queue comes after the
    acknowledged upload of the script it names. *)
Theorem C2_write_before_enqueue (env : Env) (wi : WorkItem) (w w' : World)
    (r : WorkItemResult) :
  processWorkItem env wi w = (Ok r, w') ->
  exists new,
    trace w' = trace w ++ new
    /\ (r_status r <> "error" ->
        exists j c b msg,
          new !! j = Some (Uploaded c b)
          /\ new !! S j = Some (Enqueued (executionQueueName env) msg)
          /\ scriptOf msg = Some (c, b)
          /\ is_Some (blobs w' !! (c, b))
          /\ r_automatedTestScripts r = [blobUrl env c b]
          /\ queue w' = queue w ++ [(executionQueueName env, msg)])
    /\ forall i q msg,
         new !! i = Some (Enqueued q msg) ->
         exists j c b,
           (j < i)%nat
           /\ new !! j = Some (Uploaded c b)
           /\ scriptOf msg = Some (c, b)
           /\ is_Some (blobs w' !! (c, b)).
Proof.
  intros Hrun.
  destruct (processWorkItem_shape env wi w)
    as (r0&w0&calls&tail&Hrun0&Htrace&Hcalls&Hkeep&Hcases).
  rewrite Hrun in Hrun0. inversion Hrun0; subst r0 w0; clear Hrun0.
  exists (calls ++ tail). split; [exact Htrace|]. split.
  { intros Hok.
    destruct Hcases as [(Hst&_)|(_&Hq&Hin&Hurl&notices&->&_)];
      [contradiction|].
    exists (length calls), (scriptContainerName env),
      (uuidv4 env (clock w) +:+ "/test.spec.js"),
      (envelope (uuidv4 env (clock w))
                (uuidv4 env (clock w) +:+ "/test.spec.js")
                (scriptContainerName env) wi).
    split; [rewrite lookup_app_r by lia; rewrite Nat.sub_diag; reflexivity|].
    split; [rewrite lookup_app_r by lia;
            replace (S (length calls) - length calls)%nat with 1%nat by lia;
            reflexivity|].
    split; [apply scriptOf_envelope|]. auto. }
  intros i q msg Hi.
  apply lookup_app_Some in Hi as [Hi|[Hlen Hi]].
  { rewrite Forall_lookup in Hcalls. apply Hcalls in Hi. destruct Hi. }
  destruct Hcases as [(_&_&[->| ->])|(_&_&Hin&_&notices&->&Hnot)].
  - rewrite lookup_nil in Hi. discriminate.
  - destruct (i - length calls)%nat as [|n]; simpl in Hi; [discriminate|].
    rewrite lookup_nil in Hi. discriminate.
  - destruct (i - length calls)%nat as [|[|n]] eqn:Hidx; simpl in Hi.
    + discriminate.
    + inversion Hi; subst q msg.
      exists (length calls), (scriptContainerName env),
        (uuidv4 env (clock w) +:+ "/test.spec.js").
      split; [lia|]. split.
      * rewrite lookup_app_r by lia. rewrite Nat.sub_diag. reflexivity.
      * split; [apply scriptOf_envelope|exact Hin].
    + rewrite Forall_lookup in Hnot. apply Hnot in Hi. destruct Hi.
Qed.

(** A run with healthy collaborators does not end in an error: its events
    are the two model calls, the upload of [run-0/test.spec.js] and,
    last, the envelope that names it. *)
Lemma C2_write_before_enqueue_witness :
  let env := Scenario.healthy in
  let run := processWorkItem env Scenario.loginItem emptyWorld in
  exists r,
    fst run = Ok r
    /\ r_status r <> "error"
    /\ exists new,
         trace (snd run) = trace emptyWorld ++ new
         /\ new = [ModelCalled (WorkflowScenariosPrompt Scenario.loginItem);
                   ModelCalled (WorkflowScriptPrompt Scenario.loginItem
                                  (JStr "empty password"));
                   Uploaded "test-scripts" "run-0/test.spec.js";
                   Enqueued "test-execution-queue"
                     (envelope "run-0" "run-0/test.spec.js" "test-scripts"
                               Scenario.loginItem)]
         /\ (r_status r <> "error" ->
             exists j c b msg,
               new !! j = Some (Uploaded c b)
               /\ new !! S j = Some (Enqueued (executionQueueName env) msg)
               /\ scriptOf msg = Some (c, b)
               /\ is_Some (blobs (snd run) !! (c, b))
               /\ r_automatedTestScripts r = [blobUrl env c b]
               /\ queue (snd run)
                  = queue emptyWorld ++ [(executionQueueName env, msg)])
         /\ forall i q msg,
              new !! i = Some (Enqueued q msg) ->
              exists j c b,
                (j < i)%nat
                /\ new !! j = Some (Uploaded c b)
                /\ scriptOf msg = Some (c, b)
                /\ is_Some (blobs (snd run) !! (c, b)).
Proof.
  intros env run.
  destruct run as [[r|e] w'] eqn:Hrun; [|vm_compute in Hrun; discriminate].
  exists r. split; [reflexivity|].
  assert (Hst : r_status r = "unknown")
    by (vm_compute in Hrun; injection Hrun as <- _; reflexivity).
  split; [rewrite Hst; discriminate|].
  destruct (C2_write_before_enqueue env Scenario.loginItem emptyWorld w' r Hrun)
    as (new&Htrace&Hgood&Horder).
  exists new. split; [exact Htrace|]. split; [|split; [exact Hgood|exact Horder]].
  vm_compute in Hrun. injection Hrun as _ <-. cbn in Htrace. subst new.
  reflexivity.
Defined.

(** C4.  For every work item and every behaviour of the collaborators,
    the generator stage returns, and exactly one of two outcomes holds:
    the script is in the store under the run's identifier, its URL is in
    the result and the envelope naming it is the one message added to the
    queues; or the result has status [error] and no message was added.
    In either case, and hence in every reachable world, no envelope on a
    queue names a script the store lacks. *)
Theorem C4_generate_or_fail (env : Env) (wi : WorkItem) (w : World) :
  reachable w ->
  let testId := uuidv4 env (clock w) in
  let c := scriptContainerName env in
  let b := testId +:+ "/test.spec.js" in
  let msg := envelope testId b c wi in
  exists r w',
    processWorkItem env wi w = (Ok r, w')
    /\ ((r_status r <> "error"
         /\ is_Some (blobs w' !! (c, b))
         /\ r_automatedTestScripts r = [blobUrl env c b]
         /\ scriptOf msg = Some (c, b)
         /\ queue w' = queue w ++ [(executionQueueName env, msg)])
        \/ (r_status r = "error" /\ queue w' = queue w))
    /\ reachable w'
    /\ noOrphans w'.
Proof.
  intros Hreach testId c b msg.
  destruct (processWorkItem_shape env wi w)
    as (r&w'&calls&tail&Hrun&Htrace&Hcalls&Hkeep&Hcases).
  exists r, w'. split; [exact Hrun|].
  assert (Hreach' : reachable w').
  { replace w' with (snd (processWorkItem env wi w)) by (rewrite Hrun; reflexivity).
    apply reach_process, Hreach. }
  split; [|split; [exact Hreach'|apply reachable_noOrphans, Hreach']].
  destruct Hcases as [(Hst&Hq&_)|(Hst&Hq&Hin&Hurl&_)].
  - right. split; assumption.
  - left. rewrite Hst. repeat split; try assumption.
    + discriminate.
    + apply scriptOf_envelope.
Qed.

Lemma C4_generate_or_fail_witness :
  let env := Scenario.healthy in
  let wi := Scenario.loginItem in
  let w := emptyWorld in
  let testId := uuidv4 env (clock w) in
  let c := scriptContainerName env in
  let b := testId +:+ "/test.spec.js" in
  let msg := envelope testId b c wi in
  reachable w
  /\ exists r w',
       processWorkItem env wi w = (Ok r, w')
       /\ ((r_status r <> "error"
            /\ is_Some (blobs w' !! (c, b))
            /\ r_automatedTestScripts r = [blobUrl env c b]
            /\ scriptOf msg = Some (c, b)
            /\ queue w' = queue w ++ [(executionQueueName env, msg)])
           \/ (r_status r = "error" /\ queue w' = queue w))
       /\ reachable w'
       /\ noOrphans w'.
Proof.
  intros env wi w testId c b msg.
  split; [apply reach_empty|].
  apply (C4_generate_or_fail env wi w). apply reach_empty.
Defined.

Section Fallback.
Context (env : Env).

Lemma combined_effects wi w :
  match GenerateTests.generateTestsWithAI env wi w with
  | (Ok _, w') => hasKey env = true /\ w' = asked w (CombinedPrompt wi)
  | (Throw _, w') =>
      (hasKey env = false /\ w' = w)
      \/ (hasKey env = true /\ w' = asked w (CombinedPrompt wi))
  end.
Proof.
  unfold GenerateTests.generateTestsWithAI, GenerateTests.getOpenAIClient,
    GenerateTests.complete, GenerateTests.prop, hasKey.
  run. crunch; cbn; auto.
Qed.

Lemma separately_effects wi w :
  match GenerateTests.generateTestsSeparately env wi w with
  | (Ok _, w') =>
      hasKey env = true
      /\ (exists reply, chat env (clock w) (TestScriptPrompt wi) = Ok reply)
      /\ w' = asked (asked w (TestScriptPrompt wi))
                    (ExploratoryScenariosPrompt wi)
  | (Throw _, w') =>
      (hasKey env = false /\ w' = w)
      \/ (hasKey env = true
          /\ (exists m, chat env (clock w) (TestScriptPrompt wi) = Throw m)
          /\ w' = asked w (TestScriptPrompt wi))
      \/ (hasKey env = true
          /\ (exists reply, chat env (clock w) (TestScriptPrompt wi) = Ok reply)
          /\ w' = asked (asked w (TestScriptPrompt wi))
                        (ExploratoryScenariosPrompt wi))
  end.
Proof.
  unfold GenerateTests.generateTestsSeparately, GenerateTests.getOpenAIClient,
    GenerateTests.complete, GenerateTests.prop, hasKey.
  run. crunch; cbn; eauto 10.
Qed.

Lemma added_asked w p : added w (asked w p) = [ModelCalled p].
Proof. unfold added. cbn. apply drop_app_length. Qed.

Lemma added_asked2 w p p' :
  added w (asked (asked w p) p') = [ModelCalled p; ModelCalled p'].
Proof.
  unfold added. cbn. rewrite <- app_assoc. apply drop_app_length.
Qed.

Lemma added_asked3 w p p' p'' :
  added w (asked (asked (asked w p) p') p'')
  = [ModelCalled p; ModelCalled p'; ModelCalled p''].
Proof.
  unfold added. cbn. rewrite <- !app_assoc. apply drop_app_length.
Qed.

Lemma added_none w : added w w = [].
Proof. unfold added. apply drop_all. Qed.

(** The model calls of [generate], in order. *)
Lemma generate_calls_exactly wi w :
  added w (snd (GenerateTests.generate env wi w))
  = if hasKey env then
      match GenerateTests.generateTestsWithAI env wi w with
      | (Ok _, _) => [ModelCalled (CombinedPrompt wi)]
      | (Throw _, _) =>
          [ModelCalled (CombinedPrompt wi); ModelCalled (TestScriptPrompt wi)]
          ++ match chat env (S (clock w)) (TestScriptPrompt wi) with
             | Ok _ => [ModelCalled (ExploratoryScenariosPrompt wi)]
             | Throw _ => []
             end
      end
    else [].
Proof.
  unfold GenerateTests.generate.
  pose proof (combined_effects wi w) as Hc.
  destruct (GenerateTests.generateTestsWithAI env wi w) as [[g|e] w1] eqn:Hg.
  - rewrite (try_ok _ _ _ _ _ Hg). destruct Hc as (-> & ->). apply added_asked.
  - rewrite (try_throw _ _ _ _ _ Hg).
    pose proof (separately_effects wi w1) as Hs.
    destruct (GenerateTests.generateTestsSeparately env wi w1) as [[g|e2] w2];
      cbn [snd]; destruct Hc as [(Hk & ->)|(Hk & ->)]; rewrite Hk in Hs |- *.
    + destruct Hs as (Hn&_). discriminate.
    + destruct Hs as (_&(reply&Hr)&->). cbn [clock asked] in Hr. rewrite Hr.
      apply added_asked3.
    + destruct Hs as [(_ & ->)|[(Hn&_)|(Hn&_)]]; try discriminate.
      apply added_none.
    + cbn [clock asked] in Hs.
      destruct Hs as [(Hn&_)|[(_&(m&Hr)&->)|(_&(reply&Hr)&->)]];
        [discriminate| |]; rewrite Hr.
      * apply added_asked2.
      * apply added_asked3.
Qed.

Lemma prepare_returns q w :
  exists workItemId testId wi w0,
    GenerateTests.prepare env q w = (Ok (workItemId, testId, wi), w0)
    /\ sameState w w0.
Proof.
  unfold GenerateTests.prepare, GenerateTests.firstOrUuid,
    GenerateTests.draw_uuid. run.
  destruct (truthy_str (GenerateTests.qi_workItemId q));
    [|destruct (truthy_str (GenerateTests.qi_id q))];
    cbn; do 4 eexists; (split; [reflexivity|repeat split]).
Qed.

Lemma failed_returns binding message w :
  exists testId w',
    GenerateTests.failed env binding message w
    = (Ok (GenerateTests.Failed_ message testId (now env)), w')
    /\ sameState w w'.
Proof.
  unfold GenerateTests.failed, GenerateTests.draw_uuid. run.
  destruct (truthy_str binding); cbn; do 2 eexists;
    (split; [reflexivity|repeat split]).
Qed.

(** C5.  For every queue item and every behaviour of the model, the
    model calls of the generation stage are, in order: the combined call
    first (whenever a model key allows any call); then, exactly when the
    combined attempt threw, the script-only call; then, once that call
    returned, the scenarios-only call.  When the combined strategy
    returns, its result is the stage's; when it throws, the separate
    strategy is run next and its result is the stage's; and when that
    throws too, the stage gives up with an error result, having stored
    and sent nothing. *)
Theorem C5_combined_then_separate (binding : option string)
    (q : GenerateTests.QueueItem) (w : World) :
  exists workItemId testId wi w0,
    GenerateTests.prepare env q w = (Ok (workItemId, testId, wi), w0)
    /\ sameState w w0
    /\ added w0 (snd (GenerateTests.generate env wi w0))
       = (if hasKey env then
            match GenerateTests.generateTestsWithAI env wi w0 with
            | (Ok _, _) => [ModelCalled (CombinedPrompt wi)]
            | (Throw _, _) =>
                [ModelCalled (CombinedPrompt wi);
                 ModelCalled (TestScriptPrompt wi)]
                ++ match chat env (S (clock w0)) (TestScriptPrompt wi) with
                   | Ok _ => [ModelCalled (ExploratoryScenariosPrompt wi)]
                   | Throw _ => []
                   end
            end
          else [])
    /\ (ModelCalled (TestScriptPrompt wi)
          ∈ added w0 (snd (GenerateTests.generate env wi w0))
        <-> hasKey env = true
            /\ exists e w1,
                 GenerateTests.generateTestsWithAI env wi w0 = (Throw e, w1))
    /\ match GenerateTests.generateTestsWithAI env wi w0 with
       | (Ok g, w1) =>
           w1 = asked w0 (CombinedPrompt wi)
           /\ GenerateTests.generate env wi w0 = (Ok g, w1)
           /\ GenerateTests.main env binding (Some q) w
              = try_catch (GenerateTests.finish env workItemId testId g)
                          (GenerateTests.failed env binding) w1
       | (Throw _, w1) =>
           (w1 = w0 \/ w1 = asked w0 (CombinedPrompt wi))
           /\ GenerateTests.generate env wi w0
              = GenerateTests.generateTestsSeparately env wi w1
           /\ match GenerateTests.generateTestsSeparately env wi w1 with
              | (Ok g, w2) =>
                  w2 = asked (asked w1 (TestScriptPrompt wi))
                             (ExploratoryScenariosPrompt wi)
                  /\ GenerateTests.main env binding (Some q) w
                     = try_catch (GenerateTests.finish env workItemId testId g)
                                 (GenerateTests.failed env binding) w2
              | (Throw e, w2) =>
                  (w2 = w1 \/ w2 = asked w1 (TestScriptPrompt wi)
                   \/ w2 = asked (asked w1 (TestScriptPrompt wi))
                                 (ExploratoryScenariosPrompt wi))
                  /\ exists failedId w',
                       GenerateTests.main env binding (Some q) w
                       = (Ok (GenerateTests.Failed_ e failedId (now env)), w')
                       /\ blobs w' = blobs w /\ queue w' = queue w
              end
       end.
Proof.
  destruct (prepare_returns q w) as (workItemId&testId&wi&w0&Hp&Hs).
  exists workItemId, testId, wi, w0. split; [exact Hp|]. split; [exact Hs|].
  split; [apply generate_calls_exactly|]. split.
  { rewrite generate_calls_exactly.
    pose proof (combined_effects wi w0) as Hc.
    destruct (GenerateTests.generateTestsWithAI env wi w0) as [[g|e1] w1];
      destruct (hasKey env).
    - split; [intros Hin|intros (_&e&w2&Heq); discriminate].
      apply list_elem_of_singleton in Hin. discriminate.
    - destruct Hc as (Hn&_). discriminate.
    - split; [eauto|intros _]. cbn. rewrite !elem_of_cons. auto.
    - split; [intros Hin; destruct (not_elem_of_nil _ Hin)
             |intros (Hn&_); discriminate]. }
  pose proof (combined_effects wi w0) as Hc.
  destruct (GenerateTests.generateTestsWithAI env wi w0) as [[g|e1] w1] eqn:Hg.
  - assert (Hgen : GenerateTests.generate env wi w0 = (Ok g, w1))
      by (apply try_ok, Hg).
    split; [apply Hc|]. split; [exact Hgen|].
    unfold GenerateTests.main, try_catch.
    rewrite (bind_ok _ _ _ _ _ Hp). cbn beta iota.
    rewrite (bind_ok _ _ _ _ _ Hgen). reflexivity.
  - assert (Hgen : GenerateTests.generate env wi w0
                   = GenerateTests.generateTestsSeparately env wi w1)
      by (unfold GenerateTests.generate; rewrite (try_throw _ _ _ _ _ Hg);
          reflexivity).
    assert (Hc' : w1 = w0 \/ w1 = asked w0 (CombinedPrompt wi))
      by (destruct Hc as [(_&->)|(_&->)]; auto).
    split; [exact Hc'|]. split; [exact Hgen|].
    pose proof (separately_effects wi w1) as Hsep.
    destruct (GenerateTests.generateTestsSeparately env wi w1)
      as [[g|e2] w2] eqn:Hg2.
    + split; [apply Hsep|].
      unfold GenerateTests.main, try_catch.
      rewrite (bind_ok _ _ _ _ _ Hp). cbn beta iota.
      rewrite (bind_ok _ _ _ _ _ Hgen). reflexivity.
    + assert (Hsep' : w2 = w1 \/ w2 = asked w1 (TestScriptPrompt wi)
                      \/ w2 = asked (asked w1 (TestScriptPrompt wi))
                                    (ExploratoryScenariosPrompt wi))
        by (destruct Hsep as [(_&->)|[(_&_&->)|(_&_&->)]]; auto).
      split; [exact Hsep'|].
      destruct (failed_returns binding e2 w2) as (failedId&w'&Hf&Hs').
      exists failedId, w'. split.
      * unfold GenerateTests.main.
        erewrite try_throw; [exact Hf|].
        rewrite (bind_ok _ _ _ _ _ Hp). cbn beta iota.
        apply bind_throw. exact Hgen.
      * destruct Hs as (Hb0&Hq0&_), Hs' as (Hb'&Hq'&_).
        rewrite Hb', Hq'.
        destruct Hc' as [->| ->], Hsep' as [->|[->| ->]]; cbn; auto.
Qed.

End Fallback.

(** A model whose combined answer cannot be parsed: the combined call
    is followed by the script-only call and the scenarios-only call. *)
Lemma C5_combined_then_separate_witness :
  let env := Scenario.withChat Scenario.ramblingModel Scenario.healthy in
  exists wi w0,
    fst (GenerateTests.prepare env Scenario.loginMessage emptyWorld)
    = Ok ("42", "run-0", wi)
    /\ (exists e w1, GenerateTests.generateTestsWithAI env wi w0 = (Throw e, w1))
    /\ ModelCalled (TestScriptPrompt wi)
         ∈ added w0 (snd (GenerateTests.generate env wi w0))
    /\ added w0 (snd (GenerateTests.generate env wi w0))
       = [ModelCalled (CombinedPrompt wi); ModelCalled (TestScriptPrompt wi);
          ModelCalled (ExploratoryScenariosPrompt wi)].
Proof.
  intros env.
  destruct (C5_combined_then_separate env None Scenario.loginMessage emptyWorld)
    as (workItemId&testId&wi&w0&Hp&_&Hcalls&Hiff&_).
  exists wi, w0.
  vm_compute in Hp. injection Hp as <- <- <- <-.
  split; [reflexivity|].
  match goal with
  | |- (exists e w1, ?run = _) /\ _ =>
      assert (Hthrow : exists e w1, run = (Throw e, w1))
        by (vm_compute; eexists _, _; reflexivity)
  end.
  split; [exact Hthrow|]. split.
  - apply Hiff. split; [reflexivity|exact Hthrow].
  - rewrite Hcalls. vm_compute. reflexivity.
Defined.

(** The three courses of the generation stage on one queue item. *)
Example combined_answer_is_used :
  let run := GenerateTests.main Scenario.healthy None
               (Some Scenario.loginMessage) emptyWorld in
  fst run = Ok (GenerateTests.Generated_ "run-0" "42" [JStr "empty password"]
                  "https://store.example/test-scripts/run-0/test.spec.js"
                  "run-0/test.spec.js" "test-scripts"
                  "2024-01-01T09:00:00.000Z")
  /\ length (trace (snd run)) = 2%nat.
Proof. vm_compute. split; reflexivity. Qed.

Example separate_answers_are_used :
  let run := GenerateTests.main
               (Scenario.withChat Scenario.ramblingModel Scenario.healthy)
               None (Some Scenario.loginMessage) emptyWorld in
  fst run = Ok (GenerateTests.Generated_ "run-0" "42" [JStr "empty password"]
                  "https://store.example/test-scripts/run-0/test.spec.js"
                  "run-0/test.spec.js" "test-scripts"
                  "2024-01-01T09:00:00.000Z")
  /\ length (trace (snd run)) = 4%nat.
Proof. vm_compute. split; reflexivity. Qed.

Example unreachable_model_gives_up :
  let run := GenerateTests.main
               (Scenario.withChat Scenario.unreachableModel Scenario.healthy)
               (Some "binding-7") (Some Scenario.loginMessage) emptyWorld in
  fst run = Ok (GenerateTests.Failed_ "connect ETIMEDOUT" "binding-7"
                  "2024-01-01T09:00:00.000Z")
  /\ blobs (snd run) = ∅
  /\ queue (snd run) = [].
Proof. vm_compute. repeat split; reflexivity. Qed.

End GeneratorStage.

(* ===================================================================== *)
(** * The executor stage: evidence, summary, status *)
(* ===================================================================== *)

Module ExecutorStage.
Import Spec WorldFacts Frames SafetyFacts Collect RunTests.

Section Upload.
Context (env : Env) (testId c : string).

Lemma written_keeps w b blob : keeps w (written w c b blob).
Proof. eapply keeps_insert. reflexivity. Qed.

(** A loop of uploads stores every blob in order, or stops at the first
    failure having stored a prefix. *)
Lemma uploadEach_cases {A} (upload : A -> M UploadedItem)
    (blobOf : A -> string) (itemOf : A -> UploadedItem) :
  uploader c upload blobOf itemOf ->
  forall items w,
    match uploadEach upload items w with
    | (Ok us, w') =>
        us = itemOf <$> items
        /\ trace w' = trace w ++ (Uploaded c <$> (blobOf <$> items))
        /\ queue w' = queue w
        /\ keeps w w'
        /\ Forall (fun x => is_Some (blobs w' !! (c, blobOf x))) items
    | (Throw _, w') =>
        exists done,
          done `prefix_of` (Uploaded c <$> (blobOf <$> items))
          /\ trace w' = trace w ++ done
          /\ queue w' = queue w
          /\ keeps w w'
    end.
Proof.
  intros Hup. induction items as [|x rest IH]; intros w.
  - cbn. rewrite app_nil_r. repeat split; auto. apply keeps_refl.
  - cbn [uploadEach]. unfold bind at 1.
    destruct (Hup x w) as [(blob&->)|(m&w'&->&Hs)].
    + unfold bind at 1. specialize (IH (written w c (blobOf x) blob)).
      destruct (uploadEach upload rest (written w c (blobOf x) blob))
        as [[us|m] w']; cbn in IH |- *.
      * destruct IH as (->&Ht&Hq&Hk&Hall).
        rewrite Ht, <- app_assoc. repeat split; auto.
        -- eapply keeps_trans; [apply written_keeps|exact Hk].
        -- constructor; [|exact Hall].
           apply Hk. cbn. rewrite lookup_insert_eq. eauto.
      * destruct IH as (done&Hpre&Ht&Hq&Hk).
        exists (Uploaded c (blobOf x) :: done). repeat split; auto.
        -- apply prefix_cons, Hpre.
        -- rewrite Ht, <- app_assoc. reflexivity.
        -- eapply keeps_trans; [apply written_keeps|exact Hk].
    + destruct Hs as (Hb&Hq&Ht). exists []. rewrite app_nil_r.
      repeat split; auto.
      * apply prefix_nil.
      * intros k Hk. rewrite Hb. exact Hk.
Qed.

Lemma uploadScreenshot_uploader :
  uploader c (uploadScreenshot env testId c) (screenshotBlob testId)
           (screenshotItem env testId c).
Proof.
  intros s w. unfold uploadScreenshot, bind.
  match goal with
  | |- context [Storage.uploadBlob env c ?b ?d ?ct ?md w] =>
      destruct (uploadBlob_cases env c b d ct md w) as [->|(m&w'&->&Hs)]
  end.
  - left. eexists. reflexivity.
  - right. eauto.
Qed.

Lemma uploadLog_uploader :
  uploader c (uploadLog env testId c) (logBlob testId) (logItem env testId c).
Proof.
  intros l w. unfold uploadLog, bind.
  match goal with
  | |- context [Storage.uploadBlob env c ?b ?d ?ct ?md w] =>
      destruct (uploadBlob_cases env c b d ct md w) as [->|(m&w'&->&Hs)]
  end.
  - left. eexists. reflexivity.
  - right. eauto.
Qed.

Lemma uploadReport_uploader :
  uploader c (uploadReport env testId c) (reportBlob testId)
           (reportItem env testId c).
Proof.
  intros r w. unfold uploadReport, bind.
  match goal with
  | |- context [Storage.uploadBlob env c ?b ?d ?ct ?md w] =>
      destruct (uploadBlob_cases env c b d ct md w) as [->|(m&w'&->&Hs)]
  end.
  - left. eexists. reflexivity.
  - right. eauto.
Qed.

Lemma refJson_names u :
  get (refJson u) "name" = Some (JStr (up_name u))
  /\ get (refJson u) "url" = Some (JStr (up_url u)).
Proof. split; reflexivity. Qed.

Lemma listsExactly_refs {A} (field : string) (doc : json)
    (name url : A -> string) (itemOf : A -> UploadedItem) (items : list A) :
  get doc field = Some (JArr (refJson <$> (itemOf <$> items))) ->
  (forall x, up_name (itemOf x) = name x /\ up_url (itemOf x) = url x) ->
  listsExactly doc field ((fun x => (name x, url x)) <$> items).
Proof.
  intros Hget Hitem. eexists. split; [exact Hget|].
  rewrite <- list_fmap_compose.
  apply Forall2_fmap, Forall_Forall2_diag, Forall_forall. intros x _. cbn.
  destruct (Hitem x) as (<- & <-). apply refJson_names.
Qed.

(** C3.  For every run of the executor's upload step, whatever the store
    does: when it returns, the acknowledged uploads of the run are those
    of every harvested screenshot, log and report, in that order, followed
    by the upload of the summary document and by nothing else; the
    document then stored under [{testId}/summary.json] has, in its
    [screenshots], [logs] and [reports] arrays, one entry per harvested
    file, in order, giving the file's name and the URL of the blob it was
    uploaded to, and the store holds every one of these blobs.  When it
    throws, only evidence uploads were acknowledged: the summary document
    was not written. *)
Theorem C3_summary_written_last (results : TestResults) (w : World) :
  match uploadTestResults env testId results c w with
  | (Ok ur, w') =>
      trace w' = trace w ++ evidenceUploads c testId results
                         ++ [Uploaded c (summaryBlob testId)]
      /\ ur_screenshots ur = screenshotItem env testId c <$> tr_screenshots results
      /\ ur_logs ur = logItem env testId c <$> tr_logs results
      /\ ur_reports ur = reportItem env testId c <$> tr_reports results
      /\ (exists blob doc,
            blobs w' !! (c, summaryBlob testId) = Some blob
            /\ sb_data blob = JsonText doc
            /\ doc = summaryDoc env testId results (ur_screenshots ur)
                                (ur_logs ur) (ur_reports ur)
            /\ get doc "testId" = Some (JStr testId)
            /\ listsExactly doc "screenshots"
                 ((fun s => (sh_name s, blobUrl env c (screenshotBlob testId s)))
                    <$> tr_screenshots results)
            /\ listsExactly doc "logs"
                 ((fun l => (lg_name l, blobUrl env c (logBlob testId l)))
                    <$> tr_logs results)
            /\ listsExactly doc "reports"
                 ((fun r => (rp_name r, blobUrl env c (reportBlob testId r)))
                    <$> tr_reports results))
      /\ Forall (fun b => is_Some (blobs w' !! (c, b)))
                (evidenceBlobs testId results)
      /\ Forall (resolvable env w' c)
                (ur_screenshots ur ++ ur_logs ur ++ ur_reports ur)
  | (Throw _, w') =>
      exists done,
        done `prefix_of` evidenceUploads c testId results
        /\ trace w' = trace w ++ done
  end.
Proof.
  unfold uploadTestResults, Storage.rethrow, try_catch, evidenceUploads,
    evidenceBlobs.
  rewrite !fmap_app.
  set (E1 := Uploaded c <$> (screenshotBlob testId <$> tr_screenshots results)).
  set (E2 := Uploaded c <$> (logBlob testId <$> tr_logs results)).
  set (E3 := Uploaded c <$> (reportBlob testId <$> tr_reports results)).
  unfold bind at 1.
  pose proof (uploadEach_cases _ _ _ uploadScreenshot_uploader
                (tr_screenshots results) w) as H1.
  destruct (uploadEach (uploadScreenshot env testId c) _ w) as [[shots|m] w1].
  2:{ destruct H1 as (done&Hpre&Ht&_). exists done. split; [|exact Ht].
      fold E1 in Hpre. apply prefix_app_r, Hpre. }
  destruct H1 as (->&Ht1&Hq1&Hk1&Hall1). fold E1 in Ht1.
  unfold bind at 1.
  pose proof (uploadEach_cases _ _ _ uploadLog_uploader
                (tr_logs results) w1) as H2.
  destruct (uploadEach (uploadLog env testId c) _ w1) as [[logs|m] w2].
  2:{ destruct H2 as (done&Hpre&Ht&_). exists (E1 ++ done).
      split; [|rewrite Ht, Ht1, app_assoc; reflexivity].
      fold E2 in Hpre. apply prefix_app, prefix_app_r, Hpre. }
  destruct H2 as (->&Ht2&Hq2&Hk2&Hall2). fold E2 in Ht2.
  unfold bind at 1.
  pose proof (uploadEach_cases _ _ _ uploadReport_uploader
                (tr_reports results) w2) as H3.
  destruct (uploadEach (uploadReport env testId c) _ w2) as [[reports|m] w3].
  2:{ destruct H3 as (done&Hpre&Ht&_). exists (E1 ++ E2 ++ done).
      split; [|rewrite Ht, Ht2, Ht1, <- !app_assoc; reflexivity].
      fold E3 in Hpre. apply prefix_app, prefix_app, Hpre. }
  destruct H3 as (->&Ht3&Hq3&Hk3&Hall3). fold E3 in Ht3.
  unfold bind at 1. fold (summaryBlob testId).
  match goal with
  | |- context [Storage.uploadBlob env c ?b ?d ?ct ?md w3] =>
      destruct (uploadBlob_cases env c b d ct md w3) as [->|(m&w4&->&Hs)]
  end.
  2:{ destruct Hs as (_&_&Ht4). exists (E1 ++ E2 ++ E3).
      split; [reflexivity|].
      rewrite Ht4, Ht3, Ht2, Ht1, <- !app_assoc. reflexivity. }
  cbn [fst snd trace written blobs ur_screenshots ur_logs ur_reports].
  assert (Hkeep : forall blob k,
             is_Some (blobs w3 !! k) ->
             is_Some (<[(c, summaryBlob testId) := blob]> (blobs w3) !! k)).
  { intros blob k Hk. destruct (decide ((c, summaryBlob testId) = k)) as [->|Hne].
    - rewrite lookup_insert_eq. eauto.
    - rewrite lookup_insert_ne by exact Hne. exact Hk. }
  split; [cbn; rewrite Ht3, Ht2, Ht1, <- !app_assoc; reflexivity|].
  do 3 (split; [reflexivity|]).
  split; [|split].
  - eexists _, _.
    split; [cbn; rewrite lookup_insert_eq; reflexivity|].
    split; [reflexivity|]. split; [reflexivity|].
    split; [reflexivity|].
    repeat split; (eapply listsExactly_refs; [reflexivity|]);
      intros x; split; reflexivity.
  - rewrite !Forall_app. repeat split; apply Forall_fmap;
      [eapply Forall_impl; [exact Hall1|]
      |eapply Forall_impl; [exact Hall2|]
      |eapply Forall_impl; [exact Hall3|]];
      intros x Hx; cbn; apply Hkeep; auto.
  - rewrite !Forall_app. repeat split; apply Forall_fmap;
      [eapply Forall_impl; [exact Hall1|]
      |eapply Forall_impl; [exact Hall2|]
      |eapply Forall_impl; [exact Hall3|]];
      intros x Hx; (split; [reflexivity|]); cbn; apply Hkeep; auto.
Qed.

End Upload.

(** The upload step on the files of a green run: three evidence blobs,
    then the summary, whose [screenshots] array names the stored blob. *)
Lemma C3_summary_written_last_witness :
  exists ur w' blob doc,
    uploadTestResults Scenario.healthy "R"
      (collectTestResults "/tmp/run/results" Scenario.greenDir)
      "test-results" emptyWorld = (Ok ur, w')
    /\ trace w'
       = [Uploaded "test-results" "R/screenshots/login-screenshot.png";
          Uploaded "test-results" "R/logs/run.log";
          Uploaded "test-results" "R/reports/results.json";
          Uploaded "test-results" "R/summary.json"]
    /\ blobs w' !! ("test-results", "R/summary.json") = Some blob
    /\ sb_data blob = JsonText doc
    /\ listsExactly doc "screenshots"
         [("login-screenshot.png",
           blobUrl Scenario.healthy "test-results"
                   "R/screenshots/login-screenshot.png")]
    /\ is_Some (blobs w' !! ("test-results",
                             "R/screenshots/login-screenshot.png")).
Proof.
  pose proof (C3_summary_written_last Scenario.healthy "R" "test-results"
                (collectTestResults "/tmp/run/results" Scenario.greenDir)
                emptyWorld) as H.
  destruct (uploadTestResults Scenario.healthy "R"
              (collectTestResults "/tmp/run/results" Scenario.greenDir)
              "test-results" emptyWorld) as [[ur|e] w'] eqn:Hrun;
    [|vm_compute in Hrun; discriminate].
  destruct H as (Ht&_&_&_&(blob&doc&Hb&Hd&_&_&Hshots&_)&Hall&_).
  exists ur, w', blob, doc.
  split; [reflexivity|]. split; [exact Ht|]. split; [exact Hb|].
  split; [exact Hd|]. split; [exact Hshots|].
  apply Forall_inv in Hall. exact Hall.
Defined.

(** A store that refuses the summary document: the three pieces of
    evidence are uploaded, the step throws, no summary is stored. *)
Example summary_refused_after_evidence :
  let results := collectTestResults "/tmp/run/results" Scenario.greenDir in
  let run := uploadTestResults (Scenario.summaryWriteDown Scenario.healthy)
               "R" results "test-results" emptyWorld in
  trace (snd run)
  = [Uploaded "test-results" "R/screenshots/login-screenshot.png";
     Uploaded "test-results" "R/logs/run.log";
     Uploaded "test-results" "R/reports/results.json"]
  /\ blobs (snd run) !! ("test-results", "R/summary.json") = None
  /\ exists message, fst run = Throw message.
Proof. vm_compute. repeat split. eexists. reflexivity. Qed.

Section Run.
Context (env : Env).

Lemma firstOrUuid_returns a b w :
  returning (GenerateTests.firstOrUuid env a b) w (fun _ w' => sameState w w').
Proof.
  unfold GenerateTests.firstOrUuid, GenerateTests.draw_uuid, returning. run.
  destruct (truthy_str a); [|destruct (truthy_str b)];
    do 2 eexists; (split; [reflexivity|repeat split]).
Qed.

Lemma updateJobStatus_returns queueName statusData w :
  returning (updateJobStatus env queueName statusData) w
            (fun _ w' => blobs w' = blobs w).
Proof.
  unfold updateJobStatus, returning.
  case_bool_decide; [do 2 eexists; split; reflexivity|].
  unfold try_catch.
  destruct (enqueueMessage_cases env queueName statusData w)
    as [->|(m&w'&->&Hs)].
  - do 2 eexists. split; reflexivity.
  - do 2 eexists. split; [reflexivity|apply Hs].
Qed.

Lemma downloadBlobAsString_ok c b blob w :
  storageHealthy env -> c <> "" -> blobs w !! (c, b) = Some blob ->
  returning (Storage.downloadBlobAsString env c b) w
            (fun text w' => text = Storage.textOf env (sb_data blob)
                            /\ sameState w w').
Proof.
  intros (Hc&Hex&Hrd&_) Hne Hblob.
  unfold Storage.downloadBlobAsString, Storage.downloadBlob, returning. run.
  rewrite (getContainerClient_ok env c w Hc Hne), Hex, Hblob, Hrd.
  do 2 eexists. split; [reflexivity|]. repeat split.
Qed.

Lemma failedRun_exit e path dir :
  DockerHelper.exitCode (DockerHelper.failedRun e path dir) <> JNum 0.
Proof.
  cbn. destruct (ee_code e) as [|[]|[| |]| | |]; cbn; try discriminate.
  destruct (bool_decide _); discriminate.
Qed.

Lemma runTestsWithMount_fails script image vars w :
  script <> "" ->
  subprocessFails (sandbox env (clock w) script image vars) ->
  returning (DockerHelper.runTestsWithMount env script image vars) w
            (fun er w' =>
               blobs w' = blobs w
               /\ exists e path dir, er = DockerHelper.failedRun e path dir).
Proof.
  intros Hne ((dir&Hdir)&Hwr&Hmk&e&Hex).
  unfold DockerHelper.runTestsWithMount, returning.
  rewrite bool_decide_eq_false_2 by exact Hne. run.
  rewrite Hdir, Hwr, Hmk, Hex.
  do 2 eexists. split; [reflexivity|]. split; [reflexivity|]. eauto.
Qed.

Lemma uploadEach_ok {A} (upload : A -> M UploadedItem) items :
  (forall x w, returning (upload x) w (fun _ _ => True)) ->
  forall w, returning (uploadEach upload items) w (fun _ _ => True).
Proof.
  intros Hup. induction items as [|x rest IH]; intros w; cbn [uploadEach].
  - apply returning_ret. exact I.
  - apply returning_bind. eapply returning_weaken; [apply Hup|].
    intros u w1 _. apply returning_bind.
    eapply returning_weaken; [apply IH|].
    intros us w2 _. apply returning_ret. exact I.
Qed.

Lemma uploadBlob_returns c b data ct md w :
  storageHealthy env -> c <> "" ->
  returning (Storage.uploadBlob env c b data ct md) w (fun _ _ => True).
Proof.
  intros (Hc&_&_&Hwr) Hne. unfold returning.
  rewrite (uploadBlob_ok env c b data ct md w Hc Hne (Hwr _ _ _)).
  do 2 eexists. split; [reflexivity|exact I].
Qed.

Lemma uploadTestResults_ok testId results c w :
  storageHealthy env -> c <> "" ->
  returning (uploadTestResults env testId results c) w (fun _ _ => True).
Proof.
  intros Hh Hne. unfold uploadTestResults, Storage.rethrow.
  apply returning_try.
  apply returning_bind.
  eapply returning_weaken;
    [apply uploadEach_ok; intros x w0; unfold uploadScreenshot;
     apply returning_bind;
     (eapply returning_weaken; [apply uploadBlob_returns; assumption|]);
     intros; apply returning_ret; exact I|].
  intros shots w1 _. apply returning_bind.
  eapply returning_weaken;
    [apply uploadEach_ok; intros x w0; unfold uploadLog;
     apply returning_bind;
     (eapply returning_weaken; [apply uploadBlob_returns; assumption|]);
     intros; apply returning_ret; exact I|].
  intros logs w2 _. apply returning_bind.
  eapply returning_weaken;
    [apply uploadEach_ok; intros x w0; unfold uploadReport;
     apply returning_bind;
     (eapply returning_weaken; [apply uploadBlob_returns; assumption|]);
     intros; apply returning_ret; exact I|].
  intros reports w3 _. apply returning_bind.
  eapply returning_weaken; [apply uploadBlob_returns; assumption|].
  intros u w4 _. apply returning_ret. exact I.
Qed.

(** A run whose subprocess fails, on a healthy store, returns a response
    built from the failed execution result. *)
Lemma main_after_failure q name blob w :
  storageHealthy env ->
  qi_scriptBlobName q = Some name -> name <> "" ->
  blobs w !! (str_or (qi_containerName q) "test-scripts", name) = Some blob ->
  Storage.textOf env (sb_data blob) <> "" ->
  (forall t script image vars, subprocessFails (sandbox env t script image vars)) ->
  returning (main env (Some q)) w
    (fun r _ =>
       exists e path dir,
         rs_exitCode r = DockerHelper.exitCode (DockerHelper.failedRun e path dir)
         /\ rs_summary r = tr_summary (collectTestResults path dir)
         /\ rs_status r
            = finalStatus (tr_status (collectTestResults path dir))
                          (rs_exitCode r)).
Proof.
  intros Hh Hname Hne Hblob Htext Hfail.
  unfold main. apply returning_try.
  apply returning_bind.
  eapply returning_weaken; [apply firstOrUuid_returns|].
  intros testId w1 (Hb1&_&_). cbv zeta.
  apply returning_bind.
  eapply returning_weaken; [apply updateJobStatus_returns|].
  intros [] w2 Hb2. cbv beta.
  rewrite Hname. cbn [truthy_str str_or].
  rewrite bool_decide_eq_false_2 by exact Hne. cbn [negb andb].
  apply returning_bind, returning_ret.
  apply returning_bind.
  eapply returning_weaken;
    [eapply downloadBlobAsString_ok;
     [exact Hh|apply str_or_nonempty; discriminate
     |rewrite Hb2, Hb1; exact Hblob]|].
  intros text w3 (->&Hs3). cbv beta.
  apply returning_bind.
  eapply returning_weaken;
    [apply runTestsWithMount_fails; [exact Htext|apply Hfail]|].
  intros er w4 (Hb4&e&path&dir&->). cbv beta.
  apply returning_bind.
  eapply returning_weaken;
    [apply uploadTestResults_ok;
     [exact Hh|apply str_or_nonempty; discriminate]|].
  intros ur w5 _. cbv beta.
  apply returning_bind.
  eapply returning_weaken; [apply updateJobStatus_returns|].
  intros [] w6 _. apply returning_ret.
  exists e, path, dir. cbn. repeat split.
Qed.

End Run.

(** The [catch] of the entry point never produces its error response: a
    missing queue item ends in the ReferenceError. *)
Example main_catch_throws :
  fst (main Scenario.healthy None emptyWorld)
  = Throw "statusQueueName is not defined".
Proof. reflexivity. Qed.

(** C8 (as stated, refuted).  A run whose subprocess is killed by the
    wall-clock timeout, on a healthy store, returns a response whose
    status is [failed], not [error]: the kill is turned into exit code 1
    and the exit-code tier maps it to [failed]. *)
Lemma C8_timeout_is_reported_failed :
  exists r w',
    main (Scenario.withSandbox Scenario.timedOutRun Scenario.healthy)
         (Some Scenario.runR) Scenario.scriptOnly = (Ok r, w')
    /\ rs_exitCode r = JNum 1
    /\ rs_status r = "failed"
    /\ rs_status r <> "error".
Proof.
  eexists _, _. split; [vm_compute; reflexivity|].
  cbn. repeat split. discriminate.
Qed.

(** C8 (amended).  For every executor run on a healthy store whose
    sandboxed subprocess ends in an error (the wall-clock timeout, a
    launch failure or a non-zero exit), the entry point returns a
    response rather than throwing; the response carries a non-zero exit
    code and a status that is never [unknown]: [failed], unless a
    harvested report counts passed tests and no failed one, in which case
    it is [passed]; it is never [error]. *)
Theorem C8_subprocess_failure_is_reported (env : Env) (q : QueueItem)
    (name : string) (blob : StoredBlob) (w : World) :
  storageHealthy env ->
  qi_scriptBlobName q = Some name -> name <> "" ->
  blobs w !! (str_or (qi_containerName q) "test-scripts", name) = Some blob ->
  Storage.textOf env (sb_data blob) <> "" ->
  (forall t script image vars, subprocessFails (sandbox env t script image vars)) ->
  exists r w',
    main env (Some q) w = (Ok r, w')
    /\ rs_exitCode r <> JNum 0
    /\ rs_status r = StatusDerivation.codeStatus (rs_summary r) (rs_exitCode r)
    /\ (rs_status r = "failed" \/ rs_status r = "passed")
    /\ (rs_summary r = None -> rs_status r = "failed")
    /\ rs_status r <> "unknown"
    /\ rs_status r <> "error".
Proof.
  intros Hh Hname Hne Hblob Htext Hfail.
  destruct (main_after_failure env q name blob w Hh Hname Hne Hblob Htext Hfail)
    as (r&w'&Hrun&e&path&dir&Hexit&Hsum&Hst).
  exists r, w'. split; [exact Hrun|].
  assert (Hx : rs_exitCode r <> JNum 0)
    by (rewrite Hexit; apply failedRun_exit).
  assert (Hcode : rs_status r
                  = StatusDerivation.codeStatus (rs_summary r) (rs_exitCode r)).
  { rewrite Hst, Hsum. apply StatusFacts.finalStatus_codeStatus. }
  split; [exact Hx|]. split; [exact Hcode|].
  pose proof (StatusFacts.codeStatus_cases (rs_summary r) (rs_exitCode r)) as Hc.
  rewrite <- Hcode in Hc.
  split; [exact Hc|]. split.
  - intros Hnone. rewrite Hcode, Hnone. cbn.
    destruct (rs_exitCode r) as [| |[| |]| | |]; try reflexivity.
    contradiction Hx. reflexivity.
  - split; destruct Hc as [-> | ->]; discriminate.
Qed.

Lemma C8_subprocess_failure_is_reported_witness :
  let env := Scenario.withSandbox Scenario.timedOutRun Scenario.healthy in
  exists r w',
    main env (Some Scenario.runR) Scenario.scriptOnly = (Ok r, w')
    /\ rs_exitCode r <> JNum 0
    /\ rs_status r = StatusDerivation.codeStatus (rs_summary r) (rs_exitCode r)
    /\ (rs_status r = "failed" \/ rs_status r = "passed")
    /\ (rs_summary r = None -> rs_status r = "failed")
    /\ rs_status r <> "unknown"
    /\ rs_status r <> "error".
Proof.
  intros env.
  apply (C8_subprocess_failure_is_reported env Scenario.runR "R/test.spec.js"
           Scenario.storedScript Scenario.scriptOnly).
  - repeat split.
  - reflexivity.
  - discriminate.
  - vm_compute. reflexivity.
  - discriminate.
  - intros t script image vars. repeat split; try reflexivity.
    + eexists. reflexivity.
    + eexists. reflexivity.
Defined.

End ExecutorStage.

(* ===================================================================== *)
(** * The status endpoint *)
(* ===================================================================== *)

Module StatusStage.
Import Spec WorldFacts Frames SafetyFacts JobStatus.

Lemma starts_with_trans (p q s : string) :
  starts_with (p +:+ q) s = true -> starts_with p s = true.
Proof.
  revert s. induction p as [|a p IH]; intros s H; [reflexivity|].
  destruct s as [|b s]; cbn in *; [discriminate|].
  apply andb_true_iff in H as [Hab Hrest].
  rewrite Hab. cbn. apply IH, Hrest.
Qed.

Lemma app_string_assoc (a b c : string) : (a +:+ b) +:+ c = a +:+ (b +:+ c).
Proof.
  induction a as [|x a IH]; [reflexivity|].
  change (String x ((a +:+ b) +:+ c) = String x (a +:+ (b +:+ c))).
  rewrite IH. reflexivity.
Qed.

Lemma found_same env w w' c p :
  blobs w' = blobs w -> found env w' c p = found env w c p.
Proof. intros H. unfold found, Storage.blobsUnder. rewrite H. reflexivity. Qed.

(** Nothing under the run's namespace: every listing below it is empty. *)
Lemma noArtifacts_found env w c testId kind :
  noArtifacts w c testId ->
  found env w c (testId +:+ String "/" kind) = [].
Proof.
  intros Hno. unfold found, Storage.blobsUnder.
  match goal with |- _ <$> (_ <$> ?l) = _ => destruct l as [|x rest] eqn:E end;
    [reflexivity|].
  assert (Hx : x ∈ x :: rest) by apply list_elem_of_here.
  rewrite <- E in Hx. apply list_elem_of_filter in Hx as [[Hc Hp] Hin].
  apply elem_of_map_to_list' in Hin.
  change (testId +:+ String "/" kind) with (testId +:+ ("/" +:+ kind)) in Hp.
  rewrite <- app_string_assoc in Hp. apply starts_with_trans in Hp.
  apply Hno in Hp. rewrite <- Hc in Hp.
  destruct x as [[c' b] blob]. cbn in *. congruence.
Qed.

(** The items of a listing are those of the blobs stored under the
    prefix. *)
Lemma found_items env w c pre item :
  item ∈ found env w c pre
  <-> exists b blob,
        blobs w !! (c, pre +:+ b) = Some blob
        /\ item = listedOf env c pre
                    (Storage.itemOf env ((c, pre +:+ b), blob)).
Proof.
  unfold found, Storage.blobsUnder.
  rewrite list_elem_of_fmap. split.
  - intros (bi&->&Hbi). apply list_elem_of_fmap in Hbi as (kv&->&Hkv).
    apply list_elem_of_filter in Hkv as [[Hc Hp] Hkv].
    destruct kv as [[c' b] blob]. cbn in Hc, Hp. subst c'.
    apply elem_of_map_to_list in Hkv.
    destruct (starts_with_split _ _ Hp) as (rest&->).
    exists rest, blob. auto.
  - intros (b&blob&Hb&->). eexists. split; [reflexivity|].
    apply list_elem_of_fmap. eexists. split; [reflexivity|].
    apply list_elem_of_filter. split.
    + split; [reflexivity|apply starts_with_app].
    + apply elem_of_map_to_list. exact Hb.
Qed.

Lemma plainItem_names b :
  get (plainItem b) "name" = Some (JStr (ls_name b))
  /\ get (plainItem b) "url" = Some (JStr (ls_url b)).
Proof. split; reflexivity. Qed.

Lemma reportItem_names b :
  get (reportItem b) "name" = Some (JStr (ls_name b))
  /\ get (reportItem b) "url" = Some (JStr (ls_url b)).
Proof. split; reflexivity. Qed.

(** A rendered listing shows what the store holds under the prefix. *)
Lemma found_showsStored env w c pre (render : Listed -> json) :
  (forall b, get (render b) "name" = Some (JStr (ls_name b))
             /\ get (render b) "url" = Some (JStr (ls_url b))) ->
  showsStored env w c pre (JArr (render <$> found env w c pre)).
Proof.
  intros Hr. eexists. split; [reflexivity|]. split.
  - intros name (blob&Hb).
    exists (render <$> found env w c pre),
           (render (listedOf env c pre
                      (Storage.itemOf env ((c, pre +:+ name), blob)))).
    split; [reflexivity|]. split.
    + apply list_elem_of_fmap. eexists. split; [reflexivity|].
      apply found_items. eauto.
    + destruct (Hr (listedOf env c pre
                      (Storage.itemOf env ((c, pre +:+ name), blob))))
        as (Hn&Hu).
      rewrite Hn, Hu. cbn. rewrite remove_first_prefix. split; reflexivity.
  - intros e He. apply list_elem_of_fmap in He as (item&->&Hitem).
    apply found_items in Hitem as (b&blob&Hb&->). exists b.
    destruct (Hr (listedOf env c pre
                    (Storage.itemOf env ((c, pre +:+ b), blob))))
      as (Hn&Hu).
    rewrite Hn, Hu. cbn. rewrite remove_first_prefix. eauto.
Qed.

Section Reads.
Context (env : Env).

(** [listBlobsByPrefix] always returns: what the store holds under the
    prefix when the listing works, the empty list when it does not. *)
Lemma listBlobsByPrefix_returns c p w :
  returning (listBlobsByPrefix env c p) w
    (fun items w' =>
       sameState w w'
       /\ (items = [] \/ items = found env w c p)
       /\ (connected env -> c <> "" -> blobList env (clock w) c p = Ok tt ->
           items = found env w c p)).
Proof.
  unfold listBlobsByPrefix, Storage.listBlobs, returning, found. run.
  destruct (getContainerClient_cases env c w) as [Hc|[m Hc]]; rewrite Hc.
  - destruct (blobList env (clock w) c p) as [[]|m] eqn:Hl.
    + cbn. 
      match goal with
      | |- context [Storage.getContainerClient env c ?w1] =>
          destruct (getContainerClient_cases env c w1) as [Hc1|[m Hc1]];
          rewrite Hc1
      end.
      * do 2 eexists. split; [reflexivity|]. repeat split; auto.
      * exfalso. unfold Storage.getContainerClient in Hc, Hc1.
        destruct (bool_decide (c = "")); [discriminate|].
        destruct (truthy_str _); discriminate.
    + cbn. do 2 eexists. split; [reflexivity|]. repeat split; auto.
      intros _ _ Habs. discriminate.
  - cbn. do 2 eexists. split; [reflexivity|]. repeat split; auto.
    intros Hconn Hne _. rewrite (getContainerClient_ok env c w Hconn Hne) in Hc.
    discriminate.
Qed.

(** [getTestEvidence] always returns and never changes the store; each
    of its collections is what the store holds under the prefix, or
    empty, and is what the store holds when the listings work. *)
Lemma getTestEvidence_returns testId c w :
  returning (getTestEvidence env testId c) w
    (fun ev w' =>
       sameState w w'
       /\ (noArtifacts w c testId -> ev = evidenceOf [] [] [])
       /\ exists shots logs reports,
            ev = evidenceOf (plainItem <$> shots) (plainItem <$> logs)
                            (reportItem <$> reports)
            /\ (shots = [] \/ shots = found env w c (testId +:+ "/screenshots/"))
            /\ (logs = [] \/ logs = found env w c (testId +:+ "/logs/"))
            /\ (reports = [] \/ reports = found env w c (testId +:+ "/reports/"))
            /\ (connected env -> c <> "" -> listingHealthy env c ->
                shots = found env w c (testId +:+ "/screenshots/")
                /\ logs = found env w c (testId +:+ "/logs/")
                /\ reports = found env w c (testId +:+ "/reports/"))).
Proof.
  unfold getTestEvidence.
  apply returning_try, returning_bind.
  eapply returning_weaken; [apply listBlobsByPrefix_returns|].
  intros shots w1 (Hs1&Hor1&Hok1). cbv beta.
  apply returning_try, returning_bind.
  eapply returning_weaken; [apply listBlobsByPrefix_returns|].
  intros logs w2 (Hs2&Hor2&Hok2). cbv beta.
  apply returning_try, returning_bind.
  eapply returning_weaken; [apply listBlobsByPrefix_returns|].
  intros reports w3 (Hs3&Hor3&Hok3). cbv beta.
  apply returning_ret.
  assert (Hb1 : blobs w1 = blobs w) by apply Hs1.
  assert (Hb2 : blobs w2 = blobs w)
    by (destruct Hs2 as (->&_); exact Hb1).
  rewrite (found_same env w w1 c _ Hb1) in Hor2, Hok2.
  rewrite (found_same env w w2 c _ Hb2) in Hor3, Hok3.
  split; [|split].
  - eapply sameState_trans; [exact Hs1|].
    eapply sameState_trans; [exact Hs2|exact Hs3].
  - intros Hno.
    rewrite (noArtifacts_found env w c testId "screenshots/" Hno) in Hor1.
    rewrite (noArtifacts_found env w c testId "logs/" Hno) in Hor2.
    rewrite (noArtifacts_found env w c testId "reports/" Hno) in Hor3.
    destruct Hor1 as [-> | ->], Hor2 as [-> | ->], Hor3 as [-> | ->];
      reflexivity.
  - exists shots, logs, reports. split; [reflexivity|].
    do 3 (split; [assumption|]).
    intros Hconn Hne Hlist.
    rewrite (Hok1 Hconn Hne (Hlist _ _)), (Hok2 Hconn Hne (Hlist _ _)),
      (Hok3 Hconn Hne (Hlist _ _)).
    repeat split.
Qed.

(** A listing that fails is an empty listing. *)
Lemma listBlobsByPrefix_swallows c p m w w1 :
  Storage.listBlobs env c p w = (Throw m, w1) ->
  listBlobsByPrefix env c p w = (Ok [], w1).
Proof.
  intros H. unfold listBlobsByPrefix.
  erewrite try_throw; [reflexivity|]. apply bind_throw. exact H.
Qed.

Lemma listBlobs_down c p w :
  (forall t prefix, exists m, blobList env t c prefix = Throw m) ->
  exists m w1, Storage.listBlobs env c p w = (Throw m, w1).
Proof.
  intros Hdown. unfold Storage.listBlobs, Storage.rethrow. run.
  destruct (getContainerClient_cases env c w) as [Hc|[m Hc]]; rewrite Hc; cbn.
  - destruct (Hdown (clock w) p) as (m&Hm). rewrite Hm. cbn.
    eexists _, _. reflexivity.
  - eexists _, _. reflexivity.
Qed.

(** With the listings down, [getTestEvidence] returns three empty
    collections. *)
Lemma getTestEvidence_down testId c w :
  (forall t prefix, exists m, blobList env t c prefix = Throw m) ->
  exists w', getTestEvidence env testId c w = (Ok (evidenceOf [] [] []), w').
Proof.
  intros Hdown. unfold getTestEvidence.
  destruct (listBlobs_down c (testId +:+ "/screenshots/") w Hdown)
    as (m1&w1&H1). apply listBlobsByPrefix_swallows in H1.
  destruct (listBlobs_down c (testId +:+ "/logs/") w1 Hdown)
    as (m2&w2&H2). apply listBlobsByPrefix_swallows in H2.
  destruct (listBlobs_down c (testId +:+ "/reports/") w2 Hdown)
    as (m3&w3&H3). apply listBlobsByPrefix_swallows in H3.
  exists w3. apply try_ok. rewrite (bind_ok _ _ _ _ _ H1). cbv beta.
  apply try_ok. rewrite (bind_ok _ _ _ _ _ H2). cbv beta.
  apply try_ok. rewrite (bind_ok _ _ _ _ _ H3). reflexivity.
Qed.

(** The existence check works and finds no summary document. *)
Lemma getTestSummary_absent testId c w :
  connected env -> c <> "" ->
  blobExists env (clock w) c (summaryBlob testId) = Ok tt ->
  blobs w !! (c, summaryBlob testId) = None ->
  returning (getTestSummary env testId c) w
            (fun summary w' => summary = JNull /\ sameState w w').
Proof.
  intros Hconn Hne Hex Hnone.
  unfold getTestSummary, Storage.downloadBlobAsJson, Storage.downloadBlob,
    returning.
  fold (summaryBlob testId). run.
  rewrite (getContainerClient_ok env c w Hconn Hne), Hex, Hnone.
  match goal with
  | |- context [includes "does not exist" ?m] =>
      replace (includes "does not exist" m) with true
  end.
  - do 2 eexists. split; [reflexivity|]. repeat split.
  - symmetry.
    match goal with
    | |- includes _ (?pre +:+ "Blob " +:+ ?x +:+ ?b +:+ ?y +:+
                     " does not exist in container " +:+ ?rest) = true =>
        rewrite <- (app_string_assoc pre); rewrite <- (app_string_assoc _ x);
        rewrite <- (app_string_assoc _ b); rewrite <- (app_string_assoc _ y);
        change (" does not exist in container " +:+ rest)
          with (" " +:+ ("does not exist" +:+ (" in container " +:+ rest)));
        rewrite <- (app_string_assoc _ " ");
        apply includes_app
    end.
Qed.

(** The summary document is there and can be read. *)
Lemma getTestSummary_present testId c blob doc w :
  connected env -> c <> "" ->
  blobExists env (clock w) c (summaryBlob testId) = Ok tt ->
  blobRead env (S (clock w)) c (summaryBlob testId) = Ok tt ->
  blobs w !! (c, summaryBlob testId) = Some blob ->
  sb_data blob = JsonText doc ->
  returning (getTestSummary env testId c) w
            (fun summary w' => summary = doc /\ sameState w w').
Proof.
  intros Hconn Hne Hex Hrd Hblob Hdoc.
  unfold getTestSummary, Storage.downloadBlobAsJson, Storage.downloadBlob,
    returning.
  fold (summaryBlob testId). run.
  rewrite (getContainerClient_ok env c w Hconn Hne), Hex, Hblob. cbn.
  rewrite Hrd, Hdoc.
  do 2 eexists. split; [reflexivity|]. repeat split.
Qed.

Lemma requestedId_inv req testId :
  requestedId req = Some testId ->
  negb (truthy_str (query_testId req)) && negb (truthy_str (params_testId req))
  = false
  /\ (if truthy_str (query_testId req) then str_or (query_testId req) ""
      else str_or (params_testId req) "") = testId.
Proof.
  unfold requestedId, truthy_str, str_or.
  destruct (query_testId req) as [a|], (params_testId req) as [b|]; cbn;
    repeat case_bool_decide; cbn; intros Heq; inversion Heq; subst; auto.
Qed.

(** With a summary in hand the endpoint answers with the view built from
    it and from the evidence found. *)
Lemma main_view req testId summary ev w w1 w' :
  requestedId req = Some testId ->
  getTestSummary env testId (resultsContainer env) w = (Ok summary, w1) ->
  getTestEvidence env testId (resultsContainer env) w1 = (Ok ev, w') ->
  main env req w
  = (Ok {| http_status :=
             match sv_status (buildResponse env summary ev testId) with
             | JStr s => if bool_decide (s = "not_found") then 404
                         else if bool_decide (s = "error") then 500
                         else 200
             | _ => 200
             end;
           http_body := ViewBody (buildResponse env summary ev testId) |}, w').
Proof.
  intros Hreq Hsum Hev. apply requestedId_inv in Hreq as [Hcond Hid].
  unfold main. rewrite Hcond, Hid. fold (resultsContainer env).
  apply try_ok.
  rewrite (bind_ok _ _ _ _ _ Hsum). rewrite (bind_ok _ _ _ _ _ Hev).
  reflexivity.
Qed.

Lemma resultsContainer_nonempty : resultsContainer env <> "".
Proof. apply str_or_nonempty. discriminate. Qed.

End Reads.

(** C6 (as stated, refuted).  With the listing service down, a run
    with no summary document is answered 404 [not_found] with three
    empty evidence arrays although the store holds a screenshot and a
    log of the run: the partial evidence is not listed. *)
Lemma C6_failed_listing_hides_evidence :
  let env := Scenario.listingDown Scenario.healthy in
  let w := Scenario.partialRun in
  blobs w !! ("test-results", "R/summary.json") = None
  /\ is_Some (blobs w !! ("test-results", "R/screenshots/home.png"))
  /\ is_Some (blobs w !! ("test-results", "R/logs/stdout.log"))
  /\ exists view w',
       main env (Scenario.statusOf "R") w
       = (Ok {| http_status := 404; http_body := ViewBody view |}, w')
       /\ sv_status view = JStr "not_found"
       /\ sv_evidence view = evidenceOf [] [] []
       /\ ~ lists (ev_screenshots (sv_evidence view)) "home.png"
                  (blobUrl env "test-results" "R/screenshots/home.png")
       /\ ~ lists (ev_logs (sv_evidence view)) "stdout.log"
                  (blobUrl env "test-results" "R/logs/stdout.log").
Proof.
  intros env w.
  split; [vm_compute; reflexivity|].
  split; [vm_compute; eexists; reflexivity|].
  split; [vm_compute; eexists; reflexivity|].
  eexists _, _. split; [vm_compute; reflexivity|].
  split; [reflexivity|]. split; [reflexivity|].
  split; intros (entries&e&Heq&Hin&_); cbn in Heq; injection Heq as <-;
    exact (not_elem_of_nil _ Hin).
Qed.

(** C6 (amended).  For every requested run whose summary document the
    store's existence check finds absent, the endpoint answers 404 with
    status [not_found] and no summary.  Each of the three evidence
    collections of the answer is an array that either shows what the
    store holds under the run's prefix for it, or is empty; when the
    listings work, each shows what the store holds: an entry with the
    name and URL of every blob stored under the prefix, and no other
    entry.  For a run with nothing under its namespace the three arrays
    are empty. *)
Theorem C6_not_found_lists_evidence (env : Env) (req : Request)
    (testId : string) (w : World) :
  let c := resultsContainer env in
  requestedId req = Some testId ->
  connected env ->
  blobExists env (clock w) c (summaryBlob testId) = Ok tt ->
  blobs w !! (c, summaryBlob testId) = None ->
  exists view w',
    main env req w
    = (Ok {| http_status := 404; http_body := ViewBody view |}, w')
    /\ sv_status view = JStr "not_found"
    /\ sv_summary view = JNull
    /\ ((showsStored env w c (testId +:+ "/screenshots/")
                     (ev_screenshots (sv_evidence view))
         \/ ev_screenshots (sv_evidence view) = JArr [])
        /\ (showsStored env w c (testId +:+ "/logs/")
                        (ev_logs (sv_evidence view))
            \/ ev_logs (sv_evidence view) = JArr [])
        /\ (showsStored env w c (testId +:+ "/reports/")
                        (ev_reports (sv_evidence view))
            \/ ev_reports (sv_evidence view) = JArr []))
    /\ (listingHealthy env c ->
        showsStored env w c (testId +:+ "/screenshots/")
                    (ev_screenshots (sv_evidence view))
        /\ showsStored env w c (testId +:+ "/logs/")
                       (ev_logs (sv_evidence view))
        /\ showsStored env w c (testId +:+ "/reports/")
                       (ev_reports (sv_evidence view)))
    /\ (noArtifacts w c testId -> sv_evidence view = evidenceOf [] [] []).
Proof.
  intros c Hreq Hconn Hex Hnone.
  destruct (getTestSummary_absent env testId c w Hconn
              (resultsContainer_nonempty env) Hex Hnone)
    as (summary&w1&Hsum&->&Hs1).
  destruct (getTestEvidence_returns env testId c w1)
    as (ev&w'&Hev&Hs2&Hempty&shots&logs&reports&->&Hor1&Hor2&Hor3&Hall).
  rewrite (found_same env w w1 c _ (proj1 Hs1)) in Hor1.
  rewrite (found_same env w w1 c _ (proj1 Hs1)) in Hor2.
  rewrite (found_same env w w1 c _ (proj1 Hs1)) in Hor3.
  rewrite !(found_same env w w1 c _ (proj1 Hs1)) in Hall.
  eexists _, w'.
  rewrite (main_view env req testId JNull _ w w1 w' Hreq Hsum Hev).
  split; [reflexivity|]. split; [reflexivity|]. split; [reflexivity|].
  cbn [buildResponse truthy sv_evidence evidenceOf ev_screenshots ev_logs
       ev_reports].
  split; [|split].
  - split; [|split].
    + destruct Hor1 as [-> | ->]; [right; reflexivity|left].
      apply found_showsStored, plainItem_names.
    + destruct Hor2 as [-> | ->]; [right; reflexivity|left].
      apply found_showsStored, plainItem_names.
    + destruct Hor3 as [-> | ->]; [right; reflexivity|left].
      apply found_showsStored, reportItem_names.
  - intros Hlist.
    destruct (Hall Hconn (resultsContainer_nonempty env) Hlist)
      as (-> & -> & ->).
    split; [|split]; apply found_showsStored;
      first [apply plainItem_names|apply reportItem_names].
  - intros Hno. apply Hempty. intros b Hb.
    rewrite (proj1 Hs1). apply Hno, Hb.
Qed.

(** A run with a screenshot and a log in the store and no summary, the
    listings working: 404, and both files are listed by name and URL. *)
Lemma C6_not_found_lists_evidence_witness :
  let env := Scenario.healthy in
  let w := Scenario.partialRun in
  exists view w',
    main env (Scenario.statusOf "R") w
    = (Ok {| http_status := 404; http_body := ViewBody view |}, w')
    /\ sv_status view = JStr "not_found"
    /\ sv_summary view = JNull
    /\ lists (ev_screenshots (sv_evidence view)) "home.png"
             "https://store.example/test-results/R/screenshots/home.png"
    /\ lists (ev_logs (sv_evidence view)) "stdout.log"
             "https://store.example/test-results/R/logs/stdout.log".
Proof.
  intros env w.
  assert (Hnone : blobs w !! (resultsContainer env, summaryBlob "R") = None)
    by (vm_compute; reflexivity).
  destruct (C6_not_found_lists_evidence env (Scenario.statusOf "R") "R" w
              eq_refl eq_refl eq_refl Hnone)
    as (view&w'&Hmain&Hst&Hsm&_&Hall&_).
  assert (Hhealthy : listingHealthy env (resultsContainer env))
    by (intros t p; reflexivity).
  destruct (Hall Hhealthy) as ((es&_&Hshots&_)&(el&_&Hlogs&_)&_).
  exists view, w'. split; [exact Hmain|]. split; [exact Hst|].
  split; [exact Hsm|]. split.
  - apply (Hshots "home.png"). vm_compute. eexists. reflexivity.
  - apply (Hlogs "stdout.log"). vm_compute. eexists. reflexivity.
Defined.

(** C7.  For every requested run whose summary document is in the store
    and readable, the view the endpoint returns takes its status, its
    summary and its three evidence collections from the document; the
    evidence found independently under the run's prefixes does not enter
    the view. *)
Theorem C7_summary_is_authoritative (env : Env) (req : Request)
    (testId : string) (w : World) (blob : StoredBlob) (doc sm : json)
    (st : string) (shots logs reports : list json) :
  let c := resultsContainer env in
  requestedId req = Some testId ->
  connected env ->
  blobExists env (clock w) c (summaryBlob testId) = Ok tt ->
  blobRead env (S (clock w)) c (summaryBlob testId) = Ok tt ->
  blobs w !! (c, summaryBlob testId) = Some blob ->
  sb_data blob = JsonText doc ->
  get doc "status" = Some (JStr st) -> st <> "" ->
  get doc "summary" = Some sm -> (sm = JNull \/ exists fields, sm = JObj fields) ->
  get doc "screenshots" = Some (JArr shots) ->
  get doc "logs" = Some (JArr logs) ->
  get doc "reports" = Some (JArr reports) ->
  exists code view w',
    main env req w = (Ok {| http_status := code; http_body := ViewBody view |}, w')
    /\ sv_status view = JStr st
    /\ sv_summary view = sm
    /\ sv_evidence view = evidenceOf shots logs reports
    /\ forall found,
         sv_evidence (buildResponse env doc found testId)
         = evidenceOf shots logs reports.
Proof.
  intros c Hreq Hconn Hex Hrd Hblob Hdoc Hst Hne Hsm Hsmv Hshots Hlogs Hreports.
  destruct (getTestSummary_present env testId c blob doc w Hconn
              (resultsContainer_nonempty env) Hex Hrd Hblob Hdoc)
    as (summary&w1&Hsum&->&Hs1).
  destruct (getTestEvidence_returns env testId c w1) as (ev&w'&Hev&_).
  assert (Htruthy : truthy doc = true).
  { destruct doc; try discriminate. reflexivity. }
  assert (Hview : forall found,
             sv_status (buildResponse env doc found testId) = JStr st
             /\ sv_summary (buildResponse env doc found testId) = sm
             /\ sv_evidence (buildResponse env doc found testId)
                = evidenceOf shots logs reports).
  { intros found0. unfold buildResponse. rewrite Htruthy. cbn.
    rewrite Hst, Hsm, Hshots, Hlogs, Hreports. cbn.
    rewrite bool_decide_eq_false_2 by exact Hne. cbn.
    repeat split. destruct Hsmv as [->|[fields ->]]; reflexivity. }
  eexists _, (buildResponse env doc ev testId), w'.
  split; [exact (main_view env req testId doc ev w w1 w' Hreq Hsum Hev)|].
  destruct (Hview ev) as (H1&H2&H3).
  repeat split; try assumption. intros found0. apply Hview.
Qed.

(** A complete summary next to a screenshot it does not mention: the view
    shows the summary's collections only. *)
Lemma C7_summary_is_authoritative_witness :
  let env := Scenario.healthy in
  exists code view w',
    main env (Scenario.statusOf "R") Scenario.fullSummary
    = (Ok {| http_status := code; http_body := ViewBody view |}, w')
    /\ sv_status view = JStr "failed"
    /\ sv_summary view = JObj [("total", JNum 1); ("passed", JNum 0);
                               ("failed", JNum 1); ("skipped", JNum 0);
                               ("duration", JNum 900)]
    /\ sv_evidence view
       = evidenceOf []
           [JObj [("name", JStr "stdout.log");
                  ("url", JStr "https://store.example/test-results/R/logs/stdout.log")]]
           []
    /\ forall found,
         sv_evidence (buildResponse env Scenario.fullDoc found "R")
         = evidenceOf []
             [JObj [("name", JStr "stdout.log");
                    ("url", JStr "https://store.example/test-results/R/logs/stdout.log")]]
             [].
Proof.
  intros env.
  apply (C7_summary_is_authoritative env (Scenario.statusOf "R") "R"
           Scenario.fullSummary (Scenario.summaryOf Scenario.fullDoc)
           Scenario.fullDoc).
  - reflexivity.
  - reflexivity.
  - reflexivity.
  - reflexivity.
  - vm_compute. reflexivity.
  - reflexivity.
  - reflexivity.
  - discriminate.
  - reflexivity.
  - right. eexists. reflexivity.
  - reflexivity.
  - reflexivity.
  - reflexivity.
Defined.

(** C9 (as stated, refuted).  With the listing service down, a run whose
    summary names no evidence is answered 200 with three empty evidence
    arrays although the store holds a screenshot of the run: the listing
    error became a successful result with empty evidence.  Likewise the
    orchestrator's lookup answers [not_found] with no evidence when the
    read of an existing summary fails. *)
Lemma C9_listing_errors_are_swallowed :
  (exists view w',
     main (Scenario.listingDown Scenario.healthy) (Scenario.statusOf "R")
          Scenario.bareSummary
     = (Ok {| http_status := 200; http_body := ViewBody view |}, w')
     /\ sv_evidence view = evidenceOf [] [] []
     /\ is_Some (blobs Scenario.bareSummary
                   !! ("test-results", "R/screenshots/home.png"))
     /\ exists m w1,
          Storage.listBlobs (Scenario.listingDown Scenario.healthy)
            "test-results" "R/screenshots/" Scenario.bareSummary
          = (Throw m, w1))
  /\ is_Some (blobs Scenario.bareSummary !! ("test-results", "R/summary.json"))
  /\ fst (Orchestrate.getTestResults (Scenario.readsDown Scenario.healthy) "R"
                                     Scenario.bareSummary)
     = Ok {| Orchestrate.v_status := JStr "not_found";
             Orchestrate.v_summary := JNull;
             Orchestrate.v_evidenceUrls := [];
             Orchestrate.v_executedAt := JNull |}.
Proof.
  split; [|split; [vm_compute; eexists; reflexivity|vm_compute; reflexivity]].
  eexists _, _. split; [vm_compute; reflexivity|].
  split; [reflexivity|].
  split; [vm_compute; eexists; reflexivity|].
  eexists _, _. vm_compute. reflexivity.
Qed.

(** C9 (amended).  For every requested run, when the read of the summary
    document fails: an error whose message does not contain the words
    [does not exist] is surfaced by the endpoint, which answers 500 with
    an error body that carries the message, and returns no view; an
    error whose message contains them is taken for a missing document
    and answered 404 [not_found].  The other reads do not surface their
    failures: the orchestrator's lookup answers [not_found] with no
    evidence after every failed read of the summary, every failed
    listing is an empty listing, and with the listings down the
    evidence lookup returns three empty collections. *)
Theorem C9_summary_read_errors_surface (env : Env) (req : Request)
    (testId message : string) (w w1 : World) :
  requestedId req = Some testId ->
  Storage.downloadBlobAsJson env (resultsContainer env) (summaryBlob testId) w
  = (Throw message, w1) ->
  (includes "does not exist" message = false ->
   main env req w
   = (Ok {| http_status := 500;
            http_body :=
              ErrorBody "Internal server error while retrieving test status"
                        message |}, w1))
  /\ (includes "does not exist" message = true ->
      exists view w',
        main env req w
        = (Ok {| http_status := 404; http_body := ViewBody view |}, w')
        /\ sv_status view = JStr "not_found"
        /\ sv_summary view = JNull)
  /\ Orchestrate.getTestResults env testId w
     = (Ok {| Orchestrate.v_status := JStr "not_found";
              Orchestrate.v_summary := JNull;
              Orchestrate.v_evidenceUrls := [];
              Orchestrate.v_executedAt := JNull |}, w1)
  /\ (forall c prefix m w0 w2,
        Storage.listBlobs env c prefix w0 = (Throw m, w2) ->
        listBlobsByPrefix env c prefix w0 = (Ok [], w2))
  /\ (forall c w0,
        (forall t prefix, exists m, blobList env t c prefix = Throw m) ->
        exists w2,
          getTestEvidence env testId c w0 = (Ok (evidenceOf [] [] []), w2)).
Proof.
  intros Hreq Hread.
  pose proof Hreq as Hreq'. apply requestedId_inv in Hreq' as [Hcond Hid].
  split; [|split; [|split; [|split]]].
  - intros Hother.
    unfold main. rewrite Hcond, Hid. fold (resultsContainer env).
    erewrite try_throw; [reflexivity|].
    apply bind_throw. unfold getTestSummary. fold (summaryBlob testId).
    rewrite (try_throw _ _ _ _ _ Hread). rewrite Hother. reflexivity.
  - intros Hmissing.
    assert (Hsum : getTestSummary env testId (resultsContainer env) w
                   = (Ok JNull, w1)).
    { unfold getTestSummary. fold (summaryBlob testId).
      rewrite (try_throw _ _ _ _ _ Hread). rewrite Hmissing. reflexivity. }
    destruct (getTestEvidence_returns env testId (resultsContainer env) w1)
      as (ev&w'&Hev&_).
    eexists _, w'.
    rewrite (main_view env req testId JNull ev w w1 w' Hreq Hsum Hev).
    repeat split.
  - unfold Orchestrate.getTestResults. fold (resultsContainer env).
    fold (summaryBlob testId).
    erewrite try_throw; [reflexivity|]. apply bind_throw. exact Hread.
  - intros c prefix m w0 w2. apply listBlobsByPrefix_swallows.
  - intros c w0. apply getTestEvidence_down.
Qed.

(** The existence check of the store failing: the endpoint answers 500
    with the storage helper's message, the orchestrator's lookup answers
    [not_found]. *)
Lemma C9_summary_read_errors_surface_witness :
  exists message w1,
    Storage.downloadBlobAsJson (Scenario.readsDown Scenario.healthy)
      "test-results" "R/summary.json" Scenario.bareSummary
    = (Throw message, w1)
    /\ includes "does not exist" message = false
    /\ main (Scenario.readsDown Scenario.healthy) (Scenario.statusOf "R")
            Scenario.bareSummary
       = (Ok {| http_status := 500;
                http_body :=
                  ErrorBody "Internal server error while retrieving test status"
                            message |}, w1)
    /\ Orchestrate.getTestResults (Scenario.readsDown Scenario.healthy) "R"
                                  Scenario.bareSummary
       = (Ok {| Orchestrate.v_status := JStr "not_found";
                Orchestrate.v_summary := JNull;
                Orchestrate.v_evidenceUrls := [];
                Orchestrate.v_executedAt := JNull |}, w1).
Proof.
  destruct (Storage.downloadBlobAsJson (Scenario.readsDown Scenario.healthy)
              "test-results" "R/summary.json" Scenario.bareSummary)
    as [[doc|message] w1] eqn:Hread; [vm_compute in Hread; discriminate|].
  exists message, w1.
  destruct (C9_summary_read_errors_surface
              (Scenario.readsDown Scenario.healthy) (Scenario.statusOf "R") "R"
              message Scenario.bareSummary w1 eq_refl Hread)
    as (Hsurface&_&Hlookup&_).
  split; [reflexivity|].
  assert (Hother : includes "does not exist" message = false).
  { vm_compute in Hread. injection Hread as <- _. vm_compute. reflexivity. }
  split; [exact Hother|]. split; [exact (Hsurface Hother)|exact Hlookup].
Defined.

(** C10.  When a summary document is present, each evidence collection of
    the view is decided on its own: a collection the document lacks, or
    holds as [null], is replaced by the independently found one, and a
    collection the document holds as an array, even an empty one, is used
    as it is, whatever was found independently. *)
Theorem C10_precedence_per_collection (env : Env) (summary : json)
    (found : Evidence) (testId : string) :
  truthy summary = true ->
  let view := buildResponse env summary found testId in
  ((get summary "screenshots" = None \/ get summary "screenshots" = Some JNull ->
    ev_screenshots (sv_evidence view) = ev_screenshots found)
   /\ (forall items, get summary "screenshots" = Some (JArr items) ->
                     ev_screenshots (sv_evidence view) = JArr items))
  /\ ((get summary "logs" = None \/ get summary "logs" = Some JNull ->
       ev_logs (sv_evidence view) = ev_logs found)
      /\ (forall items, get summary "logs" = Some (JArr items) ->
                        ev_logs (sv_evidence view) = JArr items))
  /\ ((get summary "reports" = None \/ get summary "reports" = Some JNull ->
       ev_reports (sv_evidence view) = ev_reports found)
      /\ (forall items, get summary "reports" = Some (JArr items) ->
                        ev_reports (sv_evidence view) = JArr items)).
Proof.
  intros Htruthy view. unfold view, buildResponse. rewrite Htruthy. cbn.
  repeat split.
  - intros [-> | ->]; reflexivity.
  - intros items ->. reflexivity.
  - intros [-> | ->]; reflexivity.
  - intros items ->. reflexivity.
  - intros [-> | ->]; reflexivity.
  - intros items ->. reflexivity.
Qed.

(** A summary with an empty screenshot array, no log collection and a
    [null] report collection, and the evidence found for a run with a
    screenshot and a log in the store: the found screenshot is
    suppressed, the found logs and reports are shown. *)
Lemma C10_precedence_per_collection_witness :
  let summary := JObj [("status", JStr "passed"); ("screenshots", JArr []);
                       ("reports", JNull)] in
  exists found w',
    getTestEvidence Scenario.healthy "R" "test-results" Scenario.partialRun
    = (Ok found, w')
    /\ let view := buildResponse Scenario.healthy summary found "R" in
       truthy summary = true
       /\ ev_screenshots (sv_evidence view) = JArr []
       /\ ev_screenshots found <> JArr []
       /\ ev_logs (sv_evidence view) = ev_logs found
       /\ ev_reports (sv_evidence view) = ev_reports found.
Proof.
  intros summary.
  destruct (getTestEvidence Scenario.healthy "R" "test-results"
              Scenario.partialRun) as [[found|e] w'] eqn:Hrun;
    [|vm_compute in Hrun; discriminate].
  exists found, w'. split; [reflexivity|]. intros view.
  destruct (C10_precedence_per_collection Scenario.healthy summary found "R"
              eq_refl) as ((_&Hshots)&(Hlogs&_)&(Hreports&_)).
  split; [reflexivity|]. split; [apply Hshots; reflexivity|].
  split; [vm_compute in Hrun; injection Hrun as <- _; vm_compute; discriminate|].
  split; [apply Hlogs; left; reflexivity|apply Hreports; right; reflexivity].
Defined.

End StatusStage.

(* ===================================================================== *)
(** * More on harvesting *)
(* ===================================================================== *)

Module CollectExtras.
Import Collect Spec2.

(** X1.  A file whose name marks it as a screenshot or as a log is never
    read as a report: whatever it contains, harvesting it leaves status,
    summary and reports as they were. *)
Theorem evidence_names_never_decide (filePath name : string) (body : FileBody)
    (r : TestResults) :
  is_screenshot (toLowerCase (extname name)) (toLowerCase name) = true
  \/ is_log (toLowerCase (extname name)) (toLowerCase name) = true ->
  match collectFile filePath name body r with
  | Next r' | Thrown r' =>
      tr_status r' = tr_status r /\ tr_summary r' = tr_summary r
      /\ tr_reports r' = tr_reports r
  end.
Proof.
  intros Hkind. unfold collectFile.
  destruct (is_screenshot _ _); [destruct body; repeat split|].
  destruct Hkind as [Hk|Hk]; [discriminate|]. rewrite Hk.
  destruct body; repeat split.
Qed.

(** A JSON report of three failures named [login-results.json] counts as
    a log. *)
Lemma evidence_names_never_decide_witness :
  (is_screenshot (toLowerCase (extname "login-results.json"))
                 (toLowerCase "login-results.json") = true
   \/ is_log (toLowerCase (extname "login-results.json"))
             (toLowerCase "login-results.json") = true)
  /\ match collectFile "/tmp/r/login-results.json" "login-results.json"
                       Scenario2.loginReport initial with
     | Next r' | Thrown r' =>
         tr_status r' = tr_status initial /\ tr_summary r' = tr_summary initial
         /\ tr_reports r' = tr_reports initial
     end.
Proof.
  assert (H : is_screenshot (toLowerCase (extname "login-results.json"))
                            (toLowerCase "login-results.json") = true
              \/ is_log (toLowerCase (extname "login-results.json"))
                        (toLowerCase "login-results.json") = true)
    by (right; reflexivity).
  split; [exact H|].
  exact (evidence_names_never_decide "/tmp/r/login-results.json"
           "login-results.json" Scenario2.loginReport initial H).
Defined.

Lemma collectFile_agree filePath name body r r' :
  tr_status r = tr_status r' -> tr_summary r = tr_summary r' ->
  match collectFile filePath name body r, collectFile filePath name body r' with
  | Next a, Next b | Thrown a, Thrown b =>
      tr_status a = tr_status b /\ tr_summary a = tr_summary b
  | _, _ => False
  end.
Proof.
  intros Hs Hm. unfold collectFile.
  destruct (is_screenshot _ _); [destruct body; split; assumption|].
  destruct (is_log _ _); [destruct body; split; assumption|].
  destruct (bool_decide (_ = ".json")).
  - destruct body as [err|text [| |rep]]; try (split; assumption).
    destruct (rep_stats rep); split; cbn; auto.
  - destruct (bool_decide (_ = ".html")); [destruct body|]; split; assumption.
Qed.

Lemma loop_agree recur recur' resultsPath files :
  forall r r',
    tr_status r = tr_status r' -> tr_summary r = tr_summary r' ->
    tr_status (loop recur resultsPath files r)
    = tr_status (loop recur' resultsPath files r')
    /\ tr_summary (loop recur resultsPath files r)
       = tr_summary (loop recur' resultsPath files r').
Proof.
  induction files as [|file rest IH]; intros r r' Hs Hm; cbn; [auto|].
  destruct file as [name body|name listing].
  - pose proof (collectFile_agree (path_join resultsPath name) name body
                  r r' Hs Hm) as H.
    destruct (collectFile _ name body r), (collectFile _ name body r');
      try contradiction; destruct H; auto.
  - apply IH; assumption.
Qed.

(** X2.  Status and summary are decided by the files of the results
    directory itself: what its subdirectories hold, reports included,
    never enters them. *)
Theorem status_ignores_subdirectories (resultsPath name : string)
    (files : list FsEntry) :
  let r := collectTestResults resultsPath (Dir name (Some files)) in
  tr_status r = tr_status (topLevelOnly resultsPath files)
  /\ tr_summary r = tr_summary (topLevelOnly resultsPath files).
Proof. cbn. apply loop_agree; reflexivity. Qed.

(** X3.  A file that cannot be read, or a JSON report that does not
    parse, ends the harvest of its directory: the entries after it are
    dropped and the results are those gathered before it. *)
Theorem harvest_stops_at_bad_file (recur : string -> FsEntry -> TestResults)
    (resultsPath name err text : string) (rest : list FsEntry)
    (r : TestResults) :
  (recognised name = true ->
   loop recur resultsPath (File name (Unreadable err) :: rest) r = r)
  /\ (jsonReportName name = true ->
      loop recur resultsPath (File name (Readable text SyntaxError) :: rest) r
      = r).
Proof.
  unfold recognised, jsonReportName. cbn. unfold collectFile. split.
  - intros H.
    destruct (is_screenshot _ _); [reflexivity|].
    destruct (is_log _ _); [reflexivity|].
    destruct (bool_decide (_ = ".json")); [reflexivity|].
    destruct (bool_decide (_ = ".html")); [reflexivity|discriminate].
  - intros H.
    destruct (is_screenshot _ _); [discriminate|].
    destruct (is_log _ _); [discriminate|].
    destruct (bool_decide (_ = ".json")); [reflexivity|discriminate].
Qed.

(** A malformed [results.json] before a screenshot: the screenshot is
    not harvested. *)
Lemma harvest_stops_at_bad_file_witness :
  let rest := [File "home.png" (Readable "PNG" SyntaxError)] in
  recognised "results.json" = true
  /\ jsonReportName "results.json" = true
  /\ loop collectTestResults "/tmp/r"
          (File "results.json" (Unreadable "EACCES") :: rest) initial = initial
  /\ loop collectTestResults "/tmp/r"
          (File "results.json" (Readable "{" SyntaxError) :: rest) initial
     = initial.
Proof.
  intros rest.
  destruct (harvest_stops_at_bad_file collectTestResults "/tmp/r"
              "results.json" "EACCES" "{" rest initial) as [H1 H2].
  split; [reflexivity|]. split; [reflexivity|].
  split; [apply H1; reflexivity|apply H2; reflexivity].
Defined.

Lemma collectFile_path_free filePath name body r :
  match collectFile filePath name body r,
        collectFile "" name body initial with
  | Next _, Next _ | Thrown _, Thrown _ => True
  | _, _ => False
  end.
Proof.
  unfold collectFile.
  destruct (is_screenshot _ _); [destruct body; exact I|].
  destruct (is_log _ _); [destruct body; exact I|].
  destruct (bool_decide (_ = ".json")).
  - destruct body as [err|text [| |rep]]; try exact I.
    destruct (rep_stats rep); exact I.
  - destruct (bool_decide (_ = ".html")); [destruct body|]; exact I.
Qed.

Lemma loop_app recur resultsPath files more :
  forallb harvestable files = true ->
  forall r, loop recur resultsPath (files ++ more) r
            = loop recur resultsPath more (loop recur resultsPath files r).
Proof.
  induction files as [|file rest IH]; intros Hall r; [reflexivity|].
  cbn in Hall. apply andb_true_iff in Hall as [Hfile Hrest].
  destruct file as [name body|name listing]; cbn.
  - pose proof (collectFile_path_free (path_join resultsPath name) name body r)
      as H.
    cbn in Hfile.
    destruct (collectFile _ name body r),
      (collectFile "" name body initial); try contradiction; try discriminate.
    apply IH, Hrest.
  - apply IH, Hrest.
Qed.

(** X4.  In a directory whose entries are all harvested without an
    exception, the last JSON report that carries [stats] decides: status
    and summary are those of its counters, whatever earlier reports said. *)
Theorem last_report_decides (recur : string -> FsEntry -> TestResults)
    (resultsPath name text : string) (files : list FsEntry) (rep : Report)
    (s : Stats) (r : TestResults) :
  forallb harvestable files = true ->
  jsonReportName name = true ->
  rep_stats rep = Some s ->
  let final := loop recur resultsPath
                    (files ++ [File name (Readable text (ParsedValue rep))]) r in
  tr_status final = statusOfStats s
  /\ tr_summary final = Some (summaryOfStats s).
Proof.
  intros Hall Hname Hstats. cbv zeta.
  rewrite (loop_app recur resultsPath files _ Hall). cbn.
  unfold jsonReportName in Hname. unfold collectFile.
  destruct (is_screenshot _ _); [discriminate|].
  destruct (is_log _ _); [discriminate|].
  destruct (bool_decide (_ = ".json")); [|discriminate].
  rewrite Hstats. split; reflexivity.
Qed.

(** A green report followed by a red one: the run is [failed]. *)
Lemma last_report_decides_witness :
  let files := [Scenario.reportFile "first.json" Scenario.greenStats;
                File "home.png" (Readable "PNG" SyntaxError)] in
  let final :=
    loop collectTestResults "/tmp/r"
         (files ++ [File "second.json"
                      (Readable "(json report)"
                         (ParsedValue
                            {| rep_doc := Scenario.statsDoc Scenario2.redStats;
                               rep_stats := Some Scenario2.redStats |}))])
         initial in
  tr_status final = "failed"
  /\ tr_summary final = Some (summaryOfStats Scenario2.redStats).
Proof.
  intros files final.
  exact (last_report_decides collectTestResults "/tmp/r" "second.json"
           "(json report)" files
           {| rep_doc := Scenario.statsDoc Scenario2.redStats;
              rep_stats := Some Scenario2.redStats |}
           Scenario2.redStats initial eq_refl eq_refl eq_refl).
Defined.

End CollectExtras.

(* ===================================================================== *)
(** * More on the storage helper *)
(* ===================================================================== *)

Module StorageExtras.
Import Spec Spec2 WorldFacts Frames SafetyFacts StatusStage.

Lemma includes_split (needle s : string) :
  includes needle s = true -> exists pre post, s = pre +:+ needle +:+ post.
Proof.
  induction s as [|a s IH]; intros H.
  - cbn in H. rewrite orb_false_r in H.
    destruct (starts_with_split _ _ H) as [post ->]. exists "", post.
    reflexivity.
  - cbn [includes] in H. apply orb_true_iff in H as [H|H].
    + destruct (starts_with_split _ _ H) as [post ->]. exists "", post.
      reflexivity.
    + destruct (IH H) as (pre&post&->). exists (String a pre), post.
      reflexivity.
Qed.

Lemma includes_within (needle s pre post : string) :
  includes needle s = true -> includes needle (pre +:+ s +:+ post) = true.
Proof.
  intros H. destruct (includes_split _ _ H) as (p&q&->).
  rewrite !app_string_assoc. rewrite <- (app_string_assoc pre p).
  apply includes_app.
Qed.

Section Blobs.
Context (env : Env).

Lemma uploadBlob_inv c b data ct md w u w1 :
  Storage.uploadBlob env c b data ct md w = (Ok u, w1) ->
  u = blobUrl env c b /\ w1 = written w c b (stored env data ct md)
  /\ (forall w0, Storage.getContainerClient env c w0 = (Ok tt, w0)).
Proof.
  intros H.
  assert (Hc : forall w0, Storage.getContainerClient env c w0 = (Ok tt, w0)).
  { intros w0. revert H.
    unfold Storage.uploadBlob, Storage.rethrow, try_catch, bind,
      Storage.getContainerClient.
    destruct (bool_decide (c = "")); [discriminate|].
    destruct (truthy_str _); [reflexivity|discriminate]. }
  destruct (uploadBlob_cases env c b data ct md w) as [Hu|(m&w'&Hu&_)];
    rewrite Hu in H; [injection H as <- <-|discriminate]. auto.
Qed.

End Blobs.

(** X5.  What was uploaded is what a later download returns: after an
    acknowledged [uploadBlob], a [downloadBlob] of the same container and
    name whose existence check and read succeed returns the uploaded
    data, and the URL returned by the upload is that of the blob. *)
Theorem upload_then_download (env : Env) (c b ct : string) (data : BlobData)
    (md : list (string * string)) (w w1 : World) (u : string) :
  Storage.uploadBlob env c b data ct md w = (Ok u, w1) ->
  blobExists env (clock w1) c b = Ok tt ->
  blobRead env (S (clock w1)) c b = Ok tt ->
  u = blobUrl env c b
  /\ exists w2,
       Storage.downloadBlob env c b w1 = (Ok data, w2)
       /\ Storage.downloadBlobAsString env c b w1
          = (Ok (Storage.textOf env data), w2)
       /\ blobs w2 = blobs w1.
Proof.
  intros Hup Hex Hrd.
  destruct (uploadBlob_inv env c b data ct md w u w1 Hup) as (->&Hw1&Hc).
  split; [reflexivity|].
  assert (Hblob : blobs w1 !! (c, b) = Some (stored env data ct md))
    by (rewrite Hw1; cbn; apply lookup_insert_eq).
  unfold Storage.downloadBlobAsString, Storage.downloadBlob. run.
  rewrite Hc, Hex, Hblob. cbn. rewrite Hrd.
  eexists. repeat split.
Qed.

Lemma upload_then_download_witness :
  let env := Scenario.healthy in
  exists u w1,
    Storage.uploadBlob env "test-scripts" "R/test.spec.js"
      (RawText "test('ok')") "application/javascript" [] emptyWorld = (Ok u, w1)
    /\ u = blobUrl env "test-scripts" "R/test.spec.js"
    /\ exists w2,
         Storage.downloadBlob env "test-scripts" "R/test.spec.js" w1
         = (Ok (RawText "test('ok')"), w2)
         /\ Storage.downloadBlobAsString env "test-scripts" "R/test.spec.js" w1
            = (Ok (Storage.textOf env (RawText "test('ok')")), w2)
         /\ blobs w2 = blobs w1.
Proof.
  intros env. eexists _, _.
  assert (Hup : Storage.uploadBlob env "test-scripts" "R/test.spec.js"
                  (RawText "test('ok')") "application/javascript" []
                  emptyWorld = (Ok _, _)) by (vm_compute; reflexivity).
  split; [exact Hup|].
  exact (upload_then_download Scenario.healthy "test-scripts" "R/test.spec.js"
           "application/javascript" (RawText "test('ok')") [] emptyWorld _ _
           Hup eq_refl eq_refl).
Defined.

(** X6.  Uploads overwrite by name: after two acknowledged uploads to
    the same container and name the store holds the second payload
    there, holds every other blob as before the first, and has no more
    entries than after the first. *)
Theorem second_upload_overwrites (env : Env) (c b ct1 ct2 : string)
    (d1 d2 : BlobData) (md1 md2 : list (string * string))
    (w w1 w2 : World) (u1 u2 : string) :
  Storage.uploadBlob env c b d1 ct1 md1 w = (Ok u1, w1) ->
  Storage.uploadBlob env c b d2 ct2 md2 w1 = (Ok u2, w2) ->
  blobs w2 !! (c, b) = Some (stored env d2 ct2 md2)
  /\ (forall k, k <> (c, b) -> blobs w2 !! k = blobs w !! k)
  /\ dom (blobs w2) = dom (blobs w1)
  /\ u2 = u1.
Proof.
  intros H1 H2.
  destruct (uploadBlob_inv env c b d1 ct1 md1 w u1 w1 H1) as (->&->&_).
  destruct (uploadBlob_inv env c b d2 ct2 md2 _ u2 w2 H2) as (->&->&_).
  cbn. repeat split.
  - apply lookup_insert_eq.
  - intros k Hk. rewrite !lookup_insert_ne by congruence. reflexivity.
  - rewrite insert_insert_eq, !dom_insert_L. reflexivity.
Qed.

Lemma second_upload_overwrites_witness :
  let env := Scenario.healthy in
  let first := Storage.uploadBlob env "test-results" "R/summary.json"
                 (JsonText Scenario.bareDoc) "application/json" []
                 Scenario.partialRun in
  let second := Storage.uploadBlob env "test-results" "R/summary.json"
                  (JsonText Scenario.fullDoc) "application/json" []
                  (snd first) in
  blobs (snd second) !! ("test-results", "R/summary.json")
  = Some (stored env (JsonText Scenario.fullDoc) "application/json" [])
  /\ (forall k, k <> ("test-results", "R/summary.json") ->
                blobs (snd second) !! k = blobs Scenario.partialRun !! k)
  /\ dom (blobs (snd second)) = dom (blobs (snd first))
  /\ blobUrl env "test-results" "R/summary.json"
     = blobUrl env "test-results" "R/summary.json".
Proof.
  intros env first second.
  apply (second_upload_overwrites env "test-results" "R/summary.json"
           "application/json" "application/json" (JsonText Scenario.bareDoc)
           (JsonText Scenario.fullDoc) [] [] Scenario.partialRun
           (snd first) (snd second)).
  - vm_compute. reflexivity.
  - vm_compute. reflexivity.
Defined.

(** X7.  Downloading a blob the store does not hold, from a reachable
    account, throws an error whose message says that the blob does not
    exist and names it; nothing in the store, the queues or the trace
    changes. *)
Theorem download_of_missing_blob (env : Env) (c b : string) (w : World) :
  connected env -> c <> "" ->
  blobExists env (clock w) c b = Ok tt ->
  blobs w !! (c, b) = None ->
  exists message w',
    Storage.downloadBlob env c b w = (Throw message, w')
    /\ includes "does not exist" message = true
    /\ includes b message = true
    /\ sameState w w'.
Proof.
  intros Hconn Hne Hex Hnone.
  unfold Storage.downloadBlob. run.
  rewrite (getContainerClient_ok env c w Hconn Hne), Hex, Hnone.
  eexists _, _. split; [reflexivity|].
  split; [|split; [|repeat split]].
  - match goal with
    | |- includes _ (?pre +:+ "Blob " +:+ ?x +:+ ?b +:+ ?y +:+
                     " does not exist in container " +:+ ?rest) = true =>
        rewrite <- (app_string_assoc pre); rewrite <- (app_string_assoc _ x);
        rewrite <- (app_string_assoc _ b); rewrite <- (app_string_assoc _ y);
        change (" does not exist in container " +:+ rest)
          with (" " +:+ ("does not exist" +:+ (" in container " +:+ rest)));
        rewrite <- (app_string_assoc _ " ");
        apply includes_app
    end.
  - match goal with
    | |- includes b ((?p +:+ ?x +:+ b +:+ ?rest) +:+ ?tail) = true =>
        rewrite (app_string_assoc p); rewrite (app_string_assoc x);
        rewrite (app_string_assoc b);
        rewrite <- (app_string_assoc p x);
        apply includes_app
    end.
Qed.

Lemma download_of_missing_blob_witness :
  exists message w',
    Storage.downloadBlob Scenario.healthy "test-results" "R/summary.json"
      Scenario.partialRun = (Throw message, w')
    /\ includes "does not exist" message = true
    /\ includes "R/summary.json" message = true
    /\ sameState Scenario.partialRun w'.
Proof.
  apply (download_of_missing_blob Scenario.healthy "test-results"
           "R/summary.json" Scenario.partialRun).
  - reflexivity.
  - discriminate.
  - reflexivity.
  - vm_compute. reflexivity.
Defined.

(** Every failure of [downloadBlobAsJson] quotes the name of the blob. *)
Lemma downloadBlobAsJson_names_blob env c b w message w' :
  Storage.downloadBlobAsJson env c b w = (Throw message, w') ->
  includes b message = true.
Proof.
  unfold Storage.downloadBlobAsJson, Storage.downloadBlob. run.
  assert (Hpre : forall inner,
             includes b (("Failed to download blob " +:+ dq +:+ b +:+ dq +:+
                          " from container " +:+ dq +:+ c +:+ dq +:+ ": ")
                         +:+ inner) = true).
  { intros inner. rewrite (app_string_assoc "Failed to download blob ").
    rewrite (app_string_assoc dq). rewrite (app_string_assoc b).
    rewrite <- (app_string_assoc "Failed to download blob " dq).
    apply includes_app. }
  destruct (getContainerClient_cases env c w) as [Hc|[m Hc]]; rewrite Hc.
  2:{ intros H. inversion H. apply Hpre. }
  destruct (blobExists env (clock w) c b) as [[]|m];
    [|intros H; inversion H; apply Hpre].
  destruct (blobs w !! (c, b)) as [blob|];
    [|intros H; inversion H; apply Hpre].
  cbn. destruct (blobRead env (S (clock w)) c b) as [[]|m];
    [|intros H; inversion H; apply Hpre].
  destruct (sb_data blob); intros H; inversion H.
  rewrite <- (app_string_assoc "Failed to parse JSON from blob " dq).
  apply includes_app.
Qed.

(** X8.  [getTestSummary] tells a missing summary from a failed read by
    the text of the error, and the error quotes the blob name: for a run
    identifier that itself contains the words [does not exist], every
    failure to read the summary, whatever its cause, is taken as a
    missing summary and answered [null]. *)
Theorem summary_errors_hidden_by_run_id (env : Env) (testId c message : string)
    (w w' : World) :
  includes "does not exist" testId = true ->
  Storage.downloadBlobAsJson env c (summaryBlob testId) w = (Throw message, w') ->
  JobStatus.getTestSummary env testId c w = (Ok JNull, w').
Proof.
  intros Hid Hread. unfold JobStatus.getTestSummary.
  fold (summaryBlob testId). rewrite (try_throw _ _ _ _ _ Hread).
  apply downloadBlobAsJson_names_blob in Hread.
  destruct (includes_split _ _ Hread) as (pre&post&->).
  replace (includes "does not exist" (pre +:+ summaryBlob testId +:+ post))
    with true; [reflexivity|].
  symmetry. unfold summaryBlob. rewrite app_string_assoc.
  apply includes_within, Hid.
Qed.

Lemma summary_errors_hidden_by_run_id_witness :
  let env := Scenario.readsDown Scenario.healthy in
  let testId := "it does not exist" in
  exists message w',
    includes "does not exist" testId = true
    /\ Storage.downloadBlobAsJson env "test-results" (summaryBlob testId)
         emptyWorld = (Throw message, w')
    /\ JobStatus.getTestSummary env testId "test-results" emptyWorld
       = (Ok JNull, w').
Proof.
  intros env testId. eexists _, _.
  assert (Hread : Storage.downloadBlobAsJson env "test-results"
                    (summaryBlob testId) emptyWorld = (Throw _, _))
    by (vm_compute; reflexivity).
  split; [reflexivity|]. split; [exact Hread|].
  exact (summary_errors_hidden_by_run_id env testId "test-results" _
           emptyWorld _ eq_refl Hread).
Defined.

End StorageExtras.

(* ===================================================================== *)
(** * More on the executor stage *)
(* ===================================================================== *)

Module ExecutorExtras.
Import Spec Spec2 WorldFacts Frames SafetyFacts StatusStage StorageExtras
  ExecutorStage Collect RunTests.

#[export] Instance confined_preorder c pre : PreOrder (confined c pre).
Proof.
  split.
  - intros w. split; reflexivity.
  - intros w1 w2 w3 (Hq1&Hb1) (Hq2&Hb2). split; [congruence|].
    intros c' b Hout. rewrite Hb2, Hb1 by exact Hout. reflexivity.
Qed.

Lemma uploadBlob_confined env c pre b data ct md :
  starts_with pre b = true ->
  Within (confined c pre) (Storage.uploadBlob env c b data ct md).
Proof.
  intros Hin w.
  destruct (uploadBlob_cases env c b data ct md w) as [->|(m&w'&->&Hs)]; cbn.
  - split; [reflexivity|]. intros c' b' Hout.
    apply lookup_insert_ne. intros Heq. inversion Heq; subst. apply Hout. auto.
  - destruct Hs as (Hb&Hq&_). split; [exact Hq|]. intros. rewrite Hb.
    reflexivity.
Qed.

Lemma in_namespace testId rest :
  starts_with (testId +:+ "/") (testId +:+ String "/"%char rest) = true.
Proof.
  change (String "/"%char rest) with ("/" +:+ rest).
  rewrite <- app_string_assoc. apply starts_with_app.
Qed.

Lemma uploadTestResults_confined env testId results c :
  Within (confined c (testId +:+ "/")) (uploadTestResults env testId results c).
Proof.
  unfold uploadTestResults.
  repeat frame_step
    ltac:(first [ apply uploadBlob_confined; exact (in_namespace testId _)
                | apply uploadEach_within;
                  [typeclasses eauto|intros x;
                   unfold uploadScreenshot, uploadLog, uploadReport;
                   repeat frame_step
                     ltac:(apply uploadBlob_confined;
                           exact (in_namespace testId _))] ]).
Qed.

(** X9.  Uploading the results of a run touches nothing outside the
    run's own namespace: whether [uploadTestResults] returns or throws,
    every blob that differs afterwards is in the results container
    under [{testId}/], and no queue has changed. *)
Theorem uploads_stay_in_namespace (env : Env) (testId c : string)
    (results : TestResults) (w : World) :
  let w' := snd (uploadTestResults env testId results c w) in
  queue w' = queue w
  /\ forall c' b, blobs w' !! (c', b) <> blobs w !! (c', b) ->
                  c' = c /\ starts_with (testId +:+ "/") b = true.
Proof.
  destruct (uploadTestResults_confined env testId results c w) as (Hq&Hb).
  split; [exact Hq|]. intros c' b Hdiff.
  destruct (decide (c' = c)) as [->|Hc];
    [destruct (starts_with (testId +:+ "/") b) eqn:Hp; [auto|]|];
    exfalso; apply Hdiff, Hb; intros (?&?); congruence.
Qed.

Lemma string_app_inv_head (a b c : string) : a +:+ b = a +:+ c -> b = c.
Proof.
  induction a as [|x a IH]; intros H; [exact H|].
  change (String x (a +:+ b) = String x (a +:+ c)) in H.
  injection H as H. auto.
Qed.

Lemma applyWrites_app ws1 ws2 m :
  applyWrites (ws1 ++ ws2) m = applyWrites ws2 (applyWrites ws1 m).
Proof. apply foldl_app. Qed.

Lemma applyWrites_outside ws m k :
  k ∉ (fst <$> ws) -> applyWrites ws m !! k = m !! k.
Proof.
  revert m. induction ws as [|kv ws IH]; intros m Hk; [reflexivity|].
  cbn in Hk |- *. apply not_elem_of_cons in Hk as (Hne&Hk).
  unfold applyWrites in IH. rewrite IH by exact Hk.
  apply lookup_insert_ne. congruence.
Qed.

Lemma uploadEach_store {A} (upload : A -> M UploadedItem)
    (writeOf : A -> (string * string) * StoredBlob) :
  (forall x w u w', upload x w = (Ok u, w') ->
                    blobs w' = <[fst (writeOf x) := snd (writeOf x)]> (blobs w)) ->
  forall items w us w',
    uploadEach upload items w = (Ok us, w') ->
    blobs w' = applyWrites (writeOf <$> items) (blobs w).
Proof.
  intros Hup. induction items as [|x rest IH]; intros w us w' H.
  - inversion H. reflexivity.
  - cbn [uploadEach] in H.
    destruct (upload x w) as [[u|e] w1] eqn:E;
      [rewrite (bind_ok _ _ _ _ _ E) in H
      |rewrite (bind_throw _ _ _ _ _ E) in H; discriminate].
    destruct (uploadEach upload rest w1) as [[us'|e] w2] eqn:E2;
      [rewrite (bind_ok _ _ _ _ _ E2) in H
      |rewrite (bind_throw _ _ _ _ _ E2) in H; discriminate].
    inversion H; subst. cbn. rewrite (IH _ _ _ E2), (Hup _ _ _ _ E).
    reflexivity.
Qed.

Section Store.
Context (env : Env) (testId c : string).

Ltac one_upload H :=
  match type of H with
  | context [bind (Storage.uploadBlob env c ?b ?d ?ct ?md) _ ?w] =>
      destruct (uploadBlob_cases env c b d ct md w) as [Hu|(m&w1&Hu&_)];
      [rewrite (bind_ok _ _ _ _ _ Hu) in H
      |rewrite (bind_throw _ _ _ _ _ Hu) in H; discriminate];
      inversion H; reflexivity
  end.

Lemma uploadScreenshot_store s w u w' :
  uploadScreenshot env testId c s w = (Ok u, w') ->
  blobs w' = <[fst (screenshotWrite env testId c s)
               := snd (screenshotWrite env testId c s)]> (blobs w).
Proof. unfold uploadScreenshot. cbv zeta. intros H. one_upload H. Qed.

Lemma uploadLog_store l w u w' :
  uploadLog env testId c l w = (Ok u, w') ->
  blobs w' = <[fst (logWrite env testId c l)
               := snd (logWrite env testId c l)]> (blobs w).
Proof. unfold uploadLog. cbv zeta. intros H. one_upload H. Qed.

Lemma uploadReport_store r w u w' :
  uploadReport env testId c r w = (Ok u, w') ->
  blobs w' = <[fst (reportWrite env testId c r)
               := snd (reportWrite env testId c r)]> (blobs w).
Proof. unfold uploadReport. cbv zeta. intros H. one_upload H. Qed.

(** The store after a successful upload: the run's writes, in order. *)
Lemma uploadTestResults_store results w ur w' :
  uploadTestResults env testId results c w = (Ok ur, w') ->
  blobs w' = applyWrites (resultWrites env testId c results) (blobs w)
  /\ ur_screenshots ur = screenshotItem env testId c <$> tr_screenshots results
  /\ ur_logs ur = logItem env testId c <$> tr_logs results
  /\ ur_reports ur = reportItem env testId c <$> tr_reports results.
Proof.
  unfold uploadTestResults, Storage.rethrow. intros H.
  match type of H with
  | try_catch ?body _ _ = _ =>
      destruct (body w) as [[r|e] wb] eqn:E;
      [rewrite (try_ok _ _ _ _ _ E) in H
      |rewrite (try_throw _ _ _ _ _ E) in H; discriminate]
  end.
  inversion H; subst; clear H.
  pose proof (uploadEach_cases c _ _ _
                (uploadScreenshot_uploader env testId c)
                (tr_screenshots results) w) as H1.
  destruct (uploadEach (uploadScreenshot env testId c)
              (tr_screenshots results) w) as [[shots|e] w1] eqn:E1;
    [rewrite (bind_ok _ _ _ _ _ E1) in E
    |rewrite (bind_throw _ _ _ _ _ E1) in E; discriminate].
  destruct H1 as (->&_).
  pose proof (uploadEach_cases c _ _ _
                (uploadLog_uploader env testId c) (tr_logs results) w1) as H2.
  destruct (uploadEach (uploadLog env testId c) (tr_logs results) w1)
    as [[logs|e] w2] eqn:E2;
    [rewrite (bind_ok _ _ _ _ _ E2) in E
    |rewrite (bind_throw _ _ _ _ _ E2) in E; discriminate].
  destruct H2 as (->&_).
  pose proof (uploadEach_cases c _ _ _
                (uploadReport_uploader env testId c) (tr_reports results) w2)
    as H3.
  destruct (uploadEach (uploadReport env testId c) (tr_reports results) w2)
    as [[reports|e] w3] eqn:E3;
    [rewrite (bind_ok _ _ _ _ _ E3) in E
    |rewrite (bind_throw _ _ _ _ _ E3) in E; discriminate].
  destruct H3 as (->&_).
  match type of E with
  | context [bind (Storage.uploadBlob env c ?b ?d ?ct ?md) _ w3] =>
      destruct (uploadBlob_cases env c b d ct md w3) as [Hu|(m&w4&Hu&_)];
      [rewrite (bind_ok _ _ _ _ _ Hu) in E
      |rewrite (bind_throw _ _ _ _ _ Hu) in E; discriminate]
  end.
  inversion E; subst; clear E. cbn [ur_screenshots ur_logs ur_reports].
  split; [|auto].
  unfold resultWrites. rewrite !applyWrites_app.
  rewrite <- (uploadEach_store _ _ uploadScreenshot_store _ _ _ _ E1).
  rewrite <- (uploadEach_store _ _ uploadLog_store _ _ _ _ E2).
  rewrite <- (uploadEach_store _ _ uploadReport_store _ _ _ _ E3).
  reflexivity.
Qed.

End Store.

(** X10.  Evidence is stored under the bare file name, so files of the
    same name from different directories of the results tree share one
    blob: after a successful [uploadTestResults] the blob of a
    screenshot holds the content of the last harvested screenshot of
    that name, while the returned list still has one entry for every
    harvested screenshot. *)
Theorem later_screenshot_wins (env : Env) (testId c : string)
    (results : TestResults) (earlier later : list Screenshot) (s : Screenshot)
    (w w' : World) (ur : UploadResults) :
  uploadTestResults env testId results c w = (Ok ur, w') ->
  tr_screenshots results = earlier ++ s :: later ->
  (forall s', s' ∈ later -> sh_name s' <> sh_name s) ->
  blobs w' !! (c, screenshotBlob testId s)
  = Some (stored env (RawText (sh_content s)) "image/png"
                 (metadataOf env testId))
  /\ length (ur_screenshots ur) = length (tr_screenshots results).
Proof.
  intros Hup Hshots Hlast.
  destruct (uploadTestResults_store env testId c results w ur w' Hup)
    as (Hb&Hs&_).
  split; [|rewrite Hs; apply length_fmap].
  rewrite Hb. unfold resultWrites. rewrite Hshots, fmap_app, fmap_cons.
  rewrite <- app_assoc, applyWrites_app. cbn [app].
  change (applyWrites (?kv :: ?rest) ?m)
    with (applyWrites rest (<[fst kv := snd kv]> m)).
  rewrite applyWrites_outside; [apply lookup_insert_eq|].
  cbn [fst screenshotWrite]. rewrite !fmap_app, !elem_of_app.
  rewrite <- !list_fmap_compose.
  intros [H|[H|[H|H]]].
  - apply list_elem_of_fmap in H as (s'&Heq&Hin). cbn in Heq.
    injection Heq as Heq. unfold screenshotBlob in Heq.
    apply string_app_inv_head, string_app_inv_head in Heq.
    exact (Hlast s' Hin (eq_sym Heq)).
  - apply list_elem_of_fmap in H as (l&Heq&_). cbn in Heq.
    injection Heq as Heq. unfold screenshotBlob, logBlob in Heq.
    apply string_app_inv_head in Heq. lazy in Heq. discriminate.
  - apply list_elem_of_fmap in H as (r&Heq&_). cbn in Heq.
    injection Heq as Heq. unfold screenshotBlob, reportBlob in Heq.
    apply string_app_inv_head in Heq. lazy in Heq. discriminate.
  - apply list_elem_of_singleton in H. cbn in H.
    injection H as Heq. unfold screenshotBlob, summaryBlob in Heq.
    apply string_app_inv_head in Heq. lazy in Heq. discriminate.
Qed.

Lemma later_screenshot_wins_witness :
  let results := collectTestResults "/tmp/r" Scenario2.nestedShots in
  exists ur w',
    uploadTestResults Scenario.healthy "R" results "test-results" emptyWorld
    = (Ok ur, w')
    /\ tr_screenshots results
       = [ {| sh_name := "home.png"; sh_path := "/tmp/r/home.png";
              sh_size := 5; sh_content := "FIRST" |} ]
         ++ {| sh_name := "home.png"; sh_path := "/tmp/r/retry/home.png";
               sh_size := 6; sh_content := "SECOND" |} :: []
    /\ blobs w' !! ("test-results", "R/screenshots/home.png")
       = Some (stored Scenario.healthy (RawText "SECOND") "image/png"
                      (metadataOf Scenario.healthy "R"))
    /\ length (ur_screenshots ur) = 2%nat.
Proof.
  intros results.
  destruct (uploadTestResults Scenario.healthy "R" results "test-results"
              emptyWorld) as [[ur|e] w'] eqn:Hup;
    [|vm_compute in Hup; discriminate].
  exists ur, w'. split; [reflexivity|].
  assert (Hshots : tr_screenshots results
                   = [ {| sh_name := "home.png"; sh_path := "/tmp/r/home.png";
                          sh_size := 5; sh_content := "FIRST" |} ]
                     ++ {| sh_name := "home.png";
                           sh_path := "/tmp/r/retry/home.png";
                           sh_size := 6; sh_content := "SECOND" |} :: [])
    by (vm_compute; reflexivity).
  split; [exact Hshots|].
  apply (later_screenshot_wins Scenario.healthy "R" "test-results" results
           _ [] _ emptyWorld w' ur Hup Hshots).
  intros s' Hin. destruct (not_elem_of_nil _ Hin).
Defined.

Lemma bind_inv {A B} (m : M A) (k : A -> M B) w e w1 :
  bind m k w = (Throw e, w1) ->
  m w = (Throw e, w1)
  \/ exists a w2, m w = (Ok a, w2) /\ k a w2 = (Throw e, w1).
Proof.
  unfold bind. destruct (m w) as [[a|e'] w2]; intros H;
    [right; eauto|left; inversion H; reflexivity].
Qed.

Lemma updateJobStatus_cases env name msg w :
  (name <> "" /\ updateJobStatus env name msg w = (Ok tt, sent w name msg))
  \/ (exists w', updateJobStatus env name msg w = (Ok tt, w')
                 /\ sameState w w').
Proof.
  unfold updateJobStatus. case_bool_decide as Hq.
  - right. exists w. split; [reflexivity|apply sameState_refl].
  - unfold try_catch.
    destruct (enqueueMessage_cases env name msg w) as [->|(m&w'&->&Hs)].
    + left. auto.
    + right. eauto.
Qed.

Lemma runTestsWithMount_confined env script image vars c pre :
  Within (confined c pre)
         (DockerHelper.runTestsWithMount env script image vars).
Proof.
  intros w. unfold DockerHelper.runTestsWithMount.
  case_bool_decide; [reflexivity|].
  run. crunch; split; reflexivity.
Qed.

Lemma within_at {A} (R : World -> World -> Prop) (m : M A) w o w' :
  Within R m -> m w = (o, w') -> R w w'.
Proof. intros H E. specialize (H w). rewrite E in H. exact H. Qed.

(** X11.  A failure inside the executor's entry point is never reported
    as such: whatever was thrown, the caller sees the ReferenceError of
    the [catch] block, and the only status message the run can have
    left on a queue is the one that announced its start. *)
Theorem executor_failure_is_masked (env : Env) (q : option QueueItem)
    (w w' : World) (message : string) :
  main env q w = (Throw message, w') ->
  message = "statusQueueName is not defined"
  /\ (queue w' = queue w
      \/ exists name status,
           queue w' = queue w ++ [(name, status)]
           /\ get status "status" = Some (JStr "started")).
Proof.
  unfold main. intros H.
  match type of H with
  | try_catch ?body _ _ = _ =>
      destruct (body w) as [[r|e] w1] eqn:E;
      [rewrite (try_ok _ _ _ _ _ E) in H; discriminate
      |rewrite (try_throw _ _ _ _ _ E) in H]
  end.
  unfold unbound, throw in H. injection H as <- <-. split; [reflexivity|].
  destruct q as [q|]; [|inversion E; auto].
  destruct (firstOrUuid_returns env (qi_testId q) (qi_id q) w)
    as (testId&wA&HA&(_&HqA&_)).
  rewrite (bind_ok _ _ _ _ _ HA) in E. cbv zeta in E.
  assert (Hrest : forall w0,
             (let k := ltac:(match type of E with
                             | bind _ ?k _ = _ => exact k
                             end) in
              k tt w0 = (Throw e, w1)) -> queue w1 = queue w0).
  { intros w0 E'. cbv beta zeta in E'.
    apply bind_inv in E' as [E'|([]&wc&E1&E')].
    { destruct (_ && _) in E'; inversion E'. reflexivity. }
    assert (wc = w0) as ->
      by (destruct (_ && _) in E1; inversion E1; reflexivity).
    apply bind_inv in E' as [E'|(text&wd&E2&E')].
    { destruct (truthy_str (qi_scriptBlobName q)); [|inversion E'; reflexivity].
      apply (within_at _ _ _ _ _ (downloadBlobAsString_sameState env _ _) E'). }
    assert (queue wd = queue w0) as <-.
    { destruct (truthy_str (qi_scriptBlobName q)); [|inversion E2].
      apply (within_at _ _ _ _ _ (downloadBlobAsString_sameState env _ _) E2). }
    apply bind_inv in E' as [E'|(er&wr&E3&E')].
    { apply (within_at _ _ _ _ _
               (runTestsWithMount_confined env _ _ _ "" "") E'). }
    assert (queue wr = queue wd) as <-
      by apply (within_at _ _ _ _ _
                  (runTestsWithMount_confined env _ _ _ "" "") E3).
    apply bind_inv in E' as [E'|(ur&wu&E4&E')].
    { apply (within_at _ _ _ _ _ (uploadTestResults_confined env _ _ _) E'). }
    exfalso.
    apply bind_inv in E' as [E'|([]&wf&E5&E')]; [|inversion E'].
    match type of E' with
    | updateJobStatus env ?n ?m ?w0 = _ =>
        destruct (updateJobStatus_cases env n m w0) as [(_&HU)|(wU&HU&_)];
        rewrite HU in E'; discriminate
    end. }
  match type of E with
  | bind (updateJobStatus env ?n ?m) _ _ = _ =>
      destruct (updateJobStatus_cases env n m wA)
        as [(Hn&HU)|(wU&HU&(_&HqU&_))];
      rewrite (bind_ok _ _ _ _ _ HU) in E
  end.
  - right. eexists _, _. rewrite (Hrest _ E). cbn [queue sent]. rewrite HqA.
    split; reflexivity.
  - left. rewrite (Hrest _ E). congruence.
Qed.

Lemma executor_failure_is_masked_witness :
  exists message w',
    main (Scenario.readsDown Scenario.healthy) (Some Scenario.runR)
         Scenario.scriptOnly = (Throw message, w')
    /\ message = "statusQueueName is not defined"
    /\ (queue w' = queue Scenario.scriptOnly
        \/ exists name status,
             queue w' = queue Scenario.scriptOnly ++ [(name, status)]
             /\ get status "status" = Some (JStr "started")).
Proof.
  destruct (main (Scenario.readsDown Scenario.healthy) (Some Scenario.runR)
              Scenario.scriptOnly) as [[r|message] w'] eqn:Hrun;
    [vm_compute in Hrun; discriminate|].
  exists message, w'. split; [reflexivity|].
  exact (executor_failure_is_masked _ _ _ _ _ Hrun).
Defined.

(** X12.  An envelope that names no script blob is rejected before
    anything is run or stored, also when it carries a script URL: the
    entry point throws, no sandbox run and no upload took place, and the
    store is as before. *)
Theorem envelope_without_script_name (env : Env) (q : QueueItem) (w : World) :
  truthy_str (qi_scriptBlobName q) = false ->
  exists w' new,
    main env (Some q) w = (Throw "statusQueueName is not defined", w')
    /\ blobs w' = blobs w
    /\ trace w' = trace w ++ new
    /\ (SandboxRan ∉ new)
    /\ forall c b, Uploaded c b ∉ new.
Proof.
  intros Hname. unfold main.
  destruct (firstOrUuid_returns env (qi_testId q) (qi_id q) w)
    as (testId&wA&HA&(HbA&_&HtA)).
  destruct (updateJobStatus_cases env
              (str_or (getenv env "JOB_STATUS_QUEUE_NAME") "")
              (JObj [("testId", JStr testId);
                     ("workItemId", nullable (orNull (qi_workItemId q)));
                     ("status", JStr "started"); ("timestamp", JStr (now env))])
              wA) as [(Hn&HU)|(wU&HU&(HbU&_&HtU))].
  - eexists _, [_]. split; [|split; [|split; [|split]]].
    + destruct (truthy_str (qi_scriptBlobUrl q)) eqn:Hurl;
        (erewrite try_throw; [reflexivity|]);
        rewrite (bind_ok _ _ _ _ _ HA); cbv zeta;
        rewrite (bind_ok _ _ _ _ _ HU), Hname; reflexivity.
    + cbn. exact HbA.
    + cbn. rewrite HtA. reflexivity.
    + intros Hin. apply list_elem_of_singleton in Hin. discriminate.
    + intros c b Hin. apply list_elem_of_singleton in Hin. discriminate.
  - exists wU, []. split; [|split; [|split; [|split]]].
    + destruct (truthy_str (qi_scriptBlobUrl q)) eqn:Hurl;
        (erewrite try_throw; [reflexivity|]);
        rewrite (bind_ok _ _ _ _ _ HA); cbv zeta;
        rewrite (bind_ok _ _ _ _ _ HU), Hname; reflexivity.
    + congruence.
    + rewrite app_nil_r. congruence.
    + apply not_elem_of_nil.
    + intros c b. apply not_elem_of_nil.
Qed.

Lemma envelope_without_script_name_witness :
  let q := {| qi_testId := Some "R"; qi_id := None; qi_workItemId := None;
              qi_scriptBlobUrl := Some "https://store.example/test-scripts/R/test.spec.js";
              qi_scriptBlobName := None; qi_containerName := None;
              qi_envVars := [] |} in
  exists w' new,
    main Scenario.healthy (Some q) Scenario.scriptOnly
    = (Throw "statusQueueName is not defined", w')
    /\ blobs w' = blobs Scenario.scriptOnly
    /\ trace w' = trace Scenario.scriptOnly ++ new
    /\ (SandboxRan ∉ new)
    /\ forall c b, Uploaded c b ∉ new.
Proof.
  intros q. apply (envelope_without_script_name Scenario.healthy q).
  reflexivity.
Defined.

(** X13.  [updateJobStatus] is best effort: it never throws and never
    touches the store; with a queue name it either leaves exactly the
    given message on that queue or, when the send fails, leaves every
    queue as it was; without one it does nothing at all. *)
Theorem status_updates_are_best_effort (env : Env) (name : string)
    (statusData : json) (w : World) :
  exists w',
    updateJobStatus env name statusData w = (Ok tt, w')
    /\ blobs w' = blobs w
    /\ (queue w' = queue w \/ queue w' = queue w ++ [(name, statusData)])
    /\ (name = "" -> w' = w)
    /\ (queueSend env (clock w) name = Ok tt -> name <> "" ->
        connected env -> queue w' = queue w ++ [(name, statusData)]).
Proof.
  unfold updateJobStatus. case_bool_decide as Hname.
  - exists w. repeat split; auto. intros _ Hne. contradiction.
  - unfold try_catch, Queue.enqueueMessage, Queue.getQueueClient. run.
    rewrite bool_decide_eq_false_2 by exact Hname. unfold connected.
    destruct (truthy_str _).
    + destruct (queueSend env (clock w) name) as [[]|m]; eexists;
        (split; [reflexivity|]); cbn; repeat split; auto; try contradiction.
      intros Hsend. discriminate.
    + eexists. split; [reflexivity|]. cbn. repeat split; auto;
        try contradiction. intros _ _ Hc. discriminate.
Qed.

(** X14.  Once its working directory exists, [runTestsWithMount] never
    throws: a failed write, a failed [mkdir] and a failed subprocess all
    come back as a result.  The exit code of the result is [0] exactly
    when all three succeeded, the subprocess was started exactly when
    the first two did, and neither store nor queues are touched. *)
Theorem sandbox_failures_become_results (env : Env)
    (script image dir : string) (vars : list (string * string)) (w : World) :
  script <> "" ->
  sr_mkdtemp (sandbox env (clock w) script image vars) = Ok dir ->
  let run := sandbox env (clock w) script image vars in
  exists er w',
    DockerHelper.runTestsWithMount env script image vars w = (Ok er, w')
    /\ DockerHelper.resultsPath er = path_join dir "results"
    /\ (DockerHelper.exitCode er = JNum 0
        <-> sr_writeFile run = None /\ sr_mkdir run = None
            /\ exists out, sr_exec run = inr out)
    /\ trace w' = trace w
                  ++ (if bool_decide (sr_writeFile run = None
                                      /\ sr_mkdir run = None)
                      then [SandboxRan] else [])
    /\ blobs w' = blobs w /\ queue w' = queue w.
Proof.
  intros Hne Hdir run_. subst run_.
  unfold DockerHelper.runTestsWithMount.
  rewrite bool_decide_eq_false_2 by exact Hne. run. rewrite Hdir.
  destruct (sr_writeFile _) as [e|] eqn:Hwr.
  { eexists _, _. split; [reflexivity|]. split; [reflexivity|].
    rewrite bool_decide_eq_false_2 by (intros (?&?); discriminate).
    rewrite app_nil_r.
    split; [split; [intros Hz; destruct (failedRun_exit _ _ _ Hz)
                   |intros (?&?&?&?); discriminate]|].
    repeat split. }
  destruct (sr_mkdir _) as [e|] eqn:Hmk.
  { eexists _, _. split; [reflexivity|]. split; [reflexivity|].
    rewrite bool_decide_eq_false_2 by (intros (?&?); discriminate).
    rewrite app_nil_r.
    split; [split; [intros Hz; destruct (failedRun_exit _ _ _ Hz)
                   |intros (?&?&?&?); discriminate]|].
    repeat split. }
  rewrite bool_decide_eq_true_2 by auto.
  destruct (sr_exec _) as [e|[out err]] eqn:Hex.
  - eexists _, _. split; [reflexivity|]. split; [reflexivity|].
    split; [split; [intros Hz; destruct (failedRun_exit _ _ _ Hz)
                   |intros (?&?&?&?); discriminate]|].
    repeat split.
  - eexists _, _. split; [reflexivity|]. split; [reflexivity|].
    split; [split; [eauto|reflexivity]|]. repeat split.
Qed.

Lemma sandbox_failures_become_results_witness :
  let env := Scenario.withSandbox Scenario.timedOutRun Scenario.healthy in
  let run := sandbox env O "test('ok')" DockerHelper.defaultImage [] in
  exists er w',
    DockerHelper.runTestsWithMount env "test('ok')" DockerHelper.defaultImage []
      emptyWorld = (Ok er, w')
    /\ DockerHelper.resultsPath er
       = path_join "/tmp/playwright-test-abc" "results"
    /\ (DockerHelper.exitCode er = JNum 0
        <-> sr_writeFile run = None /\ sr_mkdir run = None
            /\ exists out, sr_exec run = inr out)
    /\ trace w' = trace emptyWorld
                  ++ (if bool_decide (sr_writeFile run = None
                                      /\ sr_mkdir run = None)
                      then [SandboxRan] else [])
    /\ blobs w' = blobs emptyWorld /\ queue w' = queue emptyWorld.
Proof.
  intros env run.
  apply (sandbox_failures_become_results env "test('ok')"
           DockerHelper.defaultImage "/tmp/playwright-test-abc" [] emptyWorld).
  - discriminate.
  - reflexivity.
Defined.

Lemma summary_is_stored env testId c results w ur w1 :
  uploadTestResults env testId results c w = (Ok ur, w1) ->
  blobs w1 !! (c, summaryBlob testId)
  = Some (snd (summaryWrite env testId c results)).
Proof.
  intros Hup.
  destruct (uploadTestResults_store env testId c results w ur w1 Hup)
    as (->&_).
  unfold resultWrites. rewrite !applyWrites_app. apply lookup_insert_eq.
Qed.

Lemma bind_ok_inv {A B} (m : M A) (k : A -> M B) w b w' :
  bind m k w = (Ok b, w') ->
  exists a w1, m w = (Ok a, w1) /\ k a w1 = (Ok b, w').
Proof.
  unfold bind. destruct (m w) as [[a|e] w1]; intros H; [eauto|discriminate].
Qed.

(** X27.  The summary document keeps the harvested status, the response
    the final one: after a run of the entry point that returns, the
    script was read from the store, the sandbox ran on it, and the
    document stored under [{testId}/summary.json] carries the status
    that [collectTestResults] found in the results directory of that
    sandbox run, which is [unknown] when no report decided, while the
    status of the response was derived from it and the exit code of the
    sandbox run and is never [unknown]. *)
Theorem stored_status_is_harvested_status (env : Env) (q : QueueItem)
    (w w' : World) (r : Response) :
  main env (Some q) w = (Ok r, w') ->
  exists wC text wD er wR doc blob,
    blobs wC = blobs w
    /\ Storage.downloadBlobAsString env
         (str_or (qi_containerName q) "test-scripts")
         (str_or (qi_scriptBlobName q) "") wC = (Ok text, wD)
    /\ DockerHelper.runTestsWithMount env text
         (str_or (getenv env "PLAYWRIGHT_DOCKER_IMAGE")
                 DockerHelper.defaultImage)
         (qi_envVars q ++ [("TEST_ID", rs_testId r);
                           ("WORK_ITEM_ID",
                            str_or (orNull (qi_workItemId q)) "")]) wD
       = (Ok er, wR)
    /\ let results :=
         Collect.collectTestResults (DockerHelper.resultsPath er)
                                    (DockerHelper.resultsDir er) in
       blobs w' !! (resultsContainer env, summaryBlob (rs_testId r)) = Some blob
       /\ sb_data blob = JsonText doc
       /\ get doc "status" = Some (JStr (tr_status results))
       /\ rs_summary r = tr_summary results
       /\ rs_exitCode r = DockerHelper.exitCode er
       /\ rs_status r = finalStatus (tr_status results) (rs_exitCode r)
       /\ rs_status r <> "unknown".
Proof.
  unfold main. intros H.
  match type of H with
  | try_catch ?body _ _ = _ =>
      destruct (body w) as [[r0|e] w1] eqn:E;
      [rewrite (try_ok _ _ _ _ _ E) in H
      |rewrite (try_throw _ _ _ _ _ E) in H; discriminate]
  end.
  injection H as -> ->.
  apply bind_ok_inv in E as (testId&wA&HA&E). cbv zeta in E.
  apply bind_ok_inv in E as ([]&wU&HU0&E).
  apply bind_ok_inv in E as ([]&wC&HC&E).
  apply bind_ok_inv in E as (text&wD&Hdl&E).
  apply bind_ok_inv in E as (er&wR&Hrun&E).
  apply bind_ok_inv in E as (ur&wS&Hup&E).
  apply bind_ok_inv in E as ([]&wF&Hfin&E).
  injection E as <- <-.
  fold (resultsContainer env) in Hup.
  pose proof (summary_is_stored env testId _ _ wR ur wS Hup) as Hblob.
  assert (Hb : blobs wF = blobs wS).
  { match type of Hfin with
    | updateJobStatus env ?n ?m ?w0 = _ =>
        destruct (updateJobStatus_cases env n m w0)
          as [(_&HU)|(wX&HU&(HbX&_))];
        rewrite HU in Hfin; injection Hfin as <-; [reflexivity|exact HbX]
    end. }
  assert (HbC : blobs wC = blobs w).
  { assert (HbA : blobs wA = blobs w).
    { destruct (ExecutorStage.firstOrUuid_returns env (qi_testId q) (qi_id q) w)
        as (x&wx&Hx&Hsx).
      rewrite Hx in HA. injection HA as _ <-. apply Hsx. }
    assert (HbU : blobs wU = blobs wA).
    { match type of HU0 with
      | updateJobStatus env ?n ?m ?w0 = _ =>
          destruct (ExecutorStage.updateJobStatus_returns env n m w0)
            as (x&wx&Hx&Hsx)
      end.
      destruct x. rewrite Hx in HU0. injection HU0 as <-. exact Hsx. }
    assert (HbCU : wC = wU).
    { destruct (negb _ && negb _); [discriminate|].
      injection HC as <-. reflexivity. }
    rewrite HbCU, HbU. exact HbA. }
  assert (Hdl' : Storage.downloadBlobAsString env
                   (str_or (qi_containerName q) "test-scripts")
                   (str_or (qi_scriptBlobName q) "") wC = (Ok text, wD)).
  { destruct (truthy_str (qi_scriptBlobName q)); [exact Hdl|discriminate]. }
  exists wC, text, wD, er, wR. eexists _, _.
  cbn [rs_testId rs_summary rs_status rs_exitCode].
  split; [exact HbC|]. split; [exact Hdl'|]. split; [exact Hrun|].
  cbv zeta. rewrite Hb. split; [exact Hblob|]. split; [reflexivity|].
  split; [reflexivity|]. split; [reflexivity|]. split; [reflexivity|].
  split; [reflexivity|].
  unfold finalStatus. case_bool_decide as Hu.
  - destruct (DockerHelper.exitCode er) as [| |[| |]| | |]; discriminate.
  - exact Hu.
Qed.

(** A run killed by the timeout, with no report in its results
    directory: the stored document says [unknown], the response
    [failed]. *)
Lemma stored_status_is_harvested_status_witness :
  let env := Scenario.withSandbox Scenario.timedOutRun Scenario.healthy in
  exists r w' er doc blob,
    main env (Some Scenario.runR) Scenario.scriptOnly = (Ok r, w')
    /\ blobs w' !! ("test-results", "R/summary.json") = Some blob
    /\ sb_data blob = JsonText doc
    /\ tr_status (Collect.collectTestResults (DockerHelper.resultsPath er)
                                             (DockerHelper.resultsDir er))
       = "unknown"
    /\ get doc "status" = Some (JStr "unknown")
    /\ rs_exitCode r = DockerHelper.exitCode er
    /\ rs_status r = "failed".
Proof.
  intros env.
  destruct (main env (Some Scenario.runR) Scenario.scriptOnly)
    as [[r|e] w'] eqn:Hrun; [|vm_compute in Hrun; discriminate].
  destruct (stored_status_is_harvested_status env Scenario.runR
              Scenario.scriptOnly w' r Hrun)
    as (wC&text&wD&er&wR&doc&blob&_&_&_&Hblob&Hdata&Hst&_&Hexit&_).
  vm_compute in Hrun. injection Hrun as <- <-.
  eexists _, _. exists er, doc, blob. split; [reflexivity|].
  split; [exact Hblob|]. split; [exact Hdata|].
  assert (Hunknown : get doc "status" = Some (JStr "unknown")).
  { vm_compute in Hblob. injection Hblob as <-.
    cbn in Hdata. injection Hdata as <-. reflexivity. }
  split; [congruence|]. split; [exact Hunknown|].
  split; [exact Hexit|reflexivity].
Defined.

End ExecutorExtras.

(* ===================================================================== *)
(** * More on the status endpoint and the result lookup *)
(* ===================================================================== *)

Module StatusExtras.
Import Spec Spec2 WorldFacts Frames SafetyFacts StatusStage StorageExtras
  ExecutorStage ExecutorExtras JobStatus.

Lemma requestedId_none req :
  requestedId req = None ->
  negb (truthy_str (query_testId req)) && negb (truthy_str (params_testId req))
  = true.
Proof.
  unfold requestedId.
  destruct (truthy_str (query_testId req)) eqn:Hq.
  - destruct (query_testId req); [discriminate|discriminate Hq].
  - destruct (truthy_str (params_testId req)) eqn:Hp; [|reflexivity].
    destruct (params_testId req); [discriminate|discriminate Hp].
Qed.

(** X15.  The status endpoint always answers and only reads: [main]
    never throws, leaves store, queues and trace as they were, and its
    HTTP status is one of 200, 400, 404 and 500; it is 400 exactly when
    the request names no run, and then not even a storage call is made. *)
Theorem status_endpoint_always_answers (env : Env) (req : Request) (w : World) :
  exists resp w',
    main env req w = (Ok resp, w')
    /\ sameState w w'
    /\ (http_status resp = 200 \/ http_status resp = 400
        \/ http_status resp = 404 \/ http_status resp = 500)
    /\ (http_status resp = 400 <-> requestedId req = None)
    /\ (requestedId req = None -> w' = w).
Proof.
  pose proof (jobStatus_sameState env req w) as Hs.
  destruct (requestedId req) as [testId|] eqn:Hreq.
  - destruct (getTestSummary env testId (resultsContainer env) w)
      as [[summary|e] w1] eqn:Hsum.
    + destruct (getTestEvidence_returns env testId (resultsContainer env) w1)
        as (ev&w2&Hev&_).
      rewrite (main_view env req testId summary ev w w1 w2 Hreq Hsum Hev)
        in Hs |- *.
      eexists _, _. split; [reflexivity|]. split; [exact Hs|].
      cbn [http_status].
      destruct (sv_status _) as [| | |s| |];
        try (repeat split; auto; discriminate).
      repeat case_bool_decide; repeat split; auto; discriminate.
    + apply requestedId_inv in Hreq as [Hcond Hid].
      revert Hs. unfold main. rewrite Hcond, Hid. fold (resultsContainer env).
      erewrite try_throw by (apply bind_throw, Hsum). intros Hs.
      eexists _, _. split; [reflexivity|]. split; [exact Hs|].
      cbn [http_status]. repeat split; auto; discriminate.
  - revert Hs. unfold main. rewrite (requestedId_none req Hreq). intros Hs.
    eexists _, _. split; [reflexivity|]. split; [exact Hs|].
    cbn [http_status]. repeat split; auto.
Qed.

Lemma status_endpoint_always_answers_witness :
  exists resp w',
    main Scenario.healthy {| query_testId := None; params_testId := Some "" |}
         Scenario.fullSummary = (Ok resp, w')
    /\ sameState Scenario.fullSummary w'
    /\ (http_status resp = 200 \/ http_status resp = 400
        \/ http_status resp = 404 \/ http_status resp = 500)
    /\ (http_status resp = 400
        <-> requestedId {| query_testId := None; params_testId := Some "" |}
            = None)
    /\ (requestedId {| query_testId := None; params_testId := Some "" |} = None
        -> w' = Scenario.fullSummary).
Proof.
  exact (status_endpoint_always_answers Scenario.healthy
           {| query_testId := None; params_testId := Some "" |}
           Scenario.fullSummary).
Defined.

(** X16.  What the executor uploads is what the status endpoint
    reports: after a successful [uploadTestResults] into the results
    container, a status request for the run is answered with the
    harvested status and summary and with exactly the uploaded names and
    URLs as evidence.  The work item and the URL of the summary are
    reported as [null], since the summary document holds neither. *)
Theorem uploaded_run_is_reported (env : Env) (testId : string)
    (results : TestResults) (w w1 : World) (ur : RunTests.UploadResults) :
  readsHealthy env ->
  testId <> "" -> tr_status results <> "" ->
  RunTests.uploadTestResults env testId results (resultsContainer env) w
  = (Ok ur, w1) ->
  exists view w2,
    main env {| query_testId := Some testId; params_testId := None |} w1
    = (Ok {| http_status :=
               if bool_decide (tr_status results = "not_found") then 404
               else if bool_decide (tr_status results = "error") then 500
               else 200;
             http_body := ViewBody view |}, w2)
    /\ sv_testId view = JStr testId
    /\ sv_status view = JStr (tr_status results)
    /\ sv_summary view = RunTests.summaryJson (tr_summary results)
    /\ sv_evidence view
       = {| ev_screenshots := JArr (RunTests.refJson <$> RunTests.ur_screenshots ur);
            ev_logs := JArr (RunTests.refJson <$> RunTests.ur_logs ur);
            ev_reports := JArr (RunTests.refJson <$> RunTests.ur_reports ur) |}
    /\ sv_workItemId view = JNull
    /\ sv_summaryBlobUrl view = JNull.
Proof.
  intros (Hconn&Hex&Hrd) Hid Hstatus Hup.
  pose proof (summary_is_stored env testId _ results w ur w1 Hup) as Hblob.
  destruct (uploadTestResults_store env testId _ results w ur w1 Hup)
    as (_&Hs&Hl&Hr).
  destruct (getTestSummary_present env testId (resultsContainer env) _ _ w1
              Hconn (resultsContainer_nonempty env) (Hex _ _ _) (Hrd _ _ _)
              Hblob eq_refl) as (summary&wS&Hsum&->&_).
  destruct (getTestEvidence_returns env testId (resultsContainer env) wS)
    as (ev&w2&Hev&_).
  assert (Hreq : requestedId {| query_testId := Some testId;
                                params_testId := None |} = Some testId).
  { unfold requestedId, truthy_str. cbn.
    rewrite bool_decide_eq_false_2 by exact Hid. reflexivity. }
  rewrite (main_view env _ testId _ ev w1 wS w2 Hreq Hsum Hev).
  rewrite Hs, Hl, Hr.
  assert (Hview : forall (sm : json),
             sm = RunTests.summaryJson (tr_summary results) ->
             or_else (Some sm) JNull = sm).
  { intros sm ->. destruct (tr_summary results); reflexivity. }
  unfold buildResponse, RunTests.summaryDoc. cbn [truthy].
  cbn [get assoc sv_status sv_testId sv_summary sv_evidence sv_workItemId
       sv_summaryBlobUrl or_else truthy].
  repeat (rewrite ?bool_decide_eq_true_2 by reflexivity;
          rewrite ?bool_decide_eq_false_2 by discriminate;
          cbn [get assoc or_else truthy negb]).
  rewrite !bool_decide_eq_false_2 by assumption. cbn [negb].
  eexists _, _. split; [reflexivity|].
  cbn [sv_status sv_testId sv_summary sv_evidence sv_workItemId
       sv_summaryBlobUrl].
  repeat split. apply Hview. reflexivity.
Qed.

Lemma uploaded_run_is_reported_witness :
  let env := Scenario.healthy in
  let results := Collect.collectTestResults "/tmp/r" Scenario.greenDir in
  exists ur w1 view w2,
    RunTests.uploadTestResults env "R" results (resultsContainer env) emptyWorld
    = (Ok ur, w1)
    /\ main env {| query_testId := Some "R"; params_testId := None |} w1
       = (Ok {| http_status :=
                  if bool_decide (tr_status results = "not_found") then 404
                  else if bool_decide (tr_status results = "error") then 500
                  else 200;
                http_body := ViewBody view |}, w2)
    /\ sv_testId view = JStr "R"
    /\ sv_status view = JStr (tr_status results)
    /\ sv_summary view = RunTests.summaryJson (tr_summary results)
    /\ sv_evidence view
       = {| ev_screenshots := JArr (RunTests.refJson <$> RunTests.ur_screenshots ur);
            ev_logs := JArr (RunTests.refJson <$> RunTests.ur_logs ur);
            ev_reports := JArr (RunTests.refJson <$> RunTests.ur_reports ur) |}
    /\ sv_workItemId view = JNull
    /\ sv_summaryBlobUrl view = JNull.
Proof.
  intros env results.
  destruct (RunTests.uploadTestResults env "R" results (resultsContainer env)
              emptyWorld) as [[ur|e] w1] eqn:Hup;
    [|vm_compute in Hup; discriminate].
  exists ur, w1.
  destruct (uploaded_run_is_reported env "R" results emptyWorld w1 ur)
    as (view&w2&H).
  - repeat split; intros; reflexivity.
  - discriminate.
  - vm_compute. discriminate.
  - exact Hup.
  - exists view, w2. split; [reflexivity|exact H].
Defined.

Lemma urls_of_refs (items : list RunTests.UploadedItem) w :
  Orchestrate.urlsOf (Some (JArr (RunTests.refJson <$> items))) w
  = (Ok (JStr <$> (RunTests.up_url <$> items)), w).
Proof.
  unfold Orchestrate.urlsOf.
  replace (forallb _ (RunTests.refJson <$> items)) with true
    by (induction items as [|u rest IH]; [reflexivity|exact IH]).
  unfold ret. f_equal. f_equal.
  induction items as [|u rest IH]; [reflexivity|].
  cbn [fmap list_fmap]. f_equal. exact IH.
Qed.

(** X17.  What the executor uploads is what the orchestrator's result
    lookup finds: after a successful [uploadTestResults] into the results
    container, [getTestResults] returns the harvested status and summary,
    and its evidence URLs are the URLs of the uploaded screenshots, logs
    and reports, in that order; the URL of the summary document is not
    among them, since the document does not hold it. *)
Theorem uploaded_run_is_found (env : Env) (testId : string)
    (results : TestResults) (w w1 : World) (ur : RunTests.UploadResults) :
  readsHealthy env ->
  tr_status results <> "" ->
  RunTests.uploadTestResults env testId results (resultsContainer env) w
  = (Ok ur, w1) ->
  exists view w2,
    Orchestrate.getTestResults env testId w1 = (Ok view, w2)
    /\ Orchestrate.v_status view = JStr (tr_status results)
    /\ Orchestrate.v_summary view = RunTests.summaryJson (tr_summary results)
    /\ Orchestrate.v_evidenceUrls view
       = JStr <$> (RunTests.up_url
                     <$> (RunTests.ur_screenshots ur ++ RunTests.ur_logs ur
                          ++ RunTests.ur_reports ur))
    /\ sameState w1 w2.
Proof.
  intros (Hconn&Hex&Hrd) Hstatus Hup.
  pose proof (summary_is_stored env testId _ results w ur w1 Hup) as Hblob.
  destruct (uploadTestResults_store env testId _ results w ur w1 Hup)
    as (_&Hs&Hl&Hr).
  pose proof (getTestResults_sameState env testId w1) as Hsame.
  revert Hsame.
  unfold Orchestrate.getTestResults. fold (resultsContainer env).
  fold (summaryBlob testId).
  unfold Storage.downloadBlobAsJson, Storage.downloadBlob, GenerateTests.prop,
    RunTests.summaryDoc.
  run.
  rewrite (getContainerClient_ok env _ w1 Hconn (resultsContainer_nonempty env)).
  rewrite Hex, Hblob. cbn [sb_data summaryWrite snd stored]. rewrite Hrd.
  unfold RunTests.summaryDoc.
  cbn [get assoc].
  repeat (rewrite ?bool_decide_eq_true_2 by reflexivity;
          rewrite ?bool_decide_eq_false_2 by discriminate;
          cbn [get assoc or_else truthy negb]).
  rewrite !urls_of_refs.
  rewrite !bool_decide_eq_false_2 by assumption. cbn [negb].
  intros Hsame. eexists _, _. split; [reflexivity|].
  cbn [Orchestrate.v_status Orchestrate.v_summary Orchestrate.v_evidenceUrls].
  rewrite <- Hs, <- Hl, <- Hr.
  split; [reflexivity|]. split; [destruct (tr_summary results); reflexivity|].
  split; [|exact Hsame].
  rewrite !fmap_app, ?app_nil_r, <- ?app_assoc. reflexivity.
Qed.

Lemma uploaded_run_is_found_witness :
  let env := Scenario.healthy in
  let results := Collect.collectTestResults "/tmp/r" Scenario.greenDir in
  exists ur w1 view w2,
    RunTests.uploadTestResults env "R" results (resultsContainer env) emptyWorld
    = (Ok ur, w1)
    /\ Orchestrate.getTestResults env "R" w1 = (Ok view, w2)
    /\ Orchestrate.v_status view = JStr (tr_status results)
    /\ Orchestrate.v_summary view = RunTests.summaryJson (tr_summary results)
    /\ Orchestrate.v_evidenceUrls view
       = JStr <$> (RunTests.up_url
                     <$> (RunTests.ur_screenshots ur ++ RunTests.ur_logs ur
                          ++ RunTests.ur_reports ur))
    /\ sameState w1 w2.
Proof.
  intros env results.
  destruct (RunTests.uploadTestResults env "R" results (resultsContainer env)
              emptyWorld) as [[ur|e] w1] eqn:Hup;
    [|vm_compute in Hup; discriminate].
  exists ur, w1.
  destruct (uploaded_run_is_found env "R" results emptyWorld w1 ur)
    as (view&w2&H).
  - repeat split; intros; reflexivity.
  - vm_compute. discriminate.
  - exact Hup.
  - exists view, w2. split; [reflexivity|exact H].
Defined.

(** X18.  A listing names evidence relative to its prefix: when the
    listing works, [listBlobsByPrefix] returns an item called [name]
    exactly when the store holds a blob called [prefix ++ name] in the
    container, and every item carries the URL of that blob. *)
Theorem listing_names_are_relative (env : Env) (c pre : string) (w : World) :
  connected env -> c <> "" ->
  blobList env (clock w) c pre = Ok tt ->
  exists items w',
    listBlobsByPrefix env c pre w = (Ok items, w')
    /\ (forall name, name ∈ (ls_name <$> items)
                     <-> is_Some (blobs w !! (c, pre +:+ name)))
    /\ (forall item, item ∈ items ->
                     ls_url item = blobUrl env c (pre +:+ ls_name item)).
Proof.
  intros Hconn Hne Hlist.
  destruct (listBlobsByPrefix_returns env c pre w) as (items&w'&Hrun&_&_&Hok).
  specialize (Hok Hconn Hne Hlist). subst items.
  exists (found env w c pre), w'. split; [exact Hrun|].
  assert (Hin : forall item,
             item ∈ found env w c pre
             <-> exists b blob,
                   blobs w !! (c, pre +:+ b) = Some blob
                   /\ item = listedOf env c pre
                               (Storage.itemOf env ((c, pre +:+ b), blob))).
  { intros item. unfold found, Storage.blobsUnder.
    rewrite list_elem_of_fmap. split.
    - intros (bi&->&Hbi). apply list_elem_of_fmap in Hbi as (kv&->&Hkv).
      apply list_elem_of_filter in Hkv as [[Hc Hp] Hkv].
      destruct kv as [[c' b] blob]. cbn in Hc, Hp. subst c'.
      apply elem_of_map_to_list in Hkv.
      destruct (starts_with_split _ _ Hp) as (rest&->).
      exists rest, blob. auto.
    - intros (b&blob&Hb&->). eexists. split; [reflexivity|].
      apply list_elem_of_fmap. eexists. split; [reflexivity|].
      apply list_elem_of_filter. split.
      + split; [reflexivity|apply starts_with_app].
      + apply elem_of_map_to_list. exact Hb. }
  split.
  - intros name. rewrite list_elem_of_fmap. split.
    + intros (item&->&Hitem). apply Hin in Hitem as (b&blob&Hb&->).
      cbn. rewrite remove_first_prefix. eauto.
    + intros (blob&Hb). eexists. split; [|apply Hin; eauto].
      cbn. rewrite remove_first_prefix. reflexivity.
  - intros item Hitem. apply Hin in Hitem as (b&blob&Hb&->).
    cbn. rewrite remove_first_prefix. reflexivity.
Qed.

Lemma listing_names_are_relative_witness :
  exists items w',
    listBlobsByPrefix Scenario.healthy "test-results" "R/screenshots/"
      Scenario.fullSummary = (Ok items, w')
    /\ (forall name,
          name ∈ (ls_name <$> items)
          <-> is_Some (blobs Scenario.fullSummary
                         !! ("test-results", "R/screenshots/" +:+ name)))
    /\ (forall item, item ∈ items ->
                     ls_url item
                     = blobUrl Scenario.healthy "test-results"
                               ("R/screenshots/" +:+ ls_name item)).
Proof.
  apply (listing_names_are_relative Scenario.healthy "test-results"
           "R/screenshots/" Scenario.fullSummary).
  - reflexivity.
  - discriminate.
  - reflexivity.
Defined.

Lemma urlsOf_cases v w :
  (exists urls, Orchestrate.urlsOf v w = (Ok urls, w))
  \/ (exists m, Orchestrate.urlsOf v w = (Throw m, w)).
Proof.
  unfold Orchestrate.urlsOf.
  destruct v as [j|]; [|left; eexists; reflexivity].
  destruct j;
    try match goal with
        | |- context [if ?c then _ else _] => destruct c
        end;
    first [left; eexists; reflexivity|right; eexists; reflexivity].
Qed.

Lemma urlsOf_malformed v w :
  truthy v = true -> (forall items, v <> JArr items) ->
  exists m, Orchestrate.urlsOf (Some v) w = (Throw m, w).
Proof.
  intros Ht Harr. unfold Orchestrate.urlsOf.
  destruct v as [| | | |items|]; try (rewrite Ht); try (eexists; reflexivity).
  destruct (Harr items eq_refl).
Qed.

(** X28.  The orchestrator's result lookup hides a summary it cannot
    walk: when the stored summary document has a truthy [screenshots],
    [logs] or [reports] property that is not an array, [getTestResults]
    answers [not_found] with no evidence, although the document is there
    and the status endpoint answers the same run from it. *)
Theorem lookup_hides_malformed_summaries (env : Env) (testId k : string)
    (doc v : json) (blob : StoredBlob) (w : World) :
  readsHealthy env ->
  testId <> "" ->
  blobs w !! (resultsContainer env, summaryBlob testId) = Some blob ->
  sb_data blob = JsonText doc ->
  k ∈ ["screenshots"; "logs"; "reports"] ->
  get doc k = Some v -> truthy v = true -> (forall items, v <> JArr items) ->
  (exists w',
     Orchestrate.getTestResults env testId w
     = (Ok {| Orchestrate.v_status := JStr "not_found";
              Orchestrate.v_summary := JNull;
              Orchestrate.v_evidenceUrls := [];
              Orchestrate.v_executedAt := JNull |}, w'))
  /\ (exists resp ev w',
        main env {| query_testId := Some testId; params_testId := None |} w
        = (Ok resp, w')
        /\ http_body resp = ViewBody (buildResponse env doc ev testId)).
Proof.
  intros (Hconn&Hex&Hrd) Hid Hblob Hdoc Hk Hget Ht Harr. split.
  - assert (Hdl : Storage.downloadBlobAsJson env (resultsContainer env)
                    (summaryBlob testId) w
                  = (Ok doc, {| blobs := blobs w; queue := queue w;
                                trace := trace w;
                                clock := S (S (clock w)) |})).
    { unfold Storage.downloadBlobAsJson, Storage.downloadBlob. run.
      rewrite (getContainerClient_ok env _ w Hconn
                 (resultsContainer_nonempty env)).
      rewrite Hex, Hblob. cbn. rewrite Hrd, Hdoc. reflexivity. }
    set (w1 := {| blobs := blobs w; queue := queue w; trace := trace w;
                  clock := S (S (clock w)) |}) in *.
    exists w1. unfold Orchestrate.getTestResults.
    fold (resultsContainer env) (summaryBlob testId).
    assert (Hobj : exists fields, doc = JObj fields)
      by (destruct doc; try discriminate; eauto).
    destruct Hobj as (fields&->).
    match goal with
    | |- try_catch ?body ?h w = _ =>
        assert (Hbody : exists m, body w = (Throw m, w1));
        [|destruct Hbody as (m&Hbody);
          rewrite (try_throw _ _ _ _ _ Hbody); reflexivity]
    end.
    rewrite (bind_ok _ _ _ _ _ Hdl).
    rewrite (bind_ok _ _ _ (get (JObj fields) "screenshots") w1 eq_refl).
    destruct (decide (k = "screenshots")) as [->|Hk1].
    { rewrite Hget. destruct (urlsOf_malformed v w1 Ht Harr) as (m&Hm).
      rewrite (bind_throw _ _ _ _ _ Hm). eauto. }
    destruct (urlsOf_cases (get (JObj fields) "screenshots") w1)
      as [(l1&H1)|(m&H1)];
      [rewrite (bind_ok _ _ _ _ _ H1)
      |rewrite (bind_throw _ _ _ _ _ H1); eauto].
    destruct (decide (k = "logs")) as [->|Hk2].
    { rewrite Hget. destruct (urlsOf_malformed v w1 Ht Harr) as (m&Hm).
      rewrite (bind_throw _ _ _ _ _ Hm). eauto. }
    destruct (urlsOf_cases (get (JObj fields) "logs") w1)
      as [(l2&H2)|(m&H2)];
      [rewrite (bind_ok _ _ _ _ _ H2)
      |rewrite (bind_throw _ _ _ _ _ H2); eauto].
    assert (k = "reports") as ->.
    { repeat (apply elem_of_cons in Hk as [?|Hk]; [congruence|]).
      destruct (not_elem_of_nil _ Hk). }
    rewrite Hget. destruct (urlsOf_malformed v w1 Ht Harr) as (m&Hm).
    rewrite (bind_throw _ _ _ _ _ Hm). eauto.
  - destruct (getTestSummary_present env testId (resultsContainer env) _ _ w
                Hconn (resultsContainer_nonempty env) (Hex _ _ _) (Hrd _ _ _)
                Hblob Hdoc) as (summary&wS&Hsum&->&_).
    destruct (getTestEvidence_returns env testId (resultsContainer env) wS)
      as (ev&w2&Hev&_).
    assert (Hreq : requestedId {| query_testId := Some testId;
                                  params_testId := None |} = Some testId).
    { unfold requestedId, truthy_str. cbn.
      rewrite bool_decide_eq_false_2 by exact Hid. reflexivity. }
    eexists _, ev, w2.
    rewrite (main_view env _ testId _ ev w wS w2 Hreq Hsum Hev).
    split; reflexivity.
Qed.

Lemma lookup_hides_malformed_summaries_witness :
  let env := Scenario.healthy in
  (exists w',
     Orchestrate.getTestResults env "R" Scenario2.oddSummary
     = (Ok {| Orchestrate.v_status := JStr "not_found";
              Orchestrate.v_summary := JNull;
              Orchestrate.v_evidenceUrls := [];
              Orchestrate.v_executedAt := JNull |}, w'))
  /\ (exists resp ev w',
        main env {| query_testId := Some "R"; params_testId := None |}
             Scenario2.oddSummary = (Ok resp, w')
        /\ http_body resp
           = ViewBody (buildResponse env Scenario2.oddDoc ev "R")).
Proof.
  intros env.
  apply (lookup_hides_malformed_summaries env "R" "screenshots"
           Scenario2.oddDoc (JStr "none") (Scenario.summaryOf Scenario2.oddDoc)
           Scenario2.oddSummary).
  - repeat split; intros; reflexivity.
  - discriminate.
  - vm_compute. reflexivity.
  - reflexivity.
  - apply list_elem_of_here.
  - reflexivity.
  - reflexivity.
  - discriminate.
Defined.

End StatusExtras.

(* ===================================================================== *)
(** * More on the generators *)
(* ===================================================================== *)

Module GeneratorExtras.
Import Spec Spec2 WorldFacts Frames GeneratorFacts SafetyFacts StatusStage
  StorageExtras GeneratorStage GenerateTests.

(** X19.  The queue-triggered generator always answers and never sends
    anything on: [main] does not throw and leaves every queue as it was.
    A [Generated] response means that the store is the old store plus
    exactly the script, under [{testId}/test.spec.js] in the script
    container, at the URL the response gives; a [Failed] response means
    that the store is untouched. *)
Theorem queue_generator_outcomes (env : Env) (binding : option string)
    (queueItem : option QueueItem) (w : World) :
  exists resp w',
    main env binding queueItem w = (Ok resp, w')
    /\ queue w' = queue w
    /\ match resp with
       | Generated_ testId workItemId _ url blobName c _ =>
           blobName = testId +:+ "/test.spec.js"
           /\ c = Orchestrate.scriptContainerName env
           /\ url = blobUrl env c blobName
           /\ exists script,
                blobs w'
                = <[(c, blobName)
                    := stored env (RawText script) "application/javascript"
                              [("testId", testId); ("workItemId", workItemId);
                               ("generatedAt", now env)]]> (blobs w)
       | Failed_ _ _ _ => blobs w' = blobs w
       end.
Proof.
  unfold main.
  assert (Hfail : forall (body : M Response) e w1,
             body w = (Throw e, w1) ->
             blobs w1 = blobs w -> queue w1 = queue w ->
             exists resp w',
               try_catch body (failed env binding) w = (Ok resp, w')
               /\ queue w' = queue w
               /\ match resp with
                  | Generated_ _ _ _ _ _ _ _ => False
                  | Failed_ _ _ _ => blobs w' = blobs w
                  end).
  { intros body e w1 Hbody Hb Hq.
    destruct (failed_returns env binding e w1) as (testId&w'&Hf&(Hb'&Hq'&_)).
    exists (Failed_ e testId (now env)), w'.
    rewrite (try_throw _ _ _ _ _ Hbody). split; [exact Hf|].
    split; congruence. }
  assert (Hweak : forall (body : M Response),
             (exists resp w',
                try_catch body (failed env binding) w = (Ok resp, w')
                /\ queue w' = queue w
                /\ match resp with
                   | Generated_ _ _ _ _ _ _ _ => False
                   | Failed_ _ _ _ => blobs w' = blobs w
                   end) ->
             exists resp w',
               try_catch body (failed env binding) w = (Ok resp, w')
               /\ queue w' = queue w
               /\ match resp with
                  | Generated_ testId workItemId _ url blobName c _ =>
                      blobName = testId +:+ "/test.spec.js"
                      /\ c = Orchestrate.scriptContainerName env
                      /\ url = blobUrl env c blobName
                      /\ exists script,
                           blobs w'
                           = <[(c, blobName)
                               := stored env (RawText script)
                                    "application/javascript"
                                    [("testId", testId);
                                     ("workItemId", workItemId);
                                     ("generatedAt", now env)]]> (blobs w)
                  | Failed_ _ _ _ => blobs w' = blobs w
                  end).
  { intros body (resp&w'&Hrun&Hq&Hresp). exists resp, w'.
    split; [exact Hrun|]. split; [exact Hq|].
    destruct resp; [destruct Hresp|exact Hresp]. }
  destruct queueItem as [q|];
    [|apply Hweak; eapply Hfail; [reflexivity|reflexivity|reflexivity]].
  destruct (prepare_returns env q w)
    as (workItemId&testId&wi&w0&Hp&(Hb0&Hq0&_)).
  pose proof (generate_calls env wi w0) as Hg.
  destruct (generate env wi w0) as [[g|e] w1] eqn:Hgen;
    cbn [snd] in Hg; destruct Hg as (Hb1&Hq1&_).
  2:{ apply Hweak.
      eapply Hfail;
        [rewrite (bind_ok _ _ _ _ _ Hp); cbn beta iota; apply bind_throw, Hgen
        |congruence|congruence]. }
  assert (Hbody : forall o w2,
             finish env workItemId testId g w1 = (o, w2) ->
             (prepared <- prepare env q ;;
              let '(workItemId, testId, workItem) := prepared in
              testResults <- generate env workItem ;;
              finish env workItemId testId testResults)%js w = (o, w2)).
  { intros o w2 Hfin. rewrite (bind_ok _ _ _ _ _ Hp). cbn beta iota.
    rewrite (bind_ok _ _ _ _ _ Hgen). exact Hfin. }
  unfold finish in Hbody. unfold cleanScript in Hbody.
  destruct (testScript g) as [| | |s| |];
    try (apply Hweak; eapply Hfail;
         [apply Hbody; reflexivity|congruence|congruence]).
  set (script := match codeBlock env s with
                 | Some inner => trim env inner
                 | None => s
                 end).
  assert (Hclean : forall w2,
             (match codeBlock env s with
              | Some inner => ret (trim env inner)
              | None => ret s
              end) w2 = (Ok script, w2))
    by (intros w2; unfold script; destruct (codeBlock env s); reflexivity).
  destruct (uploadBlob_cases env
              (str_or (getenv env "STORAGE_CONTAINER_NAME") "test-scripts")
              (testId +:+ "/test.spec.js") (RawText script)
              "application/javascript"
              [("testId", testId); ("workItemId", workItemId);
               ("generatedAt", now env)] w1)
    as [Hu|(m&w2&Hu&(Hb2&Hq2&_))].
  - eexists _, _. split; [|split].
    + apply try_ok, Hbody.
      rewrite (bind_ok _ _ _ _ _ (Hclean w1)). cbv zeta.
      rewrite (bind_ok _ _ _ _ _ Hu). reflexivity.
    + cbn. congruence.
    + cbn. repeat split. exists script. rewrite Hb1, Hb0. reflexivity.
  - apply Hweak.
    eapply Hfail;
      [apply Hbody; rewrite (bind_ok _ _ _ _ _ (Hclean w1)); cbv zeta;
       apply bind_throw, Hu
      |congruence|congruence].
Qed.

(** X20.  Without a model key nothing is asked of the model: [generate]
    throws the key error at once, and both the queue-triggered generator
    and the orchestrator's [processWorkItem] answer with an error result
    while store, queues and trace stay as they were. *)
Theorem no_key_no_model_call (env : Env) (binding : option string)
    (q : QueueItem) (wi : WorkItem) (w : World) :
  truthy_str (getenv env "AZURE_OPENAI_API_KEY") = false ->
  truthy_str (getenv env "OPENAI_API_KEY") = false ->
  generate env wi w = (Throw keyRequired, w)
  /\ (exists testId w',
        main env binding (Some q) w
        = (Ok (Failed_ keyRequired testId (now env)), w')
        /\ sameState w w')
  /\ (exists r w',
        Orchestrate.processWorkItem env wi w = (Ok r, w')
        /\ Orchestrate.r_status r = "error"
        /\ Orchestrate.r_error r = Some "OpenAI API key is required"
        /\ sameState w w').
Proof.
  intros Hazure Hopenai.
  assert (Hgen : forall item w0, generate env item w0 = (Throw keyRequired, w0)).
  { intros item w0.
    unfold generate, generateTestsWithAI, generateTestsSeparately,
      getOpenAIClient, try_catch, bind.
    rewrite Hazure, Hopenai. reflexivity. }
  split; [apply Hgen|]. split.
  - destruct (prepare_returns env q w) as (workItemId&testId&item&w0&Hp&Hs0).
    destruct (failed_returns env binding keyRequired w0)
      as (failedId&w'&Hf&Hs').
    exists failedId, w'. split.
    + unfold main. erewrite try_throw; [exact Hf|].
      rewrite (bind_ok _ _ _ _ _ Hp). cbn beta iota.
      apply bind_throw, Hgen.
    + eapply sameState_trans; eassumption.
  - unfold Orchestrate.processWorkItem, draw_uuid,
      TestGenerator.generateExploratoryScenarios, getOpenAIClient,
      Orchestrate.awaiting.
    run. rewrite Hazure, Hopenai. cbn.
    eexists _, _. split; [reflexivity|]. repeat split.
Qed.

Lemma no_key_no_model_call_witness :
  let env := Scenario2.withEnv Scenario2.noKey Scenario.healthy in
  generate env Scenario.loginItem emptyWorld = (Throw keyRequired, emptyWorld)
  /\ (exists testId w',
        main env None (Some Scenario.loginMessage) emptyWorld
        = (Ok (Failed_ keyRequired testId (now env)), w')
        /\ sameState emptyWorld w')
  /\ (exists r w',
        Orchestrate.processWorkItem env Scenario.loginItem emptyWorld
        = (Ok r, w')
        /\ Orchestrate.r_status r = "error"
        /\ Orchestrate.r_error r = Some "OpenAI API key is required"
        /\ sameState emptyWorld w').
Proof.
  intros env.
  apply (no_key_no_model_call env None Scenario.loginMessage Scenario.loginItem
           emptyWorld); reflexivity.
Defined.

Lemma header_requires (tail : string) :
  includes "require"
    ("const { test, expect } = require('@playwright/test');" +:+ tail) = true.
Proof.
  change (includes "require"
            ("const { test, expect } = " +:+ "require"
             +:+ ("('@playwright/test');" +:+ tail)) = true).
  apply includes_app.
Qed.

(** X21.  A script returned by [generatePlaywrightTestScript] always
    loads its test library: it contains [require] or [import], the
    Playwright header being put in front of a script that has neither;
    and it cost exactly one model call, made for the first of the given
    scenarios or, when there is none, for the main functionality. *)
Theorem generated_scripts_load_playwright (env : Env) (wi : WorkItem)
    (scens : list json) (w w' : World) (script : string) :
  TestGenerator.generatePlaywrightTestScript env wi scens w = (Ok script, w') ->
  includes "require" script || includes "import" script = true
  /\ w' = asked w (WorkflowScriptPrompt wi
                     (match scens with
                      | first :: _ => first
                      | [] => JStr "Test the main functionality"
                      end)).
Proof.
  unfold TestGenerator.generatePlaywrightTestScript, getOpenAIClient, complete.
  run.
  destruct (_ || _); [|discriminate].
  destruct (chat env (clock w) _) as [reply|e]; [|discriminate].
  intros H. injection H as <- <-. split; [|reflexivity].
  match goal with
  | |- context [if ?c then _ else _] => destruct c eqn:Hc
  end.
  - rewrite header_requires. reflexivity.
  - apply andb_false_iff in Hc as [Hc|Hc]; apply negb_false_iff in Hc;
      rewrite Hc; [reflexivity|apply orb_true_r].
Qed.

Lemma generated_scripts_load_playwright_witness :
  let env := Scenario.withChat
               (fun _ => Ok (Scenario.plainReply "test('ok', () => {});"))
               Scenario.healthy in
  exists script w',
    TestGenerator.generatePlaywrightTestScript env Scenario.loginItem []
      emptyWorld = (Ok script, w')
    /\ includes "require" script || includes "import" script = true
    /\ w' = asked emptyWorld
                  (WorkflowScriptPrompt Scenario.loginItem
                     (JStr "Test the main functionality")).
Proof.
  intros env.
  destruct (TestGenerator.generatePlaywrightTestScript env Scenario.loginItem []
              emptyWorld) as [[script|e] w'] eqn:Hrun;
    [|vm_compute in Hrun; discriminate].
  exists script, w'. split; [reflexivity|].
  exact (generated_scripts_load_playwright env Scenario.loginItem [] emptyWorld
           w' script Hrun).
Defined.

End GeneratorExtras.

(* ===================================================================== *)
(** * The scheduled functions *)
(* ===================================================================== *)

Module BatchExtras.
Import Spec Spec2 WorldFacts Frames SafetyFacts OrchestrateFacts Orchestrate
  Batch.

Lemma awaiting_returning {A} result (call : M A) next w
    (Q : WorkItemResult -> World -> Prop) :
  (forall e w1, Q (withError e result) w1) ->
  (forall a w1, returning (next a) w1 Q) ->
  returning (awaiting result call next) w Q.
Proof.
  intros Herr Hnext. unfold awaiting, returning.
  destruct (call w) as [[a|e] w1]; [apply Hnext|].
  eexists _, _. split; [reflexivity|apply Herr].
Qed.

Section Items.
Context (env : Env).

Lemma notifyStep_settled wi r w :
  settled wi r -> returning (notifyStep env r) w (fun r' _ => settled wi r').
Proof.
  intros Hset. unfold notifyStep.
  destruct (getenv env "TEAMS_WEBHOOK_URL") as [hook|];
    [|apply returning_ret, Hset].
  case_bool_decide as Hh; [apply returning_ret, Hset|].
  unfold returning, notifyTeams. rewrite bool_decide_eq_false_2 by exact Hh.
  run. destruct (webhook env (clock w) hook) as [[]|m];
    eexists _, _; (split; [reflexivity|exact Hset]).
Qed.

Lemma processWorkItem_settled wi w :
  returning (processWorkItem env wi) w (fun r _ => settled wi r).
Proof.
  unfold processWorkItem. apply returning_bind.
  exists (uuidv4 env (clock w)). eexists. split; [reflexivity|].
  cbv zeta.
  apply awaiting_returning; [intros; repeat split; auto|intros scens w1].
  apply awaiting_returning; [intros; repeat split; auto|intros script w2].
  apply awaiting_returning; [intros; repeat split; auto|intros scriptUrl w3].
  apply awaiting_returning; [intros; repeat split; auto|intros [] w4].
  apply notifyStep_settled. repeat split; auto.
Qed.

Lemma processWorkItem_queue wi w r w' :
  processWorkItem env wi w = (Ok r, w') ->
  length (queue w')
  = (length (queue w)
     + if bool_decide (r_status r = "unknown") then 1 else 0)%nat.
Proof.
  intros Hrun.
  destruct (processWorkItem_shape env wi w)
    as (r0&w0&calls&tail&Hrun0&_&_&_&Hcases).
  rewrite Hrun in Hrun0. injection Hrun0 as <- <-.
  destruct Hcases as [(Hst&Hq&_)|(Hst&Hq&_)]; rewrite Hst, Hq.
  - rewrite bool_decide_eq_false_2 by discriminate. lia.
  - rewrite bool_decide_eq_true_2 by reflexivity. rewrite length_app.
    reflexivity.
Qed.

Lemma processOne_counts tracker createBugs wi s w :
  exists r w',
    processWorkItem env wi w = (Ok r, w')
    /\ settled wi r
    /\ processOne env tracker createBugs wi s w
       = (Ok (counted {| p_result := r; p_bugId := None |} s), w').
Proof.
  destruct (processWorkItem_settled wi w) as (r&w'&Hrun&Hset).
  exists r, w'. split; [exact Hrun|]. split; [exact Hset|].
  unfold processOne. apply try_ok. rewrite (bind_ok _ _ _ _ _ Hrun).
  destruct Hset as (_&_&_&_&[Hst|Hst]); rewrite Hst; reflexivity.
Qed.

Lemma processAll_spec tracker createBugs items :
  forall s w,
  exists entries w',
    processAll env tracker createBugs items s w = (Ok (grown s entries), w')
    /\ Forall2 entryFor items entries
    /\ length (queue w')
       = (length (queue w) + length (dispatched entries))%nat
    /\ forall other,
         processAll env other createBugs items s w
         = (Ok (grown s entries), w').
Proof.
  induction items as [|wi rest IH]; intros s w.
  - exists [], w. repeat split; auto; try (cbn; lia).
  - destruct (processOne_counts tracker createBugs wi s w)
      as (r&w1&Hrun&Hset&Hone).
    destruct (IH (counted {| p_result := r; p_bugId := None |} s) w1)
      as (entries&w'&Hall&Hfor&Hq&Hother).
    exists ({| p_result := r; p_bugId := None |} :: entries), w'.
    split; [|split; [|split]].
    + cbn [processAll]. rewrite (bind_ok _ _ _ _ _ Hone). exact Hall.
    + constructor; [split; [reflexivity|exact Hset]|exact Hfor].
    + rewrite Hq, (processWorkItem_queue wi w r w1 Hrun).
      unfold dispatched. rewrite filter_cons. cbn [p_result].
      case_bool_decide as Hst; case_decide; try contradiction; cbn; lia.
    + intros other. cbn [processAll].
      destruct (processOne_counts other createBugs wi s w)
        as (r'&w1'&Hrun'&_&Hone').
      rewrite Hrun in Hrun'. injection Hrun' as <- <-.
      rewrite (bind_ok _ _ _ _ _ Hone'). apply Hother.
Qed.

Lemma sendDailySummary_returns s w :
  exists w', sendDailySummary env s w = (Ok tt, w')
             /\ blobs w' = blobs w /\ queue w' = queue w.
Proof.
  unfold sendDailySummary.
  destruct (getenv env "TEAMS_WEBHOOK_URL") as [hook|]; [|exists w; auto].
  destruct (_ && _); [|exists w; auto].
  run. destruct (webhook env (clock w) hook) as [[]|m]; eexists; auto.
Qed.

Lemma grown_fields s entries :
  ds_results (grown s entries) = ds_results s ++ entries
  /\ ds_workItemsProcessed (grown s entries)
     = (ds_workItemsProcessed s + length entries)%nat
  /\ ds_testsPassed (grown s entries) = ds_testsPassed s
  /\ ds_testsFailed (grown s entries) = ds_testsFailed s
  /\ ds_highPriorityFailures (grown s entries) = ds_highPriorityFailures s
  /\ ds_error (grown s entries) = ds_error s.
Proof.
  revert s. induction entries as [|p rest IH]; intros s.
  - cbn. rewrite app_nil_r. repeat split; lia.
  - destruct (IH (counted p s)) as (H1&H2&H3&H4&H5&H6).
    change (grown s (p :: rest)) with (grown (counted p s) rest).
    rewrite H1, H2, H3, H4, H5, H6. cbn. rewrite <- app_assoc.
    repeat split; lia.
Qed.

(** The four ways a batch can go. *)
Lemma main_cases tracker w :
  exists s w',
    main env tracker w = (Ok s, w')
    /\ (forall other, fetched other = fetched tracker ->
                      main env other w = (Ok s, w'))
    /\ ((configured env = false
         /\ s = withErrorMessage "Azure DevOps configuration is required"
                                 (initialSummary env)
         /\ w' = w)
        \/ (configured env = true
            /\ (exists m, fetched tracker = Throw m
                          /\ s = withErrorMessage m (initialSummary env))
            /\ sameState w w')
        \/ (configured env = true /\ fetched tracker = Ok []
            /\ s = initialSummary env /\ sameState w w')
        \/ (configured env = true
            /\ exists items entries,
                 fetched tracker = Ok items /\ items <> []
                 /\ s = grown (initialSummary env) entries
                 /\ Forall2 entryFor items entries
                 /\ length (queue w')
                    = (length (queue w) + length (dispatched entries))%nat)).
Proof.
  unfold main. cbv zeta.
  destruct (configured env) eqn:Hconf; cbn [negb].
  2:{ eexists _, _. split; [reflexivity|]. split; [reflexivity|]. left. auto. }
  unfold try_catch at 1. unfold bind at 1. unfold bind at 1.
  unfold tick at 1. unfold lift at 1.
  destruct (fetched tracker) as [[|wi rest]|m] eqn:Hf.
  - eexists _, _. split; [reflexivity|]. split.
    + intros other Ho. unfold try_catch, bind, tick, lift. rewrite Ho.
      reflexivity.
    + right. right. left. repeat split.
  - set (w0 := {| blobs := blobs w; queue := queue w; trace := trace w;
                  clock := S (clock w) |}).
    destruct (processAll_spec tracker
                match getenv env "CREATE_BUGS_FOR_FAILURES" with
                | Some v => bool_decide (v = "true")
                | None => false
                end (wi :: rest) (initialSummary env) w0)
      as (entries&w1&Hall&Hfor&Hq&Hother).
    destruct (sendDailySummary_returns (grown (initialSummary env) entries) w1)
      as (w2&Hsend&_&Hq2).
    exists (grown (initialSummary env) entries), w2. split; [|split].
    + rewrite (bind_ok _ _ _ _ _ Hall), (bind_ok _ _ _ _ _ Hsend).
      reflexivity.
    + intros other Ho. unfold try_catch, bind at 1, tick, lift.
      unfold bind at 1. rewrite Ho. fold w0.
      rewrite (bind_ok _ _ _ _ _ (Hother other)), (bind_ok _ _ _ _ _ Hsend).
      reflexivity.
    + right. right. right. split; [reflexivity|].
      exists (wi :: rest), entries. repeat split; auto.
      rewrite Hq2, Hq. reflexivity.
  - eexists _, _. split; [reflexivity|]. split.
    + intros other Ho. unfold try_catch, bind, tick, lift. rewrite Ho.
      reflexivity.
    + right. left. split; [reflexivity|]. split; [eauto|repeat split].
Qed.

End Items.

Lemma entries_settled items entries :
  Forall2 entryFor items entries ->
  Forall (fun p => p_bugId p = None /\ r_bugCreated (p_result p) = false
                   /\ r_evidenceURLs (p_result p) = []) entries
  /\ (fun p => r_workItemId (p_result p)) <$> entries = workItemId <$> items
  /\ length entries = length items.
Proof.
  induction 1 as [|wi p items entries (Hbug&Hid&_&Hev&Hcr&_) _ (IH1&IH2&IH3)].
  - repeat split. constructor.
  - split; [constructor; auto|]. cbn. rewrite IH2, IH3, Hid. auto.
Qed.

(** X22.  The scheduled batch never counts a test and never files a
    bug: whatever the environment, the tracker and the collaborators do,
    [main] returns a summary with no passed and no failed tests and no
    high-priority failures, in which every processed work item has an
    entry without evidence and without a bug; the tracker is asked for
    the work items and for nothing else, so the outcome is the same for
    any tracker that returns the same work items. *)
Theorem batch_never_counts_tests (env : Env) (tracker : Tracker) (w : World) :
  exists s w',
    main env tracker w = (Ok s, w')
    /\ ds_testsPassed s = O /\ ds_testsFailed s = O
    /\ ds_highPriorityFailures s = []
    /\ ds_workItemsProcessed s = length (ds_results s)
    /\ Forall (fun p => p_bugId p = None /\ r_bugCreated (p_result p) = false
                        /\ r_evidenceURLs (p_result p) = []) (ds_results s)
    /\ forall other, fetched other = fetched tracker ->
                     main env other w = (Ok s, w').
Proof.
  destruct (main_cases env tracker w)
    as (s&w'&Hrun&Hother
        &[(_&->&_)|[(_&(m&_&->)&_)|[(_&_&->&_)
                                   |(_&items&entries&_&_&->&Hfor&_)]]]);
    eexists _, w'; (split; [exact Hrun|]);
    try (cbn; repeat split; auto; constructor).
  destruct (grown_fields (initialSummary env) entries)
    as (H1&H2&H3&H4&H5&_).
  destruct (entries_settled items entries Hfor) as (Hall&_&_).
  rewrite H1, H2, H3, H4, H5. cbn. repeat split; auto.
Qed.

Lemma batch_never_counts_tests_witness :
  let env := Scenario2.withEnv Scenario2.devops Scenario.healthy in
  exists s w',
    main env Scenario2.twoItems emptyWorld = (Ok s, w')
    /\ ds_testsPassed s = O /\ ds_testsFailed s = O
    /\ ds_highPriorityFailures s = []
    /\ ds_workItemsProcessed s = length (ds_results s)
    /\ Forall (fun p => p_bugId p = None /\ r_bugCreated (p_result p) = false
                        /\ r_evidenceURLs (p_result p) = []) (ds_results s)
    /\ forall other, fetched other = fetched Scenario2.twoItems ->
                     main env other emptyWorld = (Ok s, w').
Proof.
  intros env. exact (batch_never_counts_tests env Scenario2.twoItems emptyWorld).
Defined.

(** X23.  With the tracker configured and answering, every work item it
    returns is processed, in order: the summary has one entry per work
    item, carrying its identifier, and no error; and the queues grew by
    exactly one envelope for every entry whose status is still
    [unknown], the entries with status [error] having sent nothing. *)
Theorem batch_processes_every_item (env : Env) (tracker : Tracker)
    (items : list WorkItem) (w : World) :
  configured env = true ->
  fetched tracker = Ok items ->
  exists s w',
    main env tracker w = (Ok s, w')
    /\ ds_error s = None
    /\ ds_workItemsProcessed s = length items
    /\ (fun p => r_workItemId (p_result p)) <$> ds_results s
       = workItemId <$> items
    /\ length (queue w')
       = (length (queue w) + length (dispatched (ds_results s)))%nat.
Proof.
  intros Hconf Hfetch.
  destruct (main_cases env tracker w)
    as (s&w'&Hrun&_
        &[(Hno&_)|[(_&(m&Hm&_)&_)|[(_&Hnil&->&Hs)
                                  |(_&items'&entries&Hf&_&->&Hfor&Hq)]]]);
    [congruence|congruence| |]; eexists _, w'; (split; [exact Hrun|]).
  - rewrite Hnil in Hfetch. injection Hfetch as <-.
    destruct Hs as (_&->&_). cbn. repeat split. lia.
  - rewrite Hf in Hfetch. injection Hfetch as ->.
    destruct (grown_fields (initialSummary env) entries)
      as (H1&H2&_&_&_&H6).
    destruct (entries_settled items entries Hfor) as (_&Hids&Hlen).
    rewrite H1, H2, H6. cbn. rewrite Hlen. repeat split; auto.
Qed.

Lemma batch_processes_every_item_witness :
  let env := Scenario2.withEnv Scenario2.devops Scenario.healthy in
  exists s w',
    main env Scenario2.twoItems emptyWorld = (Ok s, w')
    /\ ds_error s = None
    /\ ds_workItemsProcessed s = length [Scenario.loginItem; Scenario2.resetItem]
    /\ (fun p => r_workItemId (p_result p)) <$> ds_results s
       = workItemId <$> [Scenario.loginItem; Scenario2.resetItem]
    /\ length (queue w')
       = (length (queue emptyWorld) + length (dispatched (ds_results s)))%nat.
Proof.
  intros env.
  apply (batch_processes_every_item env Scenario2.twoItems
           [Scenario.loginItem; Scenario2.resetItem] emptyWorld);
    reflexivity.
Defined.

(** X24.  A batch that cannot start does nothing: without the tracker's
    configuration, with a tracker that fails, or with no work item to
    process, [main] returns an empty summary and store, queues and trace
    are as before; the summary carries an error in the first two cases
    only, and without configuration not even the tracker is asked. *)
Theorem batch_with_nothing_to_do (env : Env) (tracker : Tracker) (w : World) :
  configured env = false \/ (exists m, fetched tracker = Throw m)
  \/ fetched tracker = Ok [] ->
  exists s w',
    main env tracker w = (Ok s, w')
    /\ sameState w w'
    /\ ds_workItemsProcessed s = O /\ ds_results s = []
    /\ (ds_error s = None <-> configured env = true /\ fetched tracker = Ok [])
    /\ (configured env = false -> w' = w).
Proof.
  intros Hidle.
  destruct (main_cases env tracker w)
    as (s&w'&Hrun&_
        &[(Hno&->&Hw)|[(Hconf&(m&Hm&->)&Hs)|[(Hconf&Hnil&->&Hs)
                                           |(Hconf&items&entries&Hf&Hne&_)]]]);
    eexists _, w'; (split; [exact Hrun|]).
  - subst w'. split; [apply sameState_refl|]. cbn.
    repeat split; auto; try discriminate. intros (?&_). congruence.
  - split; [exact Hs|]. cbn. repeat split; auto; try discriminate;
      try congruence. intros (_&?). congruence.
  - split; [exact Hs|]. cbn. repeat split; auto. congruence.
  - exfalso. destruct Hidle as [?|[(m&?)|?]]; congruence.
Qed.

Lemma batch_with_nothing_to_do_witness :
  exists s w',
    main Scenario.healthy Scenario2.twoItems Scenario.scriptOnly = (Ok s, w')
    /\ sameState Scenario.scriptOnly w'
    /\ ds_workItemsProcessed s = O /\ ds_results s = []
    /\ (ds_error s = None
        <-> configured Scenario.healthy = true
            /\ fetched Scenario2.twoItems = Ok [])
    /\ (configured Scenario.healthy = false -> w' = Scenario.scriptOnly).
Proof.
  apply (batch_with_nothing_to_do Scenario.healthy Scenario2.twoItems
           Scenario.scriptOnly).
  left. reflexivity.
Defined.

End BatchExtras.

Module FetchExtras.
Import Spec Spec2 WorldFacts Frames FetchWorkItems.

Lemma filter_split_length (rs : list EnqueueResult) :
  (length (filter (fun r => er_success r = true) rs)
   + length (filter (fun r => er_success r = false) rs))%nat = length rs.
Proof.
  induction rs as [|r rs IH]; [reflexivity|].
  rewrite !filter_cons. destruct (er_success r);
    repeat case_decide; try congruence; cbn; lia.
Qed.

Lemma delivered_cons env queueName r report i items :
  delivered env queueName (r :: report) (i :: items)
  = (if er_success r then [(queueName, queueMessage env i)] else [])
    ++ delivered env queueName report items.
Proof. unfold delivered. cbn. destruct (er_success r); reflexivity. Qed.

(** Every item is tried once and reported; the queue holds what the
    report says was sent. *)
Lemma enqueueWorkItems_spec env queueName items :
  forall w,
  exists report w',
    enqueueWorkItems env queueName items w = (Ok report, w')
    /\ Forall2 (fun i r => er_workItemId r = it_workItemId i
                           /\ (er_success r = true <-> er_error r = None))
               items report
    /\ queue w' = queue w ++ delivered env queueName report items
    /\ length (delivered env queueName report items)
       = length (filter (fun r => er_success r = true) report)
    /\ blobs w' = blobs w.
Proof.
  induction items as [|i rest IH]; intros w.
  - exists [], w. cbn. rewrite app_nil_r. repeat split. constructor.
  - cbn [enqueueWorkItems].
    destruct (enqueueMessage_cases env queueName (queueMessage env i) w)
      as [Hsend|(m&w1&Hsend&(Hb1&Hq1&_))].
    + destruct (IH (sent w queueName (queueMessage env i)))
        as (report&w'&Hrest&Hfor&Hq&Hlen&Hb).
      eexists (_ :: report), w'. split; [|split; [|split; [|split]]].
      * erewrite bind_ok;
          [|apply try_ok; rewrite (bind_ok _ _ _ _ _ Hsend); reflexivity].
        rewrite (bind_ok _ _ _ _ _ Hrest). reflexivity.
      * constructor; [|exact Hfor]. cbn. repeat split; auto.
      * rewrite Hq, delivered_cons. cbn. rewrite <- app_assoc. reflexivity.
      * rewrite delivered_cons, filter_cons. cbn [er_success].
        destruct (decide (true = true)) as [_|Hn]; [|congruence].
        cbn. rewrite Hlen. reflexivity.
      * rewrite Hb. reflexivity.
    + destruct (IH w1) as (report&w'&Hrest&Hfor&Hq&Hlen&Hb).
      eexists (_ :: report), w'. split; [|split; [|split; [|split]]].
      * erewrite bind_ok;
          [|erewrite try_throw;
            [reflexivity|rewrite (bind_throw _ _ _ _ _ Hsend); reflexivity]].
        rewrite (bind_ok _ _ _ _ _ Hrest). reflexivity.
      * constructor; [|exact Hfor]. cbn. repeat split; auto; discriminate.
      * rewrite Hq, Hq1, delivered_cons. reflexivity.
      * rewrite delivered_cons, filter_cons. cbn [er_success].
        destruct (decide (false = true)) as [Hn|_]; [congruence|].
        exact Hlen.
      * rewrite Hb, Hb1. reflexivity.
Qed.

(** X25.  [enqueueWorkItems] tries every work item once and goes on
    after a failure: it never throws, its report has one entry per work
    item in order, and the messages left on the queue are those of the
    items reported as sent, in order, and no others; the store is not
    touched. *)
Theorem enqueue_report_matches_queue (env : Env) (queueName : string)
    (items : list Item) (w : World) :
  exists report w',
    enqueueWorkItems env queueName items w = (Ok report, w')
    /\ er_workItemId <$> report = it_workItemId <$> items
    /\ queue w' = queue w ++ delivered env queueName report items
    /\ Forall (fun r => er_success r = false <-> is_Some (er_error r)) report
    /\ blobs w' = blobs w.
Proof.
  destruct (enqueueWorkItems_spec env queueName items w)
    as (report&w'&Hrun&Hfor&Hq&_&Hb).
  exists report, w'. split; [exact Hrun|].
  split; [|split; [exact Hq|split; [|exact Hb]]].
  - clear Hrun Hq. induction Hfor as [|i r items report (Hid&_) _ IH];
      [reflexivity|]. cbn. rewrite Hid, IH. reflexivity.
  - clear Hrun Hq. induction Hfor as [|i r items report (_&Hok) _ IH];
      constructor; [|exact IH].
    destruct (er_success r), (er_error r); split; intros H;
      try discriminate; try (destruct H; discriminate); eauto.
    + destruct Hok as [Hok _]. specialize (Hok eq_refl). discriminate.
    + destruct Hok as [_ Hok]. specialize (Hok eq_refl). discriminate.
Qed.

(** X26.  The summary of the fetch function adds up: [main] never
    throws and never touches the store.  When it reports work items,
    each one found is counted as either enqueued or failed, the report
    has one entry per work item, and the queues grew by exactly the
    number counted as enqueued; when it reports none, or an error, the
    queues are as before. *)
Theorem fetch_summary_adds_up (env : Env) (boards : Boards) (w : World) :
  exists s w',
    main env boards w = (Ok s, w')
    /\ blobs w' = blobs w
    /\ match s with
       | Fetched found enqueued failed report =>
           (enqueued + failed)%nat = found
           /\ length report = found
           /\ length (queue w') = (length (queue w) + enqueued)%nat
       | NothingFound => queue w' = queue w
       | FetchFailed _ => queue w' = queue w
       end.
Proof.
  unfold main. cbv zeta.
  destruct (Batch.configured env); cbn [negb].
  2:{ eexists _, _. split; [reflexivity|]. cbn. auto. }
  unfold queryWorkItemsByStatus, getWorkItemDetails. run.
  destruct (queried boards) as [[|id ids]|m].
  - eexists _, _. split; [reflexivity|]. cbn. auto.
  - destruct (details boards (id :: ids)) as [workItems|m].
    + match goal with
      | |- context [enqueueWorkItems env ?q workItems ?w0] =>
          destruct (enqueueWorkItems_spec env q workItems w0)
            as (report&w'&Hrun&Hfor&Hq&Hlen&Hb); rewrite Hrun
      end.
      eexists _, _. split; [reflexivity|]. cbn.
      split; [exact Hb|].
      pose proof (Forall2_length _ _ _ Hfor) as Hsame.
      split; [rewrite filter_split_length; auto|].
      split; [auto|]. rewrite Hq, length_app, Hlen. reflexivity.
    + eexists _, _. split; [reflexivity|]. cbn. auto.
  - eexists _, _. split; [reflexivity|]. cbn. auto.
Qed.

End FetchExtras.
